(** * libwebcam dynamic controls: document resolution and device application

    A shallow embedding of [libwebcam/dynctrl.c]: the symbol table of named
    constants, GUID and integer literal parsing, the control registry, the
    mapping resolver, the diagnostic log, the per-pass document walk and the
    per-device loop of [c_add_control_mappings_from_file].

    Conventions of the embedding:
    - a C string is a [string]; a nullable pointer is an [option];
    - machine integers are [Z] with the wrap-around written out;
    - the parse context and the outside world (driver, device list) are
      threaded explicitly through a small state monad whose computations
      either return or abort (failed [assert], NULL dereference);
    - memory allocation always succeeds. *)

From Stdlib Require Import ZArith List String Ascii Bool Lia.
Import ListNotations.
Open Scope string_scope.
Open Scope Z_scope.

(** ** Machine integers *)

Definition to_u8 (z : Z) : Z := z mod 256.
Definition to_u16 (z : Z) : Z := z mod 65536.
Definition to_u32 (z : Z) : Z := z mod 4294967296.
(** Conversion to a 32-bit [int] (two's complement wrap-around). *)
Definition to_int (z : Z) : Z := (z + 2147483648) mod 4294967296 - 2147483648.

Definition INT_MAX : Z := 2147483647.
(** [long] on LP64 Linux. *)
Definition LONG_MAX : Z := 9223372036854775807.
Definition LONG_MIN : Z := -9223372036854775808.

(** [errno] values of Linux. *)
Definition EPERM : Z := 1.
Definition EEXIST : Z := 17.
Definition EINVAL : Z := 22.

(** ** Result codes *)

(** Modelled from the spec: the enumeration [CResult], which [webcam.h]
    declares and which is not among the sources. These are the result codes
    that [dynctrl.c] names: success, [NoSupportedDevice]
    ([C_INVALID_DEVICE]), [MalformedDocument] ([C_PARSE_ERROR]),
    [OutOfMemory], [InvalidArgument] and the codes of the device layer.
    [C_SUCCESS] is the zero of the enumeration: every [if(ret)] of the
    source tests for an error. *)
Inductive CResult : Set :=
| C_SUCCESS
| C_NOT_IMPLEMENTED
| C_INIT_ERROR
| C_INVALID_ARG
| C_INVALID_DEVICE
| C_BUFFER_TOO_SMALL
| C_NO_MEMORY
| C_V4L2_ERROR
| C_PARSE_ERROR
| C_CANNOT_WRITE.

(** The C truth value of a result code: [if(ret)]. *)
Definition is_error (ret : CResult) : bool :=
  match ret with
  | C_SUCCESS => false
  | _ => true
  end.

(** ** Characters and C strings *)

Definition cstr := string.

Definition char_code (c : ascii) : Z := Z.of_N (N_of_ascii c).

Definition in_range (lo hi : ascii) (c : ascii) : bool :=
  (char_code lo <=? char_code c) && (char_code c <=? char_code hi).

Definition isxdigit (c : ascii) : bool :=
  in_range "0" "9" c || in_range "a" "f" c || in_range "A" "F" c.

(** [isspace] in the C locale: space, \t, \n, \v, \f, \r. *)
Definition isspace (c : ascii) : bool :=
  (char_code c =? 32) || ((9 <=? char_code c) && (char_code c <=? 13)).

(** [tolower], as a character code. *)
Definition tolower (c : ascii) : Z :=
  if in_range "A" "Z" c then char_code c + 32 else char_code c.

(** The byte at index [i] of the buffer of a C string: its characters, then
    the terminating NUL. *)
Definition char_at (s : cstr) (i : nat) : ascii :=
  match String.get i s with
  | Some c => c
  | None => zero
  end.

Definition strlen (s : cstr) : nat := String.length s.

(** What a pointer into memory lets the code read: the byte at each offset. *)
Definition memory := nat -> ascii.

(** The memory seen through a pointer to the C string [s]: the characters of
    [s], its terminator, and then whatever bytes follow the buffer, which
    [adjacent] supplies. Offsets above [strlen s] are outside the buffer. *)
Definition string_memory (adjacent : nat -> ascii) (s : cstr) : memory :=
  fun off =>
    if (off <=? strlen s)%nat then char_at s off
    else adjacent (off - S (strlen s))%nat.

(** ** GUID helpers *)

Definition GUID_SIZE : nat := 16.

(** A GUID in its stored form: 16 bytes. *)
Definition guid_bytes := list Z.

(** [HEX_DECODE_CHAR(c)]. With a signed [char] the value of a byte above
    127 differs by 256 from [char_code]; the stores into [__u8] below do not
    see the difference. *)
Definition HEX_DECODE_CHAR (c : ascii) : Z :=
  if (char_code "0" <=? char_code c) && (char_code c <=? char_code "9")
  then char_code c - char_code "0"
  else tolower c - char_code "a" + 10.

(** [HEX_DECODE_BYTE(cc)] with [cc = guid + off]: reads [cc[0]] and
    [cc[1]]. *)
Definition HEX_DECODE_BYTE (guid : memory) (off : nat) : Z :=
  Z.shiftl (HEX_DECODE_CHAR (guid off)) 4 + HEX_DECODE_CHAR (guid (S off)).

(** The offsets [k] of [array[i] = HEX_DECODE_BYTE(guid + k)], for
    [i = 0 .. 15], as [guid_to_byte_array] lists them. *)
Definition guid_byte_offsets : list nat :=
  [ 6; 4; 2; 0;
    11; 9;
    16; 14;
    19; 21;
    24; 26; 28; 30; 32; 34 ]%nat.

(** [guid_to_byte_array]: no validation, sixteen stores into a [__u8]
    array. *)
Definition guid_to_byte_array (guid : memory) : guid_bytes :=
  map (fun off => to_u8 (HEX_DECODE_BYTE guid off)) guid_byte_offsets.

(** Every offset that [guid_to_byte_array] dereferences. *)
Definition guid_read_offsets : list nat :=
  flat_map (fun off => [off; S off]) guid_byte_offsets.

(** The positions of the hyphens: [case 8: case 13: case 18: case 23:]. *)
Definition is_hyphen_index (i : nat) : bool :=
  (i =? 8)%nat || (i =? 13)%nat || (i =? 18)%nat || (i =? 23)%nat.

(** The loop of [is_valid_guid], from index [i] with [n] iterations left;
    it returns at the first character that does not fit. *)
Fixpoint is_valid_guid_loop (str : cstr) (i n : nat) : bool :=
  match n with
  | O => true
  | S n' =>
      if is_hyphen_index i then
        if Ascii.eqb (char_at str i) "-" then is_valid_guid_loop str (S i) n'
        else false
      else
        if isxdigit (char_at str i) then is_valid_guid_loop str (S i) n'
        else false
  end.

(** [is_valid_guid] on a non-NULL string. The guard of the source is
    [string == NULL && strlen(string) != 36]; its first conjunct is false
    here, so the length test decides nothing. *)
Definition is_valid_guid (str : cstr) : bool :=
  let string_is_null := false in
  if string_is_null && negb (strlen str =? 36)%nat then false
  else is_valid_guid_loop str 0 36.

(** ** Integers: strtol *)

Definition digit_value (c : ascii) : option Z :=
  if in_range "0" "9" c then Some (char_code c - char_code "0")
  else if in_range "a" "z" c then Some (char_code c - char_code "a" + 10)
  else if in_range "A" "Z" c then Some (char_code c - char_code "A" + 10)
  else None.

(** Digits of [base] from the front of [s]: the accumulated value and the
    number of characters consumed. *)
Fixpoint strtol_digits (base : Z) (s : cstr) (acc : Z) (n : nat) : Z * nat :=
  match s with
  | EmptyString => (acc, n)
  | String c s' =>
      match digit_value c with
      | Some d =>
          if d <? base then strtol_digits base s' (acc * base + d) (S n)
          else (acc, n)
      | None => (acc, n)
      end
  end.

Fixpoint skip_spaces (s : cstr) (n : nat) : cstr * nat :=
  match s with
  | String c s' => if isspace c then skip_spaces s' (S n) else (s, n)
  | EmptyString => (s, n)
  end.

Definition is_x (c : ascii) : bool := Ascii.eqb c "x" || Ascii.eqb c "X".

(** [strtol(s, &end, base)] for [base] 0 or 10: the value and the offset of
    [end] in [s]. Leading white space, an optional sign, for base 0 the
    prefixes [0x] (hexadecimal) and [0] (octal); out-of-range values are
    clamped to [LONG_MAX] and [LONG_MIN]; without any digit the value is 0
    and [end] is [s] (after a lone [0x] prefix, [end] is at the [x]). *)
Definition strtol (s : cstr) (base : Z) : Z * nat :=
  let '(s1, n1) := skip_spaces s 0 in
  let '(negative, s2, n2) :=
    match s1 with
    | String "-" r => (true, r, S n1)
    | String "+" r => (false, r, S n1)
    | _ => (false, s1, n1)
    end in
  let '(base', s3, n3, after_prefix) :=
    if base =? 0 then
      match s2 with
      | String "0" (String c r) =>
          if is_x c then (16, r, S (S n2), true) else (8, s2, n2, false)
      | String "0" EmptyString => (8, s2, n2, false)
      | _ => (10, s2, n2, false)
      end
    else (base, s2, n2, false) in
  let '(v, n4) := strtol_digits base' s3 0 n3 in
  if (n4 =? n3)%nat then
    if after_prefix then (0, pred n3) else (0, O)
  else
    let r := if negative then Z.max LONG_MIN (- v) else Z.min LONG_MAX v in
    (r, n4).

(** [atoi(s)] *)
Definition atoi (s : cstr) : Z := to_int (fst (strtol s 10)).

(** [is_valid_integer_string]: [None] for 0, [Some value] for 1 (the value
    stored through the pointer). *)
Definition is_valid_integer_string (str : option cstr) : option Z :=
  match str with
  | None => None
  | Some s =>
      let '(v, e) := strtol s 0 in
      let ret := to_int v in
      if negb (Ascii.eqb (char_at s 0) zero) && Ascii.eqb (char_at s e) zero
      then Some ret
      else None
  end.

(** [is_valid_size] *)
Definition is_valid_size (value max : Z) : bool :=
  (value >=? 0) && (value <=? (if max <? 0 then INT_MAX else max)).

(** [is_valid_size_string] *)
Definition is_valid_size_string (str : option cstr) (max : Z) : option Z :=
  match is_valid_integer_string str with
  | Some temp_value =>
      if is_valid_size temp_value max then Some temp_value else None
  | None => None
  end.

(** [string_to_version] on a non-NULL string: [(major, minor, found)]. *)
Definition string_to_version (str : cstr) : Z * Z * bool :=
  let '(v, e) := strtol str 10 in
  let maj := to_u32 v in
  let min :=
    if Ascii.eqb (char_at str e) "."
    then to_u32 (atoi (substring (S e) (strlen str - S e) str))
    else 0 in
  (maj, min, negb (e =? 0)%nat).

(** ** Names of requests and types *)

(** Request flags of the uvcvideo driver interface. *)
Definition UVC_CTRL_FLAG_SET_CUR : Z := Z.shiftl 1 0.
Definition UVC_CTRL_FLAG_GET_CUR : Z := Z.shiftl 1 1.
Definition UVC_CTRL_FLAG_GET_MIN : Z := Z.shiftl 1 2.
Definition UVC_CTRL_FLAG_GET_MAX : Z := Z.shiftl 1 3.
Definition UVC_CTRL_FLAG_GET_RES : Z := Z.shiftl 1 4.
Definition UVC_CTRL_FLAG_GET_DEF : Z := Z.shiftl 1 5.
Definition UVC_CTRL_FLAG_AUTO_UPDATE : Z := Z.shiftl 1 7.

(** [xmlStrEqual] with a non-NULL second argument. *)
Definition xmlStrEqual (a : option cstr) (b : cstr) : bool :=
  match a with
  | Some s => String.eqb s b
  | None => false
  end.

(** [get_uvc_request_by_name] *)
Definition get_uvc_request_by_name (name : option cstr) : Z :=
  match name with
  | None => 0
  | Some _ =>
      if xmlStrEqual name "SET_CUR" then UVC_CTRL_FLAG_SET_CUR
      else if xmlStrEqual name "GET_CUR" then UVC_CTRL_FLAG_GET_CUR
      else if xmlStrEqual name "GET_MIN" then UVC_CTRL_FLAG_GET_MIN
      else if xmlStrEqual name "GET_MAX" then UVC_CTRL_FLAG_GET_MAX
      else if xmlStrEqual name "GET_RES" then UVC_CTRL_FLAG_GET_RES
      else if xmlStrEqual name "GET_DEF" then UVC_CTRL_FLAG_GET_DEF
      else 0
  end.

(** [enum uvc_control_data_type], with [-1] for an unknown name. *)
Definition UVC_CTRL_DATA_TYPE_RAW : Z := 0.
Definition UVC_CTRL_DATA_TYPE_SIGNED : Z := 1.
Definition UVC_CTRL_DATA_TYPE_UNSIGNED : Z := 2.
Definition UVC_CTRL_DATA_TYPE_BOOLEAN : Z := 3.
Definition UVC_CTRL_DATA_TYPE_ENUM : Z := 4.
Definition UVC_CTRL_DATA_TYPE_BITMASK : Z := 5.

(** [get_uvc_ctrl_type_by_name] *)
Definition get_uvc_ctrl_type_by_name (name : option cstr) : Z :=
  match name with
  | None => -1
  | Some _ =>
      if xmlStrEqual name "UVC_CTRL_DATA_TYPE_RAW"
      then UVC_CTRL_DATA_TYPE_RAW
      else if xmlStrEqual name "UVC_CTRL_DATA_TYPE_SIGNED"
      then UVC_CTRL_DATA_TYPE_SIGNED
      else if xmlStrEqual name "UVC_CTRL_DATA_TYPE_UNSIGNED"
      then UVC_CTRL_DATA_TYPE_UNSIGNED
      else if xmlStrEqual name "UVC_CTRL_DATA_TYPE_BOOLEAN"
      then UVC_CTRL_DATA_TYPE_BOOLEAN
      else if xmlStrEqual name "UVC_CTRL_DATA_TYPE_ENUM"
      then UVC_CTRL_DATA_TYPE_ENUM
      else if xmlStrEqual name "UVC_CTRL_DATA_TYPE_BITMASK"
      then UVC_CTRL_DATA_TYPE_BITMASK
      else -1
  end.

(** [enum v4l2_ctrl_type] of the V4L2 interface. *)
Definition V4L2_CTRL_TYPE_INTEGER : Z := 1.
Definition V4L2_CTRL_TYPE_BOOLEAN : Z := 2.
Definition V4L2_CTRL_TYPE_STRING : Z := 7.

(** [get_v4l2_ctrl_type_by_name]; [raw] is the compile-time switch
    [ENABLE_RAW_CONTROLS]. *)
Definition get_v4l2_ctrl_type_by_name (raw : bool) (name : option cstr) : Z :=
  match name with
  | None => 0
  | Some _ =>
      if xmlStrEqual name "V4L2_CTRL_TYPE_INTEGER"
      then V4L2_CTRL_TYPE_INTEGER
      else if xmlStrEqual name "V4L2_CTRL_TYPE_BOOLEAN"
      then V4L2_CTRL_TYPE_BOOLEAN
      else if raw && xmlStrEqual name "V4L2_CTRL_TYPE_STRING"
      then V4L2_CTRL_TYPE_STRING
      else 0
  end.

(** ** White space normalisation *)

Fixpoint strip_leading_spaces (s : cstr) : cstr :=
  match s with
  | String c s' => if isspace c then strip_leading_spaces s' else s
  | EmptyString => s
  end.

(** The filter loop of [normalize_string]: [pending] records that a run of
    white space was skipped and a single space is owed before the next
    character; a run that reaches the end of the input emits nothing. *)
Fixpoint normalize_loop (pending : bool) (s : cstr) : cstr :=
  match s with
  | EmptyString => EmptyString
  | String c s' =>
      if isspace c then normalize_loop true s'
      else if pending then String " " (String c (normalize_loop false s'))
      else String c (normalize_loop false s')
  end.

(** [normalize_string] *)
Definition normalize_string (input : option cstr) : option cstr :=
  match input with
  | None => None
  | Some s => Some (normalize_loop false (strip_leading_spaces s))
  end.

(** ** The symbol table *)

Inductive ConstantType : Set := CT_INVALID | CT_INTEGER | CT_GUID.

Definition ConstantType_eqb (a b : ConstantType) : bool :=
  match a, b with
  | CT_INVALID, CT_INVALID | CT_INTEGER, CT_INTEGER | CT_GUID, CT_GUID => true
  | _, _ => false
  end.

(** [struct _Constant]; the list link is the list itself. Of the two
    members of the union, only the one that [c_type] selects is meaningful. *)
Record Constant : Type := mkConstant {
  c_type : ConstantType;
  c_name : cstr;
  c_value : Z;
  c_guid : guid_bytes
}.

(** [lookup_constant]: the first element, from the head of the list, with
    the name and, unless [find_type] is [CT_INVALID], with the type. *)
Fixpoint lookup_constant (find_name : cstr) (find_type : ConstantType)
    (constants : list Constant) : option Constant :=
  match constants with
  | [] => None
  | elem :: next =>
      if String.eqb (c_name elem) find_name
         && (if ConstantType_eqb find_type CT_INVALID then true
             else ConstantType_eqb (c_type elem) find_type)
      then Some elem
      else lookup_constant find_name find_type next
  end.

(** [lookup_or_convert_to_integer]: the result code and the integer left in
    [*value], whose previous content is [value]. *)
Definition lookup_or_convert_to_integer (text : option cstr) (value : Z)
    (constants : list Constant) : CResult * Z :=
  match text with
  | None => (C_PARSE_ERROR, value)
  | Some s =>
      match is_valid_integer_string text with
      | Some v => (C_SUCCESS, v)
      | None =>
          match lookup_constant s CT_INTEGER constants with
          | Some constant => (C_SUCCESS, c_value constant)
          | None => (C_PARSE_ERROR, value)
          end
      end
  end.

(** [lookup_or_convert_to_guid]: the result code and the content of the
    [guid] buffer, whose previous content is [guid]. *)
Definition lookup_or_convert_to_guid (adjacent : cstr -> nat -> ascii)
    (text : option cstr) (guid : guid_bytes) (constants : list Constant)
    : CResult * guid_bytes :=
  match text with
  | None => (C_PARSE_ERROR, guid)
  | Some s =>
      if is_valid_guid s
      then (C_SUCCESS, guid_to_byte_array (string_memory (adjacent s) s))
      else
        match lookup_constant s CT_GUID constants with
        | Some constant => (C_SUCCESS, c_guid constant)
        | None => (C_PARSE_ERROR, guid)
        end
  end.

(** ** XML trees *)

(** The part of a libxml2 tree that the code reads: element nodes with a
    name, a line number, properties and children; text nodes; any other
    node. The [next] pointers of siblings are the order of [children]. *)
#[warnings="-register-all"]
Inductive xmlNode : Type :=
| XML_ELEMENT_NODE (name : cstr) (line : Z) (properties : list (cstr * cstr))
    (children : list xmlNode)
| XML_TEXT_NODE (content : cstr)
| XML_OTHER_NODE.

Record xmlDoc : Type := mkDoc { xmlDocGetRootElement : option xmlNode }.

Definition node_children (node : xmlNode) : list xmlNode :=
  match node with
  | XML_ELEMENT_NODE _ _ _ children => children
  | _ => []
  end.

Definition node_line (node : xmlNode) : Z :=
  match node with
  | XML_ELEMENT_NODE _ line _ _ => line
  | _ => 0
  end.

(** [cnode->type == XML_ELEMENT_NODE && xmlStrEqual(cnode->name, name)] *)
Definition is_element_named (name : cstr) (cnode : xmlNode) : bool :=
  match cnode with
  | XML_ELEMENT_NODE n _ _ _ => String.eqb n name
  | _ => false
  end.

(** [xmlGetProp] *)
Fixpoint assoc_prop (name : cstr) (props : list (cstr * cstr)) : option cstr :=
  match props with
  | [] => None
  | (k, v) :: rest => if String.eqb k name then Some v else assoc_prop name rest
  end.

Definition xmlGetProp (node : xmlNode) (name : cstr) : option cstr :=
  match node with
  | XML_ELEMENT_NODE _ _ props _ => assoc_prop name props
  | _ => None
  end.

(** [xml_get_node_text] *)
Definition xml_get_node_text (node : option xmlNode) : option cstr :=
  match node with
  | Some n =>
      match node_children n with
      | XML_TEXT_NODE content :: _ => Some content
      | _ => None
      end
  | None => None
  end.

(** [xml_get_first_child_by_name] *)
Definition xml_get_first_child_by_name (node : xmlNode) (name : cstr)
    : option xmlNode :=
  find (is_element_named name) (node_children node).

(** The nodes that a loop visits which starts at
    [xml_get_first_child_by_name (node, name)] and advances with
    [xml_get_next_sibling_by_name (cnode, name)]: the child elements with
    that name, in document order. *)
Definition xml_children_by_name (node : xmlNode) (name : cstr)
    : list xmlNode :=
  filter (is_element_named name) (node_children node).

(** ** Records of the library and driver interfaces *)

(** Modelled from the spec: the severities of a diagnostic message
    ([CDynctrlMessageSeverity] of [webcam.h], which is not among the
    sources): error, warning, info. *)
Inductive CDynctrlMessageSeverity : Set :=
| CD_SEVERITY_ERROR
| CD_SEVERITY_WARNING
| CD_SEVERITY_INFO.

(** An argument of a printf-style format. *)
Inductive printf_arg : Type :=
| arg_s (s : option cstr)
| arg_d (z : Z)
| arg_guid (g : guid_bytes)
| arg_strerror (errnum : Z)
| arg_error_text (ret : CResult)
| arg_code (ret : CResult).

(** The text that [vasprintf] produces, kept as the format and its
    arguments. *)
Record message_text : Type := vasprintf {
  format : cstr;
  format_args : list printf_arg
}.

(** Modelled from the spec: a diagnostic message ([CDynctrlMessage] of
    [webcam.h]): a severity, a line and a column (0 when unknown) and a
    text. *)
Record CDynctrlMessage : Type := mkMessage {
  line : Z;
  col : Z;
  severity : CDynctrlMessageSeverity;
  text : message_text
}.

(** Modelled from the spec: the options of a session, which are the bits
    [CD_REPORT_ERRORS], [CD_RETRIEVE_META_INFO] and [CD_DONT_VALIDATE] of
    [info->flags]; [webcam.h], which gives them their values, is not among
    the sources. *)
Record CDynctrlFlags : Type := mkFlags {
  CD_REPORT_ERRORS : bool;
  CD_RETRIEVE_META_INFO : bool;
  CD_DONT_VALIDATE : bool
}.

(** Modelled from the spec: the meta information of a document, versions
    as [major.minor]. *)
Record CVersion : Type := mkVersion { major : Z; minor : Z }.

Record CDynctrlMeta : Type := mkMeta {
  version : CVersion;
  revision : CVersion;
  author : option cstr;
  contact : option cstr;
  copyright : option cstr
}.

(** Modelled from the spec: the statistics of [CDynctrlInfo], a pair of
    [unsigned int] counters for each of constants, controls and mappings. *)
Record counters : Type := mkCounters { successful : Z; failed : Z }.

Record CDynctrlStats : Type := mkStats {
  stats_constants : counters;
  stats_controls : counters;
  stats_mappings : counters
}.

(** Modelled from the spec: [CDynctrlInfo] of [webcam.h], the structure
    through which the caller passes the flags and receives the meta
    information, the statistics and the messages; [message_count] is the
    length of [messages]. *)
Record CDynctrlInfo : Type := mkInfo {
  flags : CDynctrlFlags;
  meta : CDynctrlMeta;
  stats : CDynctrlStats;
  messages : list CDynctrlMessage
}.

Definition message_count (i : CDynctrlInfo) : nat := List.length (messages i).

(** [struct uvc_xu_control_info] of the driver interface. *)
Record uvc_xu_control_info : Type := mkControlInfo {
  xu_entity : guid_bytes;
  xu_index : Z;
  xu_selector : Z;
  xu_size : Z;
  xu_flags : Z
}.

(** [sizeof(mapping_info.name)], from the driver interface. *)
Definition MAPPING_NAME_SIZE : nat := 32.

(** [struct uvc_xu_control_mapping] of the driver interface. *)
Record uvc_xu_control_mapping : Type := mkMapping {
  map_id : Z;
  map_name : cstr;
  map_entity : guid_bytes;
  map_selector : Z;
  map_size : Z;
  map_offset : Z;
  map_v4l2_type : Z;
  map_data_type : Z
}.

(** [UVCXUControl] *)
Record UVCXUControl : Type := mkControl {
  xu_id : cstr;
  xu_info : uvc_xu_control_info
}.

(** Modelled from the spec: a candidate device ([CDevice] of [webcam.h]),
    with the two fields that the loop reads, its short name and the name of
    its driver. *)
Record CDevice : Type := mkDevice {
  shortName : cstr;
  driver : cstr
}.

(** [ParseContext]; the size of the message buffer and the iconv descriptor
    are left out. *)
Record ParseContext : Type := mkContext {
  info : option CDynctrlInfo;
  constants : list Constant;
  handle : Z;
  v4l2_handle : Z;
  controls : list UVCXUControl;
  pass : Z
}.

(** [lookup_control] *)
Fixpoint lookup_control (name : cstr) (controls : list UVCXUControl)
    : option UVCXUControl :=
  match controls with
  | [] => None
  | elem :: next =>
      if String.eqb (xu_id elem) name then Some elem
      else lookup_control name next
  end.

(** [iconv] from UTF-8 to ASCII: the identity on 7-bit text, an error on
    any other byte. *)
Definition is_7bit (s : cstr) : bool :=
  forallb (fun c => char_code c <? 128) (list_ascii_of_string s).

Definition iconv_utf8_to_ascii (s : cstr) : option cstr :=
  if is_7bit s then Some s else None.

(** ** The outside world *)

(** What the engine calls and does not implement: the driver behind the
    ioctls, the device layer of the library, the XML parser. [World] is the
    state of all of it; each call may change it. An ioctl yields its return
    value and [errno]. *)
Record Collaborators (World : Type) : Type := mkCollaborators {
  ioctl_UVCIOC_CTRL_ADD :
    World -> Z -> uvc_xu_control_info -> Z * Z * World;
  ioctl_UVCIOC_CTRL_MAP :
    World -> Z -> uvc_xu_control_mapping -> Z * Z * World;
  open_v4l2_device : World -> cstr -> Z * World;
  close : World -> Z -> World;
  c_open_device : World -> cstr -> Z * World;
  c_close_device : World -> Z -> World;
  (** [GET_HANDLE(handle).device->v4l2_name] *)
  handle_v4l2_name : World -> Z -> cstr;
  (** the first call of [c_enum_devices], with an empty buffer *)
  c_enum_devices_size : World -> CResult;
  (** the second call of [c_enum_devices] *)
  c_enum_devices : World -> CResult * list CDevice;
  (** [xmlCtxtReadFile]: a document, or the line, column and message of the
      parser's last error *)
  xmlCtxtReadFile : World -> cstr -> xmlDoc + (Z * Z * cstr);
  (** the bytes that follow the buffer of a string in memory *)
  adjacent_memory : cstr -> nat -> ascii
}.

Arguments ioctl_UVCIOC_CTRL_ADD {World}.
Arguments ioctl_UVCIOC_CTRL_MAP {World}.
Arguments open_v4l2_device {World}.
Arguments close {World}.
Arguments c_open_device {World}.
Arguments c_close_device {World}.
Arguments handle_v4l2_name {World}.
Arguments c_enum_devices_size {World}.
Arguments c_enum_devices {World}.
Arguments xmlCtxtReadFile {World}.
Arguments adjacent_memory {World}.

(** ** Reference notions for GUID texts *)

(** The value of a hexadecimal digit, by table. *)
Definition hex_value (c : ascii) : Z :=
  match c with
  | "0" => 0 | "1" => 1 | "2" => 2 | "3" => 3 | "4" => 4
  | "5" => 5 | "6" => 6 | "7" => 7 | "8" => 8 | "9" => 9
  | "a" | "A" => 10 | "b" | "B" => 11 | "c" | "C" => 12
  | "d" | "D" => 13 | "e" | "E" => 14 | "f" | "F" => 15
  | _ => 0
  end%char.

(** The bytes that a string of hexadecimal digits denotes, two digits to a
    byte, in the order of the text. *)
Fixpoint hex_bytes (s : cstr) : list Z :=
  match s with
  | String hi (String lo rest) =>
      (16 * hex_value hi + hex_value lo) :: hex_bytes rest
  | _ => []
  end.

Fixpoint is_hex_string (s : cstr) : bool :=
  match s with
  | EmptyString => true
  | String c rest => isxdigit c && is_hex_string rest
  end.

(** A group of [n] hexadecimal digits. *)
Definition hex_group (n : nat) (s : cstr) : bool :=
  (strlen s =? n)%nat && is_hex_string s.

(** The text of a GUID from its five groups. *)
Definition guid_text (g1 g2 g3 g4 g5 : cstr) : cstr :=
  (g1 ++ "-" ++ g2 ++ "-" ++ g3 ++ "-" ++ g4 ++ "-" ++ g5)%string.

(** The canonical form [xxxxxxxx-xxxx-xxxx-xxxx-xxxxxxxxxxxx]: 36
    characters, groups of 8, 4, 4, 4 and 12 hexadecimal digits of either
    case, separated by hyphens. *)
Definition canonical_guid (s : cstr) : bool :=
  (strlen s =? 36)%nat
  && hex_group 8 (substring 0 8 s)
  && Ascii.eqb (char_at s 8) "-"
  && hex_group 4 (substring 9 4 s)
  && Ascii.eqb (char_at s 13) "-"
  && hex_group 4 (substring 14 4 s)
  && Ascii.eqb (char_at s 18) "-"
  && hex_group 4 (substring 19 4 s)
  && Ascii.eqb (char_at s 23) "-"
  && hex_group 12 (substring 24 12 s).

(** An offset is inside the buffer of a C string when it addresses one of
    its characters or its terminator. *)
Definition in_bounds (s : cstr) (off : nat) : bool := (off <=? strlen s)%nat.

(** ** Reference notions for texts *)

(** A character in lower case. *)
Definition lower (c : ascii) : ascii := ascii_of_N (Z.to_N (tolower c)).

(** A text in lower case. *)
Fixpoint lowercase (s : cstr) : cstr :=
  match s with
  | EmptyString => EmptyString
  | String c rest => String (lower c) (lowercase rest)
  end.

(** The hexadecimal digit, in lower case, of a value from 0 to 15. *)
Definition hex_digit (v : Z) : ascii :=
  if v <? 10 then ascii_of_N (Z.to_N (char_code "0" + v))
  else ascii_of_N (Z.to_N (char_code "a" + (v - 10))).

(** The two hexadecimal digits of a byte. *)
Definition hex_of_byte (b : Z) : cstr :=
  String (hex_digit (b / 16)) (String (hex_digit (b mod 16)) EmptyString).

Definition hex_of_bytes (bytes : list Z) : cstr :=
  fold_right (fun b acc => (hex_of_byte b ++ acc)%string) EmptyString bytes.

(** The canonical text of a GUID in its stored form: the inverse of the
    order in which [guid_to_byte_array] reads the groups. *)
Definition guid_text_of_bytes (g : guid_bytes) : cstr :=
  guid_text
    (hex_of_bytes (rev (firstn 4 g)))
    (hex_of_bytes (rev (firstn 2 (skipn 4 g))))
    (hex_of_bytes (rev (firstn 2 (skipn 6 g))))
    (hex_of_bytes (firstn 2 (skipn 8 g)))
    (hex_of_bytes (skipn 10 g)).

(** A byte of a [__u8] array. *)
Definition is_byte (b : Z) : Prop := 0 <= b < 256.

(** Every white space character of the text is a space that another
    character which is no white space follows. *)
Fixpoint single_spaced (s : cstr) : bool :=
  match s with
  | EmptyString => true
  | String c rest =>
      (if isspace c then
         Ascii.eqb c " "
         && match rest with
            | String d _ => negb (isspace d)
            | EmptyString => false
            end
       else true)
      && single_spaced rest
  end.

Definition starts_with_space (s : cstr) : bool :=
  match s with
  | String c _ => isspace c
  | EmptyString => false
  end.

(** A text in normal form: no white space at its ends, and between two
    words one space. *)
Definition normalized (s : cstr) : bool :=
  negb (starts_with_space s) && single_spaced s.

(** The words of a text, which white space separates; [cur] is the word
    that is being read. *)
Fixpoint split_words (s cur : cstr) : list cstr :=
  match s with
  | EmptyString =>
      match cur with
      | EmptyString => []
      | _ => [cur]
      end
  | String c rest =>
      if isspace c then
        match cur with
        | EmptyString => split_words rest EmptyString
        | _ => cur :: split_words rest EmptyString
        end
      else split_words rest (cur ++ String c EmptyString)
  end.

Definition words (s : cstr) : list cstr := split_words s EmptyString.

(** A decimal numeral: the characters of its digits and its value. *)
Definition digit_char (d : Z) : ascii := ascii_of_N (Z.to_N (48 + d)).

Fixpoint decimal_text (digits : list Z) : cstr :=
  match digits with
  | [] => EmptyString
  | d :: rest => String (digit_char d) (decimal_text rest)
  end.

Definition decimal_value (digits : list Z) : Z :=
  fold_left (fun acc d => acc * 10 + d) digits 0.

Definition is_digit (d : Z) : Prop := 0 <= d <= 9.

(** ** Scenarios *)

(** Concrete documents, devices and drivers on which the engine is run. *)
Module Scenario.

Definition elem (name : cstr) (line : Z) (children : list xmlNode) : xmlNode :=
  XML_ELEMENT_NODE name line [] children.

Definition leaf (name : cstr) (line : Z) (content : cstr) : xmlNode :=
  XML_ELEMENT_NODE name line [] [XML_TEXT_NODE content].

Definition constant_node (line : Z) (type id value : cstr) : xmlNode :=
  XML_ELEMENT_NODE "constant" line [("type", type)]
    [leaf "id" line id; leaf "value" line value].

Definition control_node (line : Z) (id entity selector index size : cstr)
    (requests : list cstr) : xmlNode :=
  XML_ELEMENT_NODE "control" line [("id", id)]
    [leaf "entity" line entity; leaf "selector" line selector;
     leaf "index" line index; leaf "size" line size;
     elem "requests" line (map (leaf "request" (line + 1)) requests)].

Definition mapping_node (line : Z) (name idref size offset uvc_type id
    v4l2_type : cstr) : xmlNode :=
  elem "mapping" line
    [leaf "name" line name;
     elem "uvc" line
       [XML_ELEMENT_NODE "control_ref" line [("idref", idref)] [];
        leaf "size" line size; leaf "offset" line offset;
        leaf "uvc_type" line uvc_type];
     elem "v4l2" line [leaf "id" line id; leaf "v4l2_type" line v4l2_type]].

Definition document (constants controls mappings : list xmlNode) : xmlDoc :=
  mkDoc
    (Some
       (elem "config" 1
          [elem "meta" 2 [leaf "version" 3 "1.0"; leaf "revision" 4 "1.2"];
           elem "constants" 5 constants;
           elem "devices" 20 [elem "device" 21 [elem "controls" 22 controls]];
           elem "mappings" 40 mappings])).

Definition a_guid : cstr := "63610682-5070-49ab-b8cc-b3855e8d221d".

Definition brightness_control : xmlNode :=
  control_node 23 "brightness" a_guid "2" "1" "0x02" ["SET_CUR"; "GET_CUR"].

Definition odd_request_control : xmlNode :=
  control_node 23 "led" a_guid "1" "0" "3" ["SET_CUR"; "GET_LEN"].

Definition brightness_mapping : xmlNode :=
  mapping_node 41 "Brightness  (raw)" "brightness" "8" "0"
    "UVC_CTRL_DATA_TYPE_UNSIGNED" "0x0A046D01" "V4L2_CTRL_TYPE_INTEGER".

Definition video0 : CDevice := mkDevice "video0" "uvcvideo".
Definition video1 : CDevice := mkDevice "video1" "uvcvideo".

(** The file descriptor and the library handle of a device name. *)
Definition fd_of (name : cstr) : Z := if String.eqb name "video0" then 3 else 4.
Definition handle_of (name : cstr) : Z :=
  if String.eqb name "video0" then 1 else 2.

(** Drivers, by their answer to [UVCIOC_CTRL_ADD] on a descriptor. A
    driver that supports dynamic controls answers the probe (the only
    control without flags) with [EEXIST] and accepts every other control. *)
Definition supporting (fd : Z) (xu : uvc_xu_control_info) : Z * Z :=
  if xu_flags xu =? 0 then (-1, EEXIST) else (0, 0).

(** Only the device behind descriptor 3 has such a driver; the others
    reject the request with [EINVAL]. *)
Definition only_first (fd : Z) (xu : uvc_xu_control_info) : Z * Z :=
  if fd =? 3 then supporting fd xu else (-1, EINVAL).

(** A driver that accepts whatever it is given, the probe included. *)
Definition accepting (fd : Z) (xu : uvc_xu_control_info) : Z * Z := (0, 0).

(** A host with the driver [add], the devices [devices] and one document,
    whatever the file name. Mappings are accepted. The world has no
    state. *)
Definition host (add : Z -> uvc_xu_control_info -> Z * Z)
    (devices : list CDevice) (doc : xmlDoc) : Collaborators unit :=
  {| ioctl_UVCIOC_CTRL_ADD := fun w fd xu => (add fd xu, w);
     ioctl_UVCIOC_CTRL_MAP := fun w _ _ => (0, 0, w);
     open_v4l2_device := fun w name => (fd_of name, w);
     close := fun w _ => w;
     c_open_device := fun w name => (handle_of name, w);
     c_close_device := fun w _ => w;
     handle_v4l2_name := fun _ h => if h =? 1 then "video0" else "video1";
     c_enum_devices_size := fun _ =>
       match devices with [] => C_SUCCESS | _ => C_BUFFER_TOO_SMALL end;
     c_enum_devices := fun _ => (C_SUCCESS, devices);
     xmlCtxtReadFile := fun _ _ => inl doc;
     adjacent_memory := fun _ _ => zero |}.

(** The [info] structure of a caller that asks for the diagnostics. *)
Definition reporting : CDynctrlInfo :=
  mkInfo (mkFlags true false false)
    (mkMeta (mkVersion 0 0) (mkVersion 0 0) None None None)
    (mkStats (mkCounters 0 0) (mkCounters 0 0) (mkCounters 0 0)) [].

(** The context of the first pass over a document, for the device
    [video0]. *)
Definition first_pass : ParseContext :=
  mkContext (Some reporting) [] 1 3 [] 1.

(** A document with one constant, one control and one mapping, all of them
    well-formed. *)
Definition small_document : xmlDoc :=
  document [constant_node 6 "integer" "A" "1"] [brightness_control]
    [brightness_mapping].

(** A document whose only declaration is the brightness control. *)
Definition one_control_document : xmlDoc := document [] [brightness_control] [].

(** The registry entry of the brightness control. *)
Definition brightness_entry : UVCXUControl :=
  mkControl "brightness"
    (mkControlInfo
       [130; 6; 97; 99; 112; 80; 171; 73; 184; 204; 179; 133; 94; 141; 34;
        29] 1 2 2 131).

End Scenario.

(** ** Hosts that record their calls *)

Module Cases.

Import Scenario.

(** A call into the driver or into the device layer. *)
Inductive event : Type :=
| ev_open_device (name : cstr)
| ev_close_device (h : Z)
| ev_open (name : cstr)
| ev_close (fd : Z)
| ev_ctrl_add (fd : Z) (xu : uvc_xu_control_info)
| ev_ctrl_map (fd : Z) (mapping : uvc_xu_control_mapping).

(** A host like [Scenario.host] whose world is the list of the calls made
    so far, the latest last. The file is a document or the error of the
    parser. *)
Definition recording (add : Z -> uvc_xu_control_info -> Z * Z)
    (devices : list CDevice) (file : xmlDoc + (Z * Z * cstr))
    : Collaborators (list event) :=
  {| ioctl_UVCIOC_CTRL_ADD := fun w fd xu =>
       (add fd xu, (w ++ [ev_ctrl_add fd xu])%list);
     ioctl_UVCIOC_CTRL_MAP := fun w fd mapping =>
       (0, 0, (w ++ [ev_ctrl_map fd mapping])%list);
     open_v4l2_device := fun w name =>
       (fd_of name, (w ++ [ev_open name])%list);
     close := fun w fd => (w ++ [ev_close fd])%list;
     c_open_device := fun w name =>
       (handle_of name, (w ++ [ev_open_device name])%list);
     c_close_device := fun w h => (w ++ [ev_close_device h])%list;
     handle_v4l2_name := fun _ h => if h =? 1 then "video0" else "video1";
     c_enum_devices_size := fun _ => C_BUFFER_TOO_SMALL;
     c_enum_devices := fun _ => (C_SUCCESS, devices);
     xmlCtxtReadFile := fun _ _ => file;
     adjacent_memory := fun _ _ => zero |}.

(** Two devices that are not driven by [uvcvideo]. *)
Definition tuner : CDevice := mkDevice "video2" "bttv".
Definition radio : CDevice := mkDevice "radio0" "bttv".

(** A control of 65536 bytes. *)
Definition wide_control : xmlNode :=
  control_node 23 "wide" a_guid "1" "0" "65536" ["GET_CUR"].

(** A mapping that refers to a control that is not declared. *)
Definition stray_mapping : xmlNode :=
  mapping_node 41 "Gain" "gain" "8" "0" "UVC_CTRL_DATA_TYPE_UNSIGNED"
    "0x0A046D02" "V4L2_CTRL_TYPE_INTEGER".

(** The constant A = 1, and a constant whose name is a number. *)
Definition constant_A : Constant := mkConstant CT_INTEGER "A" 1 [].

Definition numeric_name_constant : xmlNode :=
  constant_node 6 "integer" "12" "7".

(** A document that declares the constant A again, with another value, and
    a constant B. *)
Definition redefining_document : xmlDoc :=
  document
    [constant_node 6 "integer" "A" "2"; constant_node 7 "integer" "B" "3"]
    [] [].

(** A document with a control and a mapping and without a [constants]
    section. *)
Definition document_without_constants : xmlDoc :=
  mkDoc
    (Some
       (elem "config" 1
          [elem "meta" 2 [leaf "version" 3 "1.0"; leaf "revision" 4 "1.2"];
           elem "devices" 20
             [elem "device" 21 [elem "controls" 22 [brightness_control]]];
           elem "mappings" 40 [brightness_mapping]])).

(** A document whose declarations are all rejected. *)
Definition rejected_document : xmlDoc :=
  document [constant_node 6 "float" "F" "1.5"] [wide_control]
    [stray_mapping].

(** The [info] structure [reporting] with other statistics and messages. *)
Definition reported (k c p : counters) (msgs : list CDynctrlMessage)
    : CDynctrlInfo :=
  mkInfo (mkFlags true false false)
    (mkMeta (mkVersion 0 0) (mkVersion 0 0) None None None)
    (mkStats k c p) msgs.

End Cases.

(** ** The engine *)

Section Engine.

Variable World : Type.
Variable env : Collaborators World.

(** Compile-time switches that the source tests with [#ifdef]. *)
Variable DYNCTRL_IGNORE_EEXIST_AFTER_PASS1 : bool.
Variable ENABLE_RAW_CONTROLS : bool.

(** What a call works on: the parse context and the outside world. *)
Record Machine : Type := mkMachine {
  ctx : ParseContext;
  world : World
}.

(** A call either returns a value and the machine it leaves, or aborts
    (failed [assert], NULL dereference). *)
Inductive outcome (A : Type) : Type :=
| Returns (a : A) (m : Machine)
| Aborts.

Arguments Returns {A}.
Arguments Aborts {A}.

(** Computations on a machine, with their sequencing. *)
Definition M (A : Type) : Type := Machine -> outcome A.

(** The value of an outcome, if it is a return. *)
Definition returned {A : Type} (o : outcome A) : option A :=
  match o with
  | Returns a _ => Some a
  | Aborts => None
  end.

(** The context that a return leaves. *)
Definition final_context {A : Type} (o : outcome A) : option ParseContext :=
  match o with
  | Returns _ m => Some (ctx m)
  | Aborts => None
  end.

Definition ret {A : Type} (a : A) : M A := fun m => Returns a m.

Definition bind {A B : Type} (c : M A) (k : A -> M B) : M B :=
  fun m =>
    match c m with
    | Returns a m' => k a m'
    | Aborts => Aborts
    end.

Definition abort {A : Type} : M A := fun _ => Aborts.

Notation "x <- c ;; k" := (bind c (fun x => k))
  (at level 61, c at next level, right associativity).
Notation "c ;;; k" := (bind c (fun _ => k))
  (at level 61, right associativity).
Notation "' pat <- c ;; k" := (bind c (fun x => match x with pat => k end))
  (at level 61, pat pattern, c at next level, right associativity).

Definition get_ctx : M ParseContext := fun m => Returns (ctx m) m.

Definition modify_ctx (f : ParseContext -> ParseContext) : M unit :=
  fun m => Returns tt (mkMachine (f (ctx m)) (world m)).

(** A call into the world that returns a value. *)
Definition call {A : Type} (f : World -> A * World) : M A :=
  fun m => let '(a, w) := f (world m) in Returns a (mkMachine (ctx m) w).

(** [for] each node of a list, in order. *)
Fixpoint for_each (nodes : list xmlNode) (body : xmlNode -> M unit) : M unit :=
  match nodes with
  | [] => ret tt
  | node :: rest => body node ;;; for_each rest body
  end.

(** *** Updates of the context *)

Definition set_info (i : option CDynctrlInfo) (c : ParseContext) :=
  mkContext i (constants c) (handle c) (v4l2_handle c) (controls c) (pass c).
Definition set_constants (l : list Constant) (c : ParseContext) :=
  mkContext (info c) l (handle c) (v4l2_handle c) (controls c) (pass c).
Definition set_handle (h : Z) (c : ParseContext) :=
  mkContext (info c) (constants c) h (v4l2_handle c) (controls c) (pass c).
Definition set_v4l2_handle (h : Z) (c : ParseContext) :=
  mkContext (info c) (constants c) (handle c) h (controls c) (pass c).
Definition set_controls (l : list UVCXUControl) (c : ParseContext) :=
  mkContext (info c) (constants c) (handle c) (v4l2_handle c) l (pass c).
Definition set_pass (p : Z) (c : ParseContext) :=
  mkContext (info c) (constants c) (handle c) (v4l2_handle c) (controls c) p.

Definition map_info (f : CDynctrlInfo -> CDynctrlInfo) (c : ParseContext) :=
  set_info (option_map f (info c)) c.

Definition set_messages (l : list CDynctrlMessage) (i : CDynctrlInfo) :=
  mkInfo (flags i) (meta i) (stats i) l.
Definition set_stats (s : CDynctrlStats) (i : CDynctrlInfo) :=
  mkInfo (flags i) (meta i) s (messages i).
Definition set_meta (d : CDynctrlMeta) (i : CDynctrlInfo) :=
  mkInfo (flags i) d (stats i) (messages i).

(** *** The diagnostic log *)

(** [resize_message_buffer]: the new message becomes the last element of
    the array. *)
Definition resize_message_buffer (msg : CDynctrlMessage) (c : ParseContext)
    : ParseContext :=
  map_info (fun i => set_messages (messages i ++ [msg]) i) c.

(** [add_message_v] *)
Definition add_message_v (line col : Z) (severity : CDynctrlMessageSeverity)
    (format : cstr) (va : list printf_arg) : M CResult :=
  c <- get_ctx ;;
  match info c with
  | None => ret C_INVALID_ARG
  | Some i =>
      if negb (CD_REPORT_ERRORS (flags i)) then ret C_SUCCESS
      else
        let message := mkMessage line col severity (vasprintf format va) in
        modify_ctx (resize_message_buffer message) ;;;
        ret C_SUCCESS
  end.

Definition add_message := add_message_v.

(** [add_info] *)
Definition add_info (format : cstr) (va : list printf_arg) : M CResult :=
  add_message_v 0 0 CD_SEVERITY_INFO format va.

(** [add_error] *)
Definition add_error (format : cstr) (va : list printf_arg) : M CResult :=
  add_message_v 0 0 CD_SEVERITY_ERROR format va.

(** [add_error_at_node], for a node that is not NULL. *)
Definition add_error_at_node (node : xmlNode) (format : cstr)
    (va : list printf_arg) : M CResult :=
  add_message_v (node_line node) 0 CD_SEVERITY_ERROR format va.

(** [text ? (char * )text : "<empty>"] *)
Definition or_empty (text : option cstr) : printf_arg :=
  match text with
  | Some s => arg_s (Some s)
  | None => arg_s (Some "<empty>")
  end.

(** *** Text conversion *)

(** [unicode_to_ascii]; a failed conversion runs into [assert(0)]. *)
Definition unicode_to_ascii (unicode : option cstr) : M (option cstr) :=
  match unicode with
  | None => ret None
  | Some s =>
      match iconv_utf8_to_ascii s with
      | Some ascii => ret (Some ascii)
      | None => abort
      end
  end.

(** [unicode_to_normalized_ascii] *)
Definition unicode_to_normalized_ascii (unicode : option cstr)
    : M (option cstr) :=
  ascii <- unicode_to_ascii unicode ;;
  ret (normalize_string ascii).

(** *** Statistics *)

(** [++] on an [unsigned int]. *)
Definition incr (n : Z) : Z := to_u32 (n + 1).

(** The counting of the three [process_...s] loops:
    [if(ret) successful++; else failed++;] *)
Definition count (r : CResult) (c : counters) : counters :=
  if is_error r then mkCounters (incr (successful c)) (failed c)
  else mkCounters (successful c) (incr (failed c)).

Definition count_constant (r : CResult) (s : CDynctrlStats) : CDynctrlStats :=
  mkStats (count r (stats_constants s)) (stats_controls s) (stats_mappings s).
Definition count_control (r : CResult) (s : CDynctrlStats) : CDynctrlStats :=
  mkStats (stats_constants s) (count r (stats_controls s)) (stats_mappings s).
Definition count_mapping (r : CResult) (s : CDynctrlStats) : CDynctrlStats :=
  mkStats (stats_constants s) (stats_controls s) (count r (stats_mappings s)).

(** [if(ctx->info) { ... }] around a change of the statistics. *)
Definition update_stats (f : CDynctrlStats -> CDynctrlStats) : M unit :=
  modify_ctx (map_info (fun i => set_stats (f (stats i)) i)).

(** *** Calls into the world *)

Definition device_v4l2_name : M cstr :=
  fun m => Returns (handle_v4l2_name env (world m) (handle (ctx m))) m.

Definition ioctl_ctrl_add (xu : uvc_xu_control_info) : M (Z * Z) :=
  fun m =>
    let '(v4l2_ret, errno, w) :=
      ioctl_UVCIOC_CTRL_ADD env (world m) (v4l2_handle (ctx m)) xu in
    Returns (v4l2_ret, errno) (mkMachine (ctx m) w).

Definition ioctl_ctrl_map (mapping : uvc_xu_control_mapping) : M (Z * Z) :=
  fun m =>
    let '(v4l2_ret, errno, w) :=
      ioctl_UVCIOC_CTRL_MAP env (world m) (v4l2_handle (ctx m)) mapping in
    Returns (v4l2_ret, errno) (mkMachine (ctx m) w).

(** The test after both ioctls:
    [v4l2_ret != 0 && (ctx->pass == 1 || errno != EEXIST)], the second
    conjunct only under [DYNCTRL_IGNORE_EEXIST_AFTER_PASS1]. *)
Definition ioctl_failed (v4l2_ret errno pass : Z) : bool :=
  negb (v4l2_ret =? 0)
  && (if DYNCTRL_IGNORE_EEXIST_AFTER_PASS1
      then (pass =? 1) || negb (errno =? EEXIST)
      else true).

(** *** Mappings *)

(** [process_mapping] *)
Definition process_mapping (node_mapping : xmlNode) : M CResult :=
  match xml_get_first_child_by_name node_mapping "v4l2" with
  | None => ret C_NOT_IMPLEMENTED
  | Some node_v4l2 =>
  match xml_get_first_child_by_name node_mapping "uvc" with
  | None =>
      add_error_at_node node_mapping
        "Mapping does not have UVC information. <uvc> is mandatory." [] ;;;
      ret C_PARSE_ERROR
  | Some node_uvc =>
  match xml_get_first_child_by_name node_uvc "control_ref" with
  | None =>
      add_error_at_node node_uvc
        "Control reference missing. <control_ref> is mandatory." [] ;;;
      ret C_PARSE_ERROR
  | Some node_control_ref =>
  match xmlGetProp node_control_ref "idref" with
  | None =>
      add_error_at_node node_control_ref
        "Invalid control reference. 'idref' attribute referencing a <control> is mandatory."
        [] ;;;
      ret C_PARSE_ERROR
  | Some control_ref =>
  c <- get_ctx ;;
  match lookup_control control_ref (controls c) with
  | None =>
      add_error_at_node node_control_ref
        "Invalid control reference: control with ID '%s' could not be found."
        [arg_s (Some control_ref)] ;;;
      ret C_PARSE_ERROR
  | Some control =>
  let entity := xu_entity (xu_info control) in
  let selector := xu_selector (xu_info control) in
  name <- unicode_to_normalized_ascii
            (xml_get_node_text
               (xml_get_first_child_by_name node_mapping "name")) ;;
  match name with
  | None =>
      add_error_at_node node_mapping
        "Control mapping has no name. <name> is mandatory." [] ;;;
      ret C_PARSE_ERROR
  | Some name =>
  let mapping_name := substring 0 (MAPPING_NAME_SIZE - 1) name in
  let text :=
    xml_get_node_text (xml_get_first_child_by_name node_v4l2 "id") in
  let '(r, value) := lookup_or_convert_to_integer text 0 (constants c) in
  if is_error r then
    add_error_at_node node_v4l2
      "V4L2 ID contains invalid number or references unknown constant: '%s'"
      [or_empty text] ;;;
    ret C_PARSE_ERROR
  else
  let id := to_u32 value in
  let text :=
    xml_get_node_text (xml_get_first_child_by_name node_v4l2 "v4l2_type") in
  let v4l2_type := get_v4l2_ctrl_type_by_name ENABLE_RAW_CONTROLS text in
  if v4l2_type =? 0 then
    add_error_at_node node_v4l2
      "Invalid V4L2 control type specified: '%s'" [or_empty text] ;;;
    ret C_PARSE_ERROR
  else
  str <- unicode_to_ascii
           (xml_get_node_text (xml_get_first_child_by_name node_uvc "size")) ;;
  match is_valid_size_string str 255 with
  | None =>
      add_error_at_node node_v4l2
        "Invalid UVC control size specified: '%s'" [or_empty str] ;;;
      ret C_PARSE_ERROR
  | Some value =>
  let size := to_u8 value in
  str <- unicode_to_ascii
           (xml_get_node_text
              (xml_get_first_child_by_name node_uvc "offset")) ;;
  match is_valid_size_string str 255 with
  | None =>
      add_error_at_node node_v4l2
        "Invalid UVC control offset specified: '%s'" [or_empty str] ;;;
      ret C_PARSE_ERROR
  | Some value =>
  let offset := to_u8 value in
  let text :=
    xml_get_node_text (xml_get_first_child_by_name node_uvc "uvc_type") in
  let uvc_type := get_uvc_ctrl_type_by_name text in
  if uvc_type =? -1 then
    add_error_at_node node_v4l2
      "Invalid UVC control type specified: '%s'" [or_empty text] ;;;
    ret C_PARSE_ERROR
  else
  let mapping_info :=
    mkMapping id mapping_name entity selector size offset v4l2_type
      uvc_type in
  '(v4l2_ret, errno) <- ioctl_ctrl_map mapping_info ;;
  if ioctl_failed v4l2_ret errno (pass c) then
    v4l2_name <- device_v4l2_name ;;
    add_error
      "%s: unable to map '%s' control. ioctl(UVCIOC_CTRL_MAP) failed with return value %d (error %d: %s)"
      [arg_s (Some v4l2_name); arg_s (Some mapping_name); arg_d v4l2_ret;
       arg_d errno; arg_strerror errno] ;;;
    ret C_V4L2_ERROR
  else ret C_SUCCESS
  end end end end end end end end.

(** [process_mappings]; the node is asserted not to be NULL. *)
Definition process_mappings (node_mappings : option xmlNode) : M CResult :=
  match node_mappings with
  | None => abort
  | Some node =>
      for_each (xml_children_by_name node "mapping")
        (fun node_mapping =>
           r <- process_mapping node_mapping ;;
           update_stats (count_mapping r)) ;;;
      ret C_SUCCESS
  end.

(** *** Controls *)

(** The loop over the [request] nodes of [process_control]: every node
    contributes its flag, and a node whose text is no request name is
    reported through [add_error_at_node]. *)
Fixpoint process_requests (nodes : list xmlNode) (xu_flags : Z) : M Z :=
  match nodes with
  | [] => ret xu_flags
  | node_request :: rest =>
      let text := xml_get_node_text (Some node_request) in
      let flag := get_uvc_request_by_name text in
      (if flag =? 0 then
         add_error_at_node node_request
           "Invalid UVC request specified: '%s'" [or_empty text] ;;;
         ret tt
       else ret tt) ;;;
      process_requests rest (Z.lor xu_flags flag)
  end.

(** [process_control]. In the format of the ioctl diagnostic the macro
    [GUID_FORMAT] stays unexpanded. *)
Definition process_control (node_control : xmlNode) : M CResult :=
  match xmlGetProp node_control "id" with
  | None =>
      add_error_at_node node_control
        "Control has no ID. 'id' attribute is mandatory." [] ;;;
      ret C_PARSE_ERROR
  | Some id =>
  c <- get_ctx ;;
  let text :=
    xml_get_node_text (xml_get_first_child_by_name node_control "entity") in
  let '(r, entity) :=
    lookup_or_convert_to_guid (adjacent_memory env) text
      (repeat 0 GUID_SIZE) (constants c) in
  if is_error r then
    add_error_at_node node_control
      "Control entity contains invalid GUID or references unknown constant: '%s'"
      [or_empty text] ;;;
    ret r
  else
  let text :=
    xml_get_node_text (xml_get_first_child_by_name node_control "selector") in
  let '(r, value) := lookup_or_convert_to_integer text 0 (constants c) in
  if is_error r then
    add_error_at_node node_control
      "Control selector contains invalid number or references unknown constant: '%s'"
      [or_empty text] ;;;
    ret r
  else
  let selector := to_u8 value in
  let text :=
    xml_get_node_text (xml_get_first_child_by_name node_control "index") in
  let '(r, value) := lookup_or_convert_to_integer text value (constants c) in
  if is_error r then
    add_error_at_node node_control
      "Invalid control index specified: '%s'" [or_empty text] ;;;
    ret r
  else
  let index := to_u8 value in
  let text :=
    xml_get_node_text (xml_get_first_child_by_name node_control "size") in
  let '(r, value) := lookup_or_convert_to_integer text value (constants c) in
  if is_error r || negb (is_valid_size value 65535) then
    add_error_at_node node_control
      "Invalid control size specified: '%s'" [or_empty text] ;;;
    ret r
  else
  let size := to_u16 value in
  match xml_get_first_child_by_name node_control "requests" with
  | None =>
      add_error_at_node node_control
        "List of supported UVC requests missing. <requests> is mandatory."
        [] ;;;
      ret C_PARSE_ERROR
  | Some node_requests =>
  xu_flags <- process_requests
                (xml_children_by_name node_requests "request") 0 ;;
  let xu_flags := Z.lor xu_flags UVC_CTRL_FLAG_AUTO_UPDATE in
  let xu_control :=
    mkControl id (mkControlInfo entity index selector size xu_flags) in
  '(v4l2_ret, errno) <- ioctl_ctrl_add (xu_info xu_control) ;;
  r <- (if ioctl_failed v4l2_ret errno (pass c) then
          v4l2_name <- device_v4l2_name ;;
          add_error
            "%s: unable to add control with GUID {GUID_FORMAT} and selector %d. ioctl(UVCIOC_CTRL_ADD) failed with return value %d (error %d: %s)"
            [arg_s (Some v4l2_name); arg_guid entity; arg_d selector;
             arg_d v4l2_ret; arg_d errno; arg_strerror errno] ;;;
          ret C_V4L2_ERROR
        else ret C_SUCCESS) ;;
  modify_ctx (fun c => set_controls (xu_control :: controls c) c) ;;;
  ret r
  end end.

(** [process_controls] *)
Definition process_controls (node_controls : xmlNode) : M CResult :=
  for_each (xml_children_by_name node_controls "control")
    (fun node_control =>
       r <- process_control node_control ;;
       update_stats (count_control r)) ;;;
  ret C_SUCCESS.

(** [process_device] *)
Definition process_device (node_device : xmlNode) : M CResult :=
  match xml_get_first_child_by_name node_device "controls" with
  | Some node_controls => process_controls node_controls ;;; ret C_SUCCESS
  | None => ret C_SUCCESS
  end.

(** [process_devices] *)
Definition process_devices (node_devices : xmlNode) : M CResult :=
  for_each (xml_children_by_name node_devices "device")
    (fun node_device => process_device node_device ;;; ret tt) ;;;
  ret C_SUCCESS.

(** *** Constants *)

(** [process_constant] *)
Definition process_constant (node_constant : xmlNode) : M CResult :=
  name <- unicode_to_ascii
            (xml_get_node_text
               (xml_get_first_child_by_name node_constant "id")) ;;
  match name with
  | None =>
      add_error_at_node node_constant
        "Constant has no name. <id> is mandatory." [] ;;;
      ret C_PARSE_ERROR
  | Some name =>
  c <- get_ctx ;;
  match lookup_constant name CT_INVALID (constants c) with
  | Some _ =>
      add_error_at_node node_constant
        "Constant '%s' has already been defined. Ignoring redefinition."
        [arg_s (Some name)] ;;;
      ret C_PARSE_ERROR
  | None =>
  let type := xmlGetProp node_constant "type" in
  let constant_type :=
    if xmlStrEqual type "integer" then CT_INTEGER
    else if xmlStrEqual type "guid" then CT_GUID
    else CT_INVALID in
  let node_value := xml_get_first_child_by_name node_constant "value" in
  let value := xml_get_node_text node_value in
  match constant_type with
  | CT_INTEGER =>
      match is_valid_integer_string value with
      | None =>
          match node_value with
          | Some node =>
              add_error_at_node node
                "Integer constant %s has invalid value '%s'."
                [arg_s (Some name); arg_s value] ;;;
              ret C_PARSE_ERROR
          | None => abort
          end
      | Some v =>
          let constant := mkConstant CT_INTEGER name v [] in
          modify_ctx (fun c => set_constants (constant :: constants c) c) ;;;
          ret C_SUCCESS
      end
  | CT_GUID =>
      match value with
      | None => abort
      | Some s =>
          let guid :=
            guid_to_byte_array (string_memory (adjacent_memory env s) s) in
          let constant := mkConstant CT_GUID name 0 guid in
          modify_ctx (fun c => set_constants (constant :: constants c) c) ;;;
          ret C_SUCCESS
      end
  | CT_INVALID =>
      add_error_at_node node_constant
        "Constant has unknown type '%s' (must be 'integer' or 'guid')."
        [arg_s type] ;;;
      ret C_PARSE_ERROR
  end
  end end.

(** [process_constants]; the node is asserted not to be NULL. *)
Definition process_constants (node_constants : option xmlNode) : M CResult :=
  match node_constants with
  | None => abort
  | Some node =>
      for_each (xml_children_by_name node "constant")
        (fun node_constant =>
           r <- process_constant node_constant ;;
           update_stats (count_constant r)) ;;;
      ret C_SUCCESS
  end.

(** *** Meta information *)

(** [process_meta]; the node is asserted not to be NULL, and so is the
    string given to [string_to_version]. *)
Definition process_meta (node_meta : option xmlNode) : M CResult :=
  match node_meta with
  | None => abort
  | Some node =>
      c <- get_ctx ;;
      match info c with
      | Some i =>
          if CD_RETRIEVE_META_INFO (flags i) then
            match
              xml_get_node_text (xml_get_first_child_by_name node "version"),
              xml_get_node_text (xml_get_first_child_by_name node "revision")
            with
            | Some v, Some r =>
                let '(vmaj, vmin, _) := string_to_version v in
                let '(rmaj, rmin, _) := string_to_version r in
                a <- unicode_to_normalized_ascii
                       (xml_get_node_text
                          (xml_get_first_child_by_name node "author")) ;;
                ct <- unicode_to_ascii
                        (xml_get_node_text
                           (xml_get_first_child_by_name node "contact")) ;;
                cr <- unicode_to_ascii
                        (xml_get_node_text
                           (xml_get_first_child_by_name node "copyright")) ;;
                modify_ctx
                  (map_info
                     (set_meta
                        (mkMeta (mkVersion vmaj vmin) (mkVersion rmaj rmin)
                           a ct cr))) ;;;
                ret C_SUCCESS
            | _, _ => abort
            end
          else ret C_SUCCESS
      | None => ret C_SUCCESS
      end
  end.

(** *** One pass over the document *)

(** [process_dynctrl_doc] *)
Definition process_dynctrl_doc (xml_doc : option xmlDoc) : M CResult :=
  match xml_doc with
  | None => ret C_INVALID_ARG
  | Some doc =>
  match xmlDocGetRootElement doc with
  | None => abort
  | Some node_root =>
  modify_ctx (fun c => set_pass (to_int (pass c + 1)) c) ;;;
  c <- get_ctx ;;
  r <- (if pass c =? 1 then
          r <- process_meta (xml_get_first_child_by_name node_root "meta") ;;
          if is_error r then ret r
          else
            process_constants
              (xml_get_first_child_by_name node_root "constants")
        else ret C_SUCCESS) ;;
  if is_error r then ret r
  else
    for_each (xml_children_by_name node_root "devices")
      (fun node_devices => process_devices node_devices ;;; ret tt) ;;;
    process_mappings (xml_get_first_child_by_name node_root "mappings")
  end end.

(** *** Probing and applying to one device *)

(** The control that the probe declares again: the brightness control of
    the processing unit. *)
Definition probe_control : uvc_xu_control_info :=
  mkControlInfo [0; 0; 0; 0; 0; 0; 0; 0; 0; 0; 0; 0; 0; 0; 1; 1] 0 2 0 0.

(** [device_supports_dynctrl] *)
Definition device_supports_dynctrl : M CResult :=
  c <- get_ctx ;;
  if v4l2_handle c =? 0 then abort
  else
    '(v4l2_ret, errno) <- ioctl_ctrl_add probe_control ;;
    if v4l2_ret =? -1 then
      if errno =? EPERM then ret C_CANNOT_WRITE
      else if errno =? EEXIST then ret C_SUCCESS
      else ret C_NOT_IMPLEMENTED
    else ret C_NOT_IMPLEMENTED.

(** The [done:] block of [add_control_mappings]. *)
Definition close_v4l2_handle : M unit :=
  fun m =>
    if v4l2_handle (ctx m) =? 0 then Returns tt m
    else
      Returns tt
        (mkMachine (set_v4l2_handle 0 (ctx m))
           (close env (world m) (v4l2_handle (ctx m)))).

(** [add_control_mappings] *)
Definition add_control_mappings (xml_doc : option xmlDoc) : M CResult :=
  v4l2_name <- device_v4l2_name ;;
  fd <- call (fun w => open_v4l2_device env w v4l2_name) ;;
  modify_ctx (set_v4l2_handle fd) ;;;
  r <- (if fd =? 0 then ret C_INVALID_DEVICE
        else
          r <- device_supports_dynctrl ;;
          if is_error r then ret r
          else process_dynctrl_doc xml_doc) ;;
  close_v4l2_handle ;;;
  ret r.

(** *** The session *)

(** [parse_dynctrl_file]: the result code and the document. *)
Definition parse_dynctrl_file (file_name : cstr) : M (CResult * option xmlDoc) :=
  fun m =>
    match xmlCtxtReadFile env (world m) file_name with
    | inl doc => Returns (C_SUCCESS, Some doc) m
    | inr (e_line, e_int2, e_message) =>
        (add_message e_line e_int2 CD_SEVERITY_ERROR
           "Malformed control mapping file encountered. Unable to parse: %s"
           [arg_s (Some e_message)] ;;;
         ret (C_PARSE_ERROR, None)) m
    end.

(** One iteration of the loop over the devices: [r] is the value of [ret]
    and [successful_devices] the counter before the iteration. *)
Definition device_iteration (xml_doc : option xmlDoc) (device : CDevice)
    (r : CResult) (successful_devices : Z) : M (CResult * Z) :=
  if negb (String.eqb (driver device) "uvcvideo") then
    add_info "device '%s' skipped because it is not a UVC device."
      [arg_s (Some (shortName device))] ;;;
    ret (r, successful_devices)
  else
    h <- call (fun w => c_open_device env w (shortName device)) ;;
    modify_ctx (set_handle h) ;;;
    if h =? 0 then
      add_error "device '%s' skipped because it could not be opened."
        [arg_s (Some (shortName device))] ;;;
      ret (r, successful_devices)
    else
      r <- add_control_mappings xml_doc ;;
      n <- match r with
           | C_SUCCESS => ret (to_int (successful_devices + 1))
           | C_NOT_IMPLEMENTED =>
               add_error
                 "device '%s' skipped because the driver '%s' behind it does not seem to support dynamic controls."
                 [arg_s (Some (shortName device));
                  arg_s (Some (driver device))] ;;;
               ret successful_devices
           | C_CANNOT_WRITE =>
               add_error
                 "device '%s' skipped because you do not have the right permissions. Newer driver versions require root permissions."
                 [arg_s (Some (shortName device))] ;;;
               ret successful_devices
           | _ =>
               add_error
                 "device '%s' was not processed successfully: %s. (Code: %d)"
                 [arg_s (Some (shortName device)); arg_error_text r;
                  arg_code r] ;;;
               ret successful_devices
           end ;;
      (fun m =>
         Returns tt
           (mkMachine (set_handle 0 (ctx m))
              (c_close_device env (world m) (handle (ctx m))))) ;;;
      ret (r, n).

(** The loop over the devices. *)
Fixpoint device_loop (xml_doc : option xmlDoc) (devices : list CDevice)
    (r : CResult) (successful_devices : Z) : M (CResult * Z) :=
  match devices with
  | [] => ret (r, successful_devices)
  | device :: rest =>
      '(r, n) <- device_iteration xml_doc device r successful_devices ;;
      device_loop xml_doc rest r n
  end.

(** The loop and the test that follows it:
    [if(successful_devices == 0) ret = C_INVALID_DEVICE;] *)
Definition apply_to_devices (xml_doc : option xmlDoc)
    (devices : list CDevice) (r : CResult) : M CResult :=
  '(r, successful_devices) <- device_loop xml_doc devices r 0 ;;
  if successful_devices =? 0 then ret C_INVALID_DEVICE else ret r.

(** The context that [c_add_control_mappings_from_file] allocates. *)
Definition new_context (caller_info : option CDynctrlInfo) : ParseContext :=
  mkContext caller_info [] 0 0 [] 0.

(** [c_add_control_mappings_from_file]: the result code and the [info]
    structure handed back to the caller. [initialized] is the flag of the
    library. *)
Definition c_add_control_mappings_from_file (initialized : bool)
    (file_name : option cstr) (caller_info : option CDynctrlInfo) (w : World)
    : option (CResult * option CDynctrlInfo * World) :=
  if negb initialized then Some (C_INIT_ERROR, caller_info, w)
  else
    match file_name with
    | None => Some (C_INVALID_ARG, caller_info, w)
    | Some file_name =>
        match c_enum_devices_size env w with
        | C_SUCCESS => Some (C_INVALID_DEVICE, caller_info, w)
        | C_BUFFER_TOO_SMALL =>
            let '(r, devices) := c_enum_devices env w in
            if is_error r then Some (r, caller_info, w)
            else
              let session :=
                '(r, xml_doc) <- parse_dynctrl_file file_name ;;
                if is_error r then ret r
                else apply_to_devices xml_doc devices r in
              match session (mkMachine (new_context caller_info) w) with
              | Returns r m => Some (r, info (ctx m), world m)
              | Aborts => None
              end
        | r => Some (r, caller_info, w)
        end
    end.

(** *** Notions for the statements *)

(** What a call of [add_message_v] leaves in the context: the message is
    appended when the caller gave an [info] structure and asked for
    reports, and dropped otherwise. *)
Definition logged (msg : CDynctrlMessage) (c : ParseContext) : ParseContext :=
  match info c with
  | Some i =>
      if CD_REPORT_ERRORS (flags i) then resize_message_buffer msg c else c
  | None => c
  end.

(** The same, on a machine. *)
Definition log_machine (msg : CDynctrlMessage) (m : Machine) : Machine :=
  mkMachine (logged msg (ctx m)) (world m).

(** The messages of a context, none without an [info] structure. *)
Definition log_of (c : ParseContext) : list CDynctrlMessage :=
  match info c with
  | Some i => messages i
  | None => []
  end.

(** Whether messages are collected: [ctx->info] is not NULL and its flags
    have [CD_REPORT_ERRORS]. *)
Definition reports (c : ParseContext) : bool :=
  match info c with
  | Some i => CD_REPORT_ERRORS (flags i)
  | None => false
  end.

(** The message about a device whose driver does not support dynamic
    controls. *)
Definition unsupported_message (device : CDevice) : CDynctrlMessage :=
  mkMessage 0 0 CD_SEVERITY_ERROR
    (vasprintf
       "device '%s' skipped because the driver '%s' behind it does not seem to support dynamic controls."
       [arg_s (Some (shortName device)); arg_s (Some (driver device))]).

(** A request node whose text is none of the six request names. *)
Definition unrecognized_request (node_request : xmlNode) : bool :=
  get_uvc_request_by_name (xml_get_node_text (Some node_request)) =? 0.

(** The diagnostic that [process_control] emits for such a node. *)
Definition request_diagnostic (node_request : xmlNode) : CDynctrlMessage :=
  mkMessage (node_line node_request) 0 CD_SEVERITY_ERROR
    (vasprintf "Invalid UVC request specified: '%s'"
       [or_empty (xml_get_node_text (Some node_request))]).

(** The diagnostics for a list of request nodes, in order. *)
Definition request_diagnostics (nodes : list xmlNode) : list CDynctrlMessage :=
  map request_diagnostic (filter unrecognized_request nodes).

(** The flags that the request nodes contribute. *)
Definition request_flags (nodes : list xmlNode) (xu_flags : Z) : Z :=
  fold_left
    (fun acc node =>
       Z.lor acc (get_uvc_request_by_name (xml_get_node_text (Some node))))
    nodes xu_flags.

(** The context after a sequence of calls of [add_message_v]. *)
Definition logged_all (msgs : list CDynctrlMessage) (c : ParseContext)
    : ParseContext :=
  fold_left (fun c msg => logged msg c) msgs c.

(** The diagnostic of a failed [UVCIOC_CTRL_ADD]. *)
Definition ctrl_add_diagnostic (v4l2_name : cstr) (entity : guid_bytes)
    (selector v4l2_ret errno : Z) : CDynctrlMessage :=
  mkMessage 0 0 CD_SEVERITY_ERROR
    (vasprintf
       "%s: unable to add control with GUID {GUID_FORMAT} and selector %d. ioctl(UVCIOC_CTRL_ADD) failed with return value %d (error %d: %s)"
       [arg_s (Some v4l2_name); arg_guid entity; arg_d selector;
        arg_d v4l2_ret; arg_d errno; arg_strerror errno]).

(** Whether [process_meta] reads the meta section: [ctx->info] is not NULL
    and its flags have [CD_RETRIEVE_META_INFO]. *)
Definition retrieves_meta (c : ParseContext) : bool :=
  match info c with
  | Some i => CD_RETRIEVE_META_INFO (flags i)
  | None => false
  end.

(** The registry of a context, with what decides whether the meta section
    is read. *)
Definition registry_view (c : ParseContext) : list UVCXUControl * bool :=
  (controls c, retrieves_meta c).

(** A computation that returns from every machine and leaves the registry
    as it found it. *)
Definition keeps_registry {A : Type} (c : M A) : Prop :=
  forall m, exists a m',
    c m = Returns a m' /\ registry_view (ctx m') = registry_view (ctx m).

(** A text that [iconv] converts: none, or 7-bit. *)
Definition converts (unicode : option cstr) : bool :=
  match unicode with
  | Some s => is_7bit s
  | None => true
  end.

(** A mapping whose texts [iconv] converts. *)
Definition mapping_is_safe (node_mapping : xmlNode) : bool :=
  converts
    (xml_get_node_text (xml_get_first_child_by_name node_mapping "name"))
  && match xml_get_first_child_by_name node_mapping "uvc" with
     | Some node_uvc =>
         converts
           (xml_get_node_text (xml_get_first_child_by_name node_uvc "size"))
         && converts
              (xml_get_node_text
                 (xml_get_first_child_by_name node_uvc "offset"))
     | None => true
     end.

(** A constant whose declaration does not abort: its name converts, an
    integer has a [value] node, a GUID has a value text. *)
Definition constant_is_safe (node_constant : xmlNode) : bool :=
  match
    xml_get_node_text (xml_get_first_child_by_name node_constant "id")
  with
  | None => true
  | Some name =>
      is_7bit name
      && (let type := xmlGetProp node_constant "type" in
          let node_value :=
            xml_get_first_child_by_name node_constant "value" in
          if xmlStrEqual type "integer" then
            match node_value with Some _ => true | None => false end
          else if xmlStrEqual type "guid" then
            match xml_get_node_text node_value with
            | Some _ => true
            | None => false
            end
          else true)
  end.

(** The entry that a control declaration with literal fields declares: an
    [id], an entity text that the validity test accepts, integer literals
    for selector, index and size, a size up to 0xFFFF, a [requests] node. *)
Definition literal_entry (node_control : xmlNode) : option UVCXUControl :=
  match
    xmlGetProp node_control "id",
    xml_get_node_text (xml_get_first_child_by_name node_control "entity"),
    is_valid_integer_string
      (xml_get_node_text (xml_get_first_child_by_name node_control "selector")),
    is_valid_integer_string
      (xml_get_node_text (xml_get_first_child_by_name node_control "index")),
    is_valid_integer_string
      (xml_get_node_text (xml_get_first_child_by_name node_control "size")),
    xml_get_first_child_by_name node_control "requests"
  with
  | Some id, Some entity, Some selector, Some index, Some size,
    Some node_requests =>
      if is_valid_guid entity && is_valid_size size 65535 then
        Some
          (mkControl id
             (mkControlInfo
                (guid_to_byte_array (string_memory (fun _ => zero) entity))
                (to_u8 index) (to_u8 selector) (to_u16 size)
                (Z.lor
                   (request_flags
                      (xml_children_by_name node_requests "request") 0)
                   UVC_CTRL_FLAG_AUTO_UPDATE)))
      else None
  | _, _, _, _, _, _ => None
  end.

(** The same as a list, empty for any other declaration. *)
Definition literal_entries (node_control : xmlNode) : list UVCXUControl :=
  match literal_entry node_control with
  | Some entry => [entry]
  | None => []
  end.

(** A control declaration with literal, well-formed fields. *)
Definition is_literal (node_control : xmlNode) : bool :=
  match literal_entry node_control with
  | Some _ => true
  | None => false
  end.

(** The control declarations that one pass visits, in order. *)
Definition device_controls (node_device : xmlNode) : list xmlNode :=
  match xml_get_first_child_by_name node_device "controls" with
  | Some node_controls => xml_children_by_name node_controls "control"
  | None => []
  end.

Definition devices_controls (node_devices : xmlNode) : list xmlNode :=
  flat_map device_controls (xml_children_by_name node_devices "device").

Definition document_controls (node_root : xmlNode) : list xmlNode :=
  flat_map devices_controls (xml_children_by_name node_root "devices").

(** A document whose sections outside the devices do not abort: the
    [meta], [constants] and [mappings] nodes exist, and every constant and
    mapping is safe. *)
Definition document_is_safe (node_root : xmlNode) : bool :=
  match
    xml_get_first_child_by_name node_root "meta",
    xml_get_first_child_by_name node_root "constants",
    xml_get_first_child_by_name node_root "mappings"
  with
  | Some _, Some node_constants, Some node_mappings =>
      forallb constant_is_safe
        (xml_children_by_name node_constants "constant")
      && forallb mapping_is_safe
           (xml_children_by_name node_mappings "mapping")
  | _, _, _ => false
  end.

(** Passes over a document, one for each element of [between]; before each
    pass the outside world moves on as the element says (devices are opened,
    probed and closed). *)
Fixpoint passes (doc : xmlDoc) (between : list (World -> World)) : M unit :=
  match between with
  | [] => ret tt
  | step :: rest =>
      (fun m => Returns tt (mkMachine (ctx m) (step (world m)))) ;;;
      process_dynctrl_doc (Some doc) ;;;
      passes doc rest
  end.

(** A computation that returns from every machine that does not retrieve
    the meta information, with a value that satisfies [Q], and that puts
    [entries] on the registry, the last of them at the head. *)
Definition registers {A : Type} (entries : list UVCXUControl)
    (Q : A -> Prop) (c : M A) : Prop :=
  forall m, retrieves_meta (ctx m) = false ->
    exists a m',
      c m = Returns a m' /\ Q a
      /\ controls (ctx m') = (rev entries ++ controls (ctx m))%list
      /\ retrieves_meta (ctx m') = false.

(** Two conditions on the value returned: none, and success. *)
Definition any {A : Type} (a : A) : Prop := True.

Definition succeeds (r : CResult) : Prop := r = C_SUCCESS.

(** The statistics, the messages and the result code that a session hands
    back. *)
Definition session_stats
    (run : option (CResult * option CDynctrlInfo * World))
    : option CDynctrlStats :=
  match run with
  | Some (_, Some i, _) => Some (stats i)
  | _ => None
  end.

Definition session_messages
    (run : option (CResult * option CDynctrlInfo * World))
    : option (list CDynctrlMessage) :=
  match run with
  | Some (_, Some i, _) => Some (messages i)
  | _ => None
  end.

Definition session_result
    (run : option (CResult * option CDynctrlInfo * World)) : option CResult :=
  option_map (fun x => fst (fst x)) run.

(** A conjunction of tests that holds, as its conjuncts. *)
Ltac split_andb H :=
  repeat match type of H with
         | (_ && _)%bool = true =>
             let H1 := fresh "Hx" in
             apply andb_prop in H; destruct H as [H1 H];
             try split_andb H1
         end.

(** A group of hexadecimal digits, as its characters. *)
Ltac explode_group g H :=
  let Hlen := fresh "Hlen" in
  unfold hex_group in H; apply andb_prop in H; destruct H as [Hlen H];
  apply Nat.eqb_eq in Hlen; unfold strlen in Hlen;
  do 12 (try (destruct g as [|? g]; [discriminate Hlen|]));
  try (destruct g; [|discriminate Hlen]);
  clear Hlen; cbn [is_hex_string] in H; split_andb H.

(** A computation that, whenever it returns, leaves a machine that [R]
    relates to the machine it found. *)
Definition respects {A : Type} (R : Machine -> Machine -> Prop) (c : M A)
    : Prop :=
  forall m a m', c m = Returns a m' -> R m m'.

(** A change of the context alone. *)
Definition with_ctx (f : ParseContext -> ParseContext) (m : Machine)
    : Machine :=
  mkMachine (f (ctx m)) (world m).

(** A change of the world alone. *)
Definition with_world (w : World) (m : Machine) : Machine :=
  mkMachine (ctx m) w.

(** The change of the statistics after a declaration. *)
Definition counted (f : CResult -> CDynctrlStats -> CDynctrlStats)
    (r : CResult) (c : ParseContext) : ParseContext :=
  map_info (fun i => set_stats (f r (stats i)) i) c.

(** The messages of an [info] structure, none without one. *)
Definition info_messages (i : option CDynctrlInfo) : list CDynctrlMessage :=
  match i with
  | Some i => messages i
  | None => []
  end.

Definition no_warning (msg : CDynctrlMessage) : Prop :=
  severity msg <> CD_SEVERITY_WARNING.

(** The log of [m'] is the log of [m] and more messages, none of them a
    warning, and the caller's flags are the same. *)
Definition log_grows (m m' : Machine) : Prop :=
  option_map flags (info (ctx m')) = option_map flags (info (ctx m))
  /\ exists more,
       log_of (ctx m') = (log_of (ctx m) ++ more)%list
       /\ Forall no_warning more.

(** What the first pass alone writes: the symbol table, the meta
    information and the count of the constants. *)
Definition declarations_view (c : ParseContext)
    : list Constant * option CDynctrlMeta * option counters :=
  (constants c, option_map meta (info c),
   option_map (fun i => stats_constants (stats i)) (info c)).

(** The two handles of the context. *)
Definition handles_view (c : ParseContext) : Z * Z :=
  (v4l2_handle c, handle c).

(** Two machines whose contexts look the same through [view]. *)
Definition same {V : Type} (view : ParseContext -> V) (m m' : Machine)
    : Prop :=
  view (ctx m') = view (ctx m).

Definition constant_names (c : ParseContext) : list cstr :=
  map c_name (constants c).

(** The symbol table of [m'] resolves every name that the table of [m]
    resolves, to the same constant, and has no name twice if the table of
    [m] has none. *)
Definition table_extends (m m' : Machine) : Prop :=
  (NoDup (constant_names (ctx m)) -> NoDup (constant_names (ctx m')))
  /\ forall name kind k,
       lookup_constant name kind (constants (ctx m)) = Some k ->
       lookup_constant name kind (constants (ctx m')) = Some k.

(** The result codes of a device that was applied to. *)
Definition device_result (r : CResult) : Prop :=
  r = C_SUCCESS \/ r = C_INVALID_DEVICE \/ r = C_CANNOT_WRITE
  \/ r = C_NOT_IMPLEMENTED.

(** The message about a device that is no UVC device. *)
Definition not_uvc_message (device : CDevice) : CDynctrlMessage :=
  mkMessage 0 0 CD_SEVERITY_INFO
    (vasprintf "device '%s' skipped because it is not a UVC device."
       [arg_s (Some (shortName device))]).

(** The message about a file that the XML parser rejects. *)
Definition malformed_message (e_line e_col : Z) (e_message : cstr)
    : CDynctrlMessage :=
  mkMessage e_line e_col CD_SEVERITY_ERROR
    (vasprintf
       "Malformed control mapping file encountered. Unable to parse: %s"
       [arg_s (Some e_message)]).

(** The message about a control whose size is out of range. *)
Definition invalid_size_message (node_control : xmlNode) : CDynctrlMessage :=
  mkMessage (node_line node_control) 0 CD_SEVERITY_ERROR
    (vasprintf "Invalid control size specified: '%s'"
       [or_empty
          (xml_get_node_text
             (xml_get_first_child_by_name node_control "size"))]).


(** The declarations that a counter has seen. *)
Definition total (c : counters) : Z := successful c + failed c.

(** Through the measure [mu] of the statistics, [m'] has counted [k] more
    than [m] (the counters are [unsigned int]s); a machine without [info]
    structure counts nothing. *)
Definition counts (mu : CDynctrlStats -> Z) (k : Z) (m m' : Machine) : Prop :=
  match info (ctx m), info (ctx m') with
  | Some i, Some i' => to_u32 (mu (stats i')) = to_u32 (mu (stats i) + k)
  | None, None => True
  | _, _ => False
  end.

(** The constant and the mapping declarations of a document. *)
Definition document_constants (node_root : xmlNode) : list xmlNode :=
  match xml_get_first_child_by_name node_root "constants" with
  | Some node_constants => xml_children_by_name node_constants "constant"
  | None => []
  end.

Definition document_mappings (node_root : xmlNode) : list xmlNode :=
  match xml_get_first_child_by_name node_root "mappings" with
  | Some node_mappings => xml_children_by_name node_mappings "mapping"
  | None => []
  end.

(** The number of elements of a list, as an integer. *)
Definition count_of {A : Type} (l : list A) : Z := Z.of_nat (List.length l).

(** The machine that a return leaves; [otherwise] after an abort. *)
Definition left_by {A : Type} (o : outcome A) (otherwise : Machine)
    : Machine :=
  match o with
  | Returns _ m => m
  | Aborts => otherwise
  end.

(** The texts of a list of [request] nodes. *)
Definition request_texts (nodes : list xmlNode) : list (option cstr) :=
  map (fun node => xml_get_node_text (Some node)) nodes.

(** * Facts *)

(** ** Literals, by example *)

Example strtol_hex : strtol "0x1F" 0 = (31, 4%nat).
Proof. reflexivity. Qed.
Example strtol_octal : strtol "  -017" 0 = (-15, 6%nat).
Proof. reflexivity. Qed.
Example strtol_lone_prefix : strtol "0xg" 0 = (0, 1%nat).
Proof. reflexivity. Qed.
Example strtol_no_digits : strtol "abc" 0 = (0, 0%nat).
Proof. reflexivity. Qed.
Example integer_string_decimal : is_valid_integer_string (Some "42") = Some 42.
Proof. reflexivity. Qed.
Example integer_string_trailing : is_valid_integer_string (Some "42x") = None.
Proof. reflexivity. Qed.
Example integer_string_empty : is_valid_integer_string (Some "") = None.
Proof. reflexivity. Qed.
Example normalize_example :
  normalize_string (Some (" Multi" ++ String "010" "line   text  "))
  = Some "Multi line text".
Proof. reflexivity. Qed.

(** ** GUID texts *)

Lemma HEX_DECODE_CHAR_hex_value (c : ascii) :
  isxdigit c = true -> HEX_DECODE_CHAR c = hex_value c.
Proof.
  destruct c as [[] [] [] [] [] [] [] []]; intro H;
    try discriminate H; reflexivity.
Qed.

Lemma hex_value_range (c : ascii) : 0 <= hex_value c <= 15.
Proof.
  destruct c as [[] [] [] [] [] [] [] []]; cbv; split; discriminate.
Qed.

Lemma to_u8_hex_pair (hi lo : ascii) :
  isxdigit hi = true -> isxdigit lo = true ->
  to_u8 (Z.shiftl (HEX_DECODE_CHAR hi) 4 + HEX_DECODE_CHAR lo)
  = 16 * hex_value hi + hex_value lo.
Proof.
  intros Hhi Hlo.
  rewrite (HEX_DECODE_CHAR_hex_value _ Hhi), (HEX_DECODE_CHAR_hex_value _ Hlo).
  pose proof (hex_value_range hi). pose proof (hex_value_range lo).
  rewrite Z.shiftl_mul_pow2 by lia. change (2 ^ 4) with 16.
  unfold to_u8. rewrite Z.mod_small; lia.
Qed.

(** C8. For every canonical GUID text, the stored form holds the bytes of
    the first three groups in reversed order within each group, and the
    bytes of the fourth group and of the trailing twelve digits in the
    order of the text. *)
Theorem guid_to_byte_array_byte_order
    (adjacent : nat -> ascii) (g1 g2 g3 g4 g5 : cstr) :
  hex_group 8 g1 = true -> hex_group 4 g2 = true ->
  hex_group 4 g3 = true -> hex_group 4 g4 = true ->
  hex_group 12 g5 = true ->
  guid_to_byte_array (string_memory adjacent (guid_text g1 g2 g3 g4 g5))
  = (rev (hex_bytes g1) ++ rev (hex_bytes g2) ++ rev (hex_bytes g3)
     ++ hex_bytes g4 ++ hex_bytes g5)%list.
Proof.
  intros H1 H2 H3 H4 H5.
  explode_group g1 H1. explode_group g2 H2. explode_group g3 H3.
  explode_group g4 H4. explode_group g5 H5.
  cbv -[HEX_DECODE_CHAR to_u8 Z.shiftl Z.add Z.mul hex_value].
  rewrite !to_u8_hex_pair by assumption.
  reflexivity.
Qed.

Lemma guid_to_byte_array_byte_order_witness :
  guid_to_byte_array
    (string_memory (fun _ => zero)
       (guid_text "63610682" "5070" "49ab" "b8cc" "b3855e8d221d"))
  = [130; 6; 97; 99; 112; 80; 171; 73; 184; 204; 179; 133; 94; 141; 34; 29].
Proof.
  exact (guid_to_byte_array_byte_order (fun _ => zero)
           "63610682" "5070" "49ab" "b8cc" "b3855e8d221d"
           eq_refl eq_refl eq_refl eq_refl eq_refl).
Defined.

(** ** The validity test of GUID texts *)

Lemma char_at_nonzero_lt (s : cstr) (i : nat) :
  char_at s i <> zero -> (i < strlen s)%nat.
Proof.
  unfold char_at, strlen. revert i.
  induction s as [|c s IH]; intros [|i] H; simpl in *;
    try congruence; try lia.
  apply IH in H. lia.
Qed.

Lemma is_valid_guid_loop_bound (s : cstr) (n i : nat) :
  is_valid_guid_loop s i n = true -> (0 < n)%nat -> (i + n <= strlen s)%nat.
Proof.
  revert i. induction n as [|n IH]; intros i H Hn; simpl in H.
  - lia.
  - assert (Hc : char_at s i <> zero).
    { intro Hz. rewrite Hz in H.
      destruct (is_hyphen_index i); discriminate H. }
    apply char_at_nonzero_lt in Hc.
    assert (Hrest : is_valid_guid_loop s (S i) n = true).
    { destruct (is_hyphen_index i).
      - destruct (Ascii.eqb (char_at s i) "-"); [exact H|discriminate H].
      - destruct (isxdigit (char_at s i)); [exact H|discriminate H]. }
    destruct n as [|n'].
    + lia.
    + apply IH in Hrest; lia.
Qed.

Lemma is_valid_guid_loop_ext (s t : cstr) (n i : nat) :
  (forall j, (i <= j < i + n)%nat -> char_at s j = char_at t j) ->
  is_valid_guid_loop s i n = is_valid_guid_loop t i n.
Proof.
  revert i. induction n as [|n IH]; intros i H; simpl.
  - reflexivity.
  - rewrite (H i) by lia. rewrite (IH (S i)).
    + reflexivity.
    + intros j Hj. apply H. lia.
Qed.

Lemma char_at_prefix (s : cstr) (n j : nat) :
  (j < n)%nat -> char_at (substring 0 n s) j = char_at s j.
Proof.
  intro H. unfold char_at.
  rewrite (substring_correct1 s 0 n j H). now rewrite Nat.add_0_r.
Qed.

Lemma strlen_prefix (s : cstr) (n : nat) :
  (n <= strlen s)%nat -> strlen (substring 0 n s) = n.
Proof.
  unfold strlen. revert n.
  induction s as [|c s IH]; intros [|n] H; simpl in *; try lia.
  rewrite IH; lia.
Qed.

(** On a text of 36 characters the loop of the source and the canonical
    form agree. *)
Lemma is_valid_guid_36 (s : cstr) :
  strlen s = 36%nat -> is_valid_guid s = canonical_guid s.
Proof.
  unfold strlen. intro Hlen.
  do 36 (destruct s as [|? s]; [discriminate Hlen|]).
  destruct s; [|discriminate Hlen]. clear Hlen.
  cbv -[isxdigit Ascii.eqb].
  repeat match goal with
         | |- (if ?b then _ else _) = _ => destruct b; [cbv iota|reflexivity]
         end.
  reflexivity.
Qed.

Lemma is_valid_guid_unfold (s : cstr) :
  is_valid_guid s = is_valid_guid_loop s 0 36.
Proof. reflexivity. Qed.

Lemma is_valid_guid_length (s : cstr) :
  is_valid_guid s = true -> (36 <= strlen s)%nat.
Proof.
  intro H. rewrite is_valid_guid_unfold in H.
  apply is_valid_guid_loop_bound in H; lia.
Qed.

Lemma is_valid_guid_prefix (s : cstr) :
  (36 <= strlen s)%nat ->
  is_valid_guid s = canonical_guid (substring 0 36 s).
Proof.
  intro Hlen. transitivity (is_valid_guid (substring 0 36 s)).
  - rewrite !is_valid_guid_unfold.
    apply is_valid_guid_loop_ext. intros j Hj.
    symmetry. apply char_at_prefix. lia.
  - apply is_valid_guid_36, strlen_prefix, Hlen.
Qed.

(** What the source accepts: the texts whose first 36 characters are a
    canonical GUID, whatever follows them. *)
Lemma is_valid_guid_accepts (s : cstr) :
  is_valid_guid s = true
  <-> (36 <= strlen s)%nat /\ canonical_guid (substring 0 36 s) = true.
Proof.
  split.
  - intro H. pose proof (is_valid_guid_length s H) as Hlen.
    split; [exact Hlen|]. rewrite <- (is_valid_guid_prefix s Hlen). exact H.
  - intros [Hlen H]. rewrite (is_valid_guid_prefix s Hlen). exact H.
Qed.

(** Every canonical GUID text is accepted. *)
Lemma canonical_guid_is_valid (s : cstr) :
  canonical_guid s = true -> is_valid_guid s = true.
Proof.
  intro H. assert (Hlen : strlen s = 36%nat).
  { unfold canonical_guid in H. split_andb H.
    match goal with Hl : (strlen s =? 36)%nat = true |- _ =>
      apply Nat.eqb_eq in Hl; exact Hl
    end. }
  rewrite (is_valid_guid_36 s Hlen). exact H.
Qed.

(** C7. A text of 38 characters, a canonical GUID followed by two more
    characters, is not of the canonical form, and the source accepts it as a
    GUID literal. *)
Theorem is_valid_guid_accepts_longer_text :
  let s := (Scenario.a_guid ++ "zz")%string in
  strlen s = 38%nat /\ canonical_guid s = false /\ is_valid_guid s = true.
Proof. repeat split. Qed.

(** ** Resolution of integers and GUIDs *)

(** A text that is an integer literal resolves to its value, whatever the
    symbol table holds. *)
Lemma integer_literal_resolves (s : cstr) (v value : Z)
    (table : list Constant) :
  is_valid_integer_string (Some s) = Some v ->
  lookup_or_convert_to_integer (Some s) value table = (C_SUCCESS, v).
Proof. intro H. unfold lookup_or_convert_to_integer. now rewrite H. Qed.

(** Any other text is looked up as the name of an integer constant. *)
Lemma integer_symbol_resolves (s : cstr) (value : Z) (table : list Constant) :
  is_valid_integer_string (Some s) = None ->
  lookup_or_convert_to_integer (Some s) value table
  = match lookup_constant s CT_INTEGER table with
    | Some constant => (C_SUCCESS, c_value constant)
    | None => (C_PARSE_ERROR, value)
    end.
Proof. intro H. unfold lookup_or_convert_to_integer. now rewrite H. Qed.

Lemma ConstantType_eqb_eq (a b : ConstantType) :
  ConstantType_eqb a b = true <-> a = b.
Proof. destruct a, b; simpl; split; congruence. Qed.

(** A lookup with a type filter finds only constants of that type and
    name. *)
Lemma lookup_constant_found (name : cstr) (kind : ConstantType)
    (table : list Constant) (constant : Constant) :
  kind <> CT_INVALID ->
  lookup_constant name kind table = Some constant ->
  c_name constant = name /\ c_type constant = kind /\ In constant table.
Proof.
  intros Hkind. induction table as [|elem next IH]; simpl; [discriminate|].
  destruct (String.eqb (c_name elem) name) eqn:Hname; simpl.
  - destruct (ConstantType_eqb kind CT_INVALID) eqn:Hinv.
    + apply ConstantType_eqb_eq in Hinv. contradiction.
    + destruct (ConstantType_eqb (c_type elem) kind) eqn:Htype.
      * intro H. injection H as <-. apply String.eqb_eq in Hname.
        apply ConstantType_eqb_eq in Htype. auto.
      * intro H. destruct (IH H) as (? & ? & ?). auto.
  - intro H. destruct (IH H) as (? & ? & ?). auto.
Qed.

(** A name that the table defines only with another type is not found. *)
Lemma lookup_constant_other_kind (name : cstr) (kind : ConstantType)
    (table : list Constant) :
  kind <> CT_INVALID ->
  (forall constant, In constant table -> c_name constant = name ->
                    c_type constant <> kind) ->
  lookup_constant name kind table = None.
Proof.
  intros Hkind Hother.
  destruct (lookup_constant name kind table) as [constant|] eqn:H;
    [|reflexivity].
  destruct (lookup_constant_found _ _ _ _ Hkind H) as (Hn & Ht & Hin).
  now destruct (Hother constant Hin Hn).
Qed.

(** The decode of a text of at least 35 characters stays inside its
    buffer, so that it does not depend on the memory that follows. *)
Lemma guid_to_byte_array_in_bounds (a1 a2 : nat -> ascii) (s : cstr) :
  (35 <= strlen s)%nat ->
  guid_to_byte_array (string_memory a1 s)
  = guid_to_byte_array (string_memory a2 s).
Proof.
  intro H. unfold guid_to_byte_array. apply map_ext_in.
  intros off Hin. unfold HEX_DECODE_BYTE, string_memory.
  assert (Hoff : (off <= 34)%nat).
  { unfold guid_byte_offsets in Hin. simpl in Hin.
    repeat (destruct Hin as [<-|Hin]; [lia|]). contradiction. }
  destruct (Nat.leb_spec off (strlen s)); [|lia].
  destruct (Nat.leb_spec (S off) (strlen s)); [|lia].
  reflexivity.
Qed.

(** A canonical GUID text resolves to its decode, whatever the symbol table
    holds. *)
Lemma guid_literal_resolves (adjacent : cstr -> nat -> ascii) (s : cstr)
    (guid : guid_bytes) (table : list Constant) :
  canonical_guid s = true ->
  lookup_or_convert_to_guid adjacent (Some s) guid table
  = (C_SUCCESS, guid_to_byte_array (string_memory (fun _ => zero) s)).
Proof.
  intro H. unfold lookup_or_convert_to_guid.
  rewrite (canonical_guid_is_valid s H). f_equal.
  apply guid_to_byte_array_in_bounds.
  apply canonical_guid_is_valid, is_valid_guid_length in H. lia.
Qed.

(** A text that the validity test rejects is looked up as the name of a
    GUID constant. *)
Lemma guid_symbol_resolves (adjacent : cstr -> nat -> ascii) (s : cstr)
    (guid : guid_bytes) (table : list Constant) :
  is_valid_guid s = false ->
  lookup_or_convert_to_guid adjacent (Some s) guid table
  = match lookup_constant s CT_GUID table with
    | Some constant => (C_SUCCESS, c_guid constant)
    | None => (C_PARSE_ERROR, guid)
    end.
Proof. intro H. unfold lookup_or_convert_to_guid. now rewrite H. Qed.

(** C6. A text that is not a canonical GUID and that names a GUID constant
    of the table: the resolution does not look the name up, it returns the
    decode of the first 36 characters of the text. *)
Theorem lookup_or_convert_to_guid_skips_lookup :
  let name := (Scenario.a_guid ++ "zz")%string in
  let constant := mkConstant CT_GUID name 0 (repeat 255 GUID_SIZE) in
  canonical_guid name = false
  /\ lookup_constant name CT_GUID [constant] = Some constant
  /\ lookup_or_convert_to_guid (fun _ _ => zero) (Some name)
       (repeat 0 GUID_SIZE) [constant]
     = (C_SUCCESS,
        [130; 6; 97; 99; 112; 80; 171; 73; 184; 204; 179; 133; 94; 141; 34;
         29])
  /\ lookup_or_convert_to_guid (fun _ _ => zero) (Some name)
       (repeat 0 GUID_SIZE) []
     = (C_SUCCESS,
        [130; 6; 97; 99; 112; 80; 171; 73; 184; 204; 179; 133; 94; 141; 34;
         29]).
Proof. repeat split. Qed.

(** ** The diagnostic log *)

Lemma machine_eta (m : Machine) : mkMachine (ctx m) (world m) = m.
Proof. now destruct m. Qed.

Lemma add_message_v_logs {A : Type} (l c : Z) (sev : CDynctrlMessageSeverity)
    (fmt : cstr) (va : list printf_arg) (k : M A) (m : Machine) :
  (add_message_v l c sev fmt va ;;; k) m
  = k (log_machine (mkMessage l c sev (vasprintf fmt va)) m).
Proof.
  unfold add_message_v, bind, get_ctx, modify_ctx, ret, log_machine, logged.
  destruct (info (ctx m)) as [i|]; simpl.
  - destruct (CD_REPORT_ERRORS (flags i)); simpl;
      now rewrite ?machine_eta.
  - now rewrite machine_eta.
Qed.

Lemma add_error_at_node_logs {A : Type} (node : xmlNode) (fmt : cstr)
    (va : list printf_arg) (k : M A) (m : Machine) :
  (add_error_at_node node fmt va ;;; k) m
  = k (log_machine
         (mkMessage (node_line node) 0 CD_SEVERITY_ERROR (vasprintf fmt va))
         m).
Proof. apply add_message_v_logs. Qed.

Lemma add_error_logs {A : Type} (fmt : cstr) (va : list printf_arg)
    (k : M A) (m : Machine) :
  (add_error fmt va ;;; k) m
  = k (log_machine (mkMessage 0 0 CD_SEVERITY_ERROR (vasprintf fmt va)) m).
Proof. apply add_message_v_logs. Qed.

Lemma add_info_logs {A : Type} (fmt : cstr) (va : list printf_arg)
    (k : M A) (m : Machine) :
  (add_info fmt va ;;; k) m
  = k (log_machine (mkMessage 0 0 CD_SEVERITY_INFO (vasprintf fmt va)) m).
Proof. apply add_message_v_logs. Qed.

Lemma log_of_logged (msg : CDynctrlMessage) (c : ParseContext) :
  log_of (logged msg c)
  = (log_of c ++ if reports c then [msg] else [])%list.
Proof.
  unfold log_of, logged, reports.
  destruct (info c) as [i|] eqn:Hi; simpl.
  - destruct (CD_REPORT_ERRORS (flags i)); simpl.
    + unfold resize_message_buffer, map_info. now rewrite Hi.
    + rewrite Hi. now rewrite app_nil_r.
  - now rewrite Hi.
Qed.

Lemma logged_fields (msg : CDynctrlMessage) (c : ParseContext) :
  constants (logged msg c) = constants c
  /\ controls (logged msg c) = controls c
  /\ pass (logged msg c) = pass c
  /\ handle (logged msg c) = handle c
  /\ v4l2_handle (logged msg c) = v4l2_handle c
  /\ reports (logged msg c) = reports c.
Proof.
  unfold logged, reports. destruct (info c) as [i|] eqn:Hi.
  - destruct (CD_REPORT_ERRORS (flags i)) eqn:Hr; simpl.
    + unfold map_info. rewrite Hi. simpl. now rewrite Hr.
    + now rewrite Hi, Hr.
  - now rewrite Hi.
Qed.

(** ** Constants of type guid *)

Lemma guid_reads_offset_35 : In 35%nat guid_read_offsets.
Proof. unfold guid_read_offsets, guid_byte_offsets. simpl. tauto. Qed.

(** C10. A constant of type guid is declared without any validation of the
    text of its value: whatever that text is, the declaration succeeds and
    stores the decode of the fixed offsets; when the text has fewer than 35
    characters, one of the offsets that the decode reads lies outside the
    buffer of the text. *)
Theorem process_constant_guid_unvalidated
    (node : xmlNode) (name s : cstr) (m : Machine) :
  xml_get_node_text (xml_get_first_child_by_name node "id") = Some name ->
  is_7bit name = true ->
  lookup_constant name CT_INVALID (constants (ctx m)) = None ->
  xmlGetProp node "type" = Some "guid" ->
  xml_get_node_text (xml_get_first_child_by_name node "value") = Some s ->
  process_constant node m
  = Returns C_SUCCESS
      (mkMachine
         (set_constants
            (mkConstant CT_GUID name 0
               (map (fun off =>
                       to_u8 (HEX_DECODE_BYTE
                                (string_memory (adjacent_memory env s) s) off))
                  guid_byte_offsets)
             :: constants (ctx m))
            (ctx m))
         (world m))
  /\ ((strlen s < 35)%nat ->
      exists off, In off guid_read_offsets /\ in_bounds s off = false).
Proof.
  intros Hid H7 Hnew Htype Hvalue. split.
  - unfold process_constant, bind at 1. rewrite Hid.
    unfold unicode_to_ascii, iconv_utf8_to_ascii. rewrite H7.
    unfold ret at 1. unfold bind at 1, get_ctx.
    rewrite Hnew, Htype, Hvalue. reflexivity.
  - intro Hshort. exists 35%nat. split; [apply guid_reads_offset_35|].
    unfold in_bounds. apply Nat.leb_gt. lia.
Qed.

(** ** Stepping through a computation *)

Lemma bind_returns {A B : Type} (c : M A) (k : A -> M B) (m m' : Machine)
    (a : A) :
  c m = Returns a m' -> bind c k m = k a m'.
Proof. intro H. unfold bind. now rewrite H. Qed.

Lemma call_returns {A : Type} (f : World -> A * World) (m : Machine) (a : A)
    (w : World) :
  f (world m) = (a, w) -> call f m = Returns a (mkMachine (ctx m) w).
Proof. intro H. unfold call. now rewrite H. Qed.

Lemma modify_ctx_returns (f : ParseContext -> ParseContext) (m : Machine) :
  modify_ctx f m = Returns tt (mkMachine (f (ctx m)) (world m)).
Proof. reflexivity. Qed.

(** ** Probing *)

(** The result of the probe, from what the ioctl returned. *)
Lemma device_supports_dynctrl_result (m : Machine) (v4l2_ret errno : Z)
    (w : World) :
  v4l2_handle (ctx m) <> 0 ->
  ioctl_UVCIOC_CTRL_ADD env (world m) (v4l2_handle (ctx m)) probe_control
  = (v4l2_ret, errno, w) ->
  device_supports_dynctrl m
  = Returns
      (if v4l2_ret =? -1 then
         if errno =? EPERM then C_CANNOT_WRITE
         else if errno =? EEXIST then C_SUCCESS
         else C_NOT_IMPLEMENTED
       else C_NOT_IMPLEMENTED)
      (mkMachine (ctx m) w).
Proof.
  intros Hfd Hioctl.
  unfold device_supports_dynctrl, bind, get_ctx, ioctl_ctrl_add.
  apply Z.eqb_neq in Hfd. rewrite Hfd, Hioctl.
  destruct (v4l2_ret =? -1); [|reflexivity].
  destruct (errno =? EPERM); [reflexivity|].
  destruct (errno =? EEXIST); reflexivity.
Qed.

(** A device whose probe fails: the document is not processed. *)
Lemma add_control_mappings_probe_fails (xml_doc : option xmlDoc) (m : Machine)
    (fd : Z) (w2 w3 : World) (r : CResult) :
  open_v4l2_device env (world m)
    (handle_v4l2_name env (world m) (handle (ctx m))) = (fd, w2) ->
  fd <> 0 ->
  device_supports_dynctrl (mkMachine (set_v4l2_handle fd (ctx m)) w2)
  = Returns r (mkMachine (set_v4l2_handle fd (ctx m)) w3) ->
  is_error r = true ->
  add_control_mappings xml_doc m
  = Returns r
      (mkMachine (set_v4l2_handle 0 (set_v4l2_handle fd (ctx m)))
         (close env w3 fd)).
Proof.
  intros Hopen Hfd Hprobe Herr. unfold add_control_mappings.
  unfold bind at 1, device_v4l2_name.
  rewrite (bind_returns _ _ _ _ _ (call_returns _ m fd w2 Hopen)).
  rewrite (bind_returns _ _ _ _ _ (modify_ctx_returns _ _)).
  cbn [ctx world]. apply Z.eqb_neq in Hfd. rewrite Hfd.
  unfold bind at 1. unfold bind at 1. rewrite Hprobe, Herr.
  unfold ret at 1. unfold bind at 1, close_v4l2_handle.
  cbn [ctx world v4l2_handle set_v4l2_handle]. rewrite Hfd.
  reflexivity.
Qed.

(** C9. For a UVC device that can be opened: the probe reports support
    exactly when the ioctl fails with [EEXIST]; when the ioctl succeeds
    outright, and likewise when it fails with an error other than [EPERM]
    and [EEXIST], the device is skipped: the document is not processed (the
    pass counter, the constants and the controls stay as they are), the
    count of successful devices stays, and the one diagnostic is that the
    driver does not seem to support dynamic controls. *)
Theorem probe_success_is_not_support
    (xml_doc : option xmlDoc) (device : CDevice) (r0 : CResult) (n : Z)
    (m : Machine) (h fd v4l2_ret errno : Z) (w1 w2 w3 : World) :
  driver device = "uvcvideo" ->
  c_open_device env (world m) (shortName device) = (h, w1) -> h <> 0 ->
  open_v4l2_device env w1 (handle_v4l2_name env w1 h) = (fd, w2) ->
  fd <> 0 ->
  ioctl_UVCIOC_CTRL_ADD env w2 fd probe_control = (v4l2_ret, errno, w3) ->
  let opened := set_v4l2_handle fd (set_handle h (ctx m)) in
  (exists r,
      device_supports_dynctrl (mkMachine opened w2)
      = Returns r (mkMachine opened w3)
      /\ (r = C_SUCCESS <-> v4l2_ret = -1 /\ errno = EEXIST))
  /\ (v4l2_ret <> -1 \/ (errno <> EPERM /\ errno <> EEXIST) ->
      device_iteration xml_doc device r0 n m
      = Returns (C_NOT_IMPLEMENTED, n)
          (mkMachine
             (set_handle 0
                (logged (unsupported_message device)
                   (set_v4l2_handle 0 opened)))
             (c_close_device env (close env w3 fd) h))).
Proof.
  intros Hdrv Hopen Hh Hfdopen Hfd Hioctl opened.
  assert (Hprobe := device_supports_dynctrl_result (mkMachine opened w2)
                      v4l2_ret errno w3 Hfd Hioctl).
  split.
  - eexists. split; [exact Hprobe|].
    destruct (Z.eqb_spec v4l2_ret (-1)) as [Hr|Hr].
    + destruct (Z.eqb_spec errno EPERM) as [He|He].
      * split; [discriminate|]. intros [_ He']. rewrite He in He'.
        discriminate He'.
      * destruct (Z.eqb_spec errno EEXIST) as [He'|He'].
        -- tauto.
        -- split; [discriminate|]. tauto.
    + split; [discriminate|]. tauto.
  - intro Hcase.
    assert (Hr : (if v4l2_ret =? -1 then
                    if errno =? EPERM then C_CANNOT_WRITE
                    else if errno =? EEXIST then C_SUCCESS
                    else C_NOT_IMPLEMENTED
                  else C_NOT_IMPLEMENTED) = C_NOT_IMPLEMENTED).
    { destruct (Z.eqb_spec v4l2_ret (-1)); [|reflexivity].
      destruct (Z.eqb_spec errno EPERM); [tauto|].
      destruct (Z.eqb_spec errno EEXIST); [tauto|reflexivity]. }
    rewrite Hr in Hprobe.
    assert (Hd : negb (driver device =? "uvcvideo")%string = false)
      by (rewrite Hdrv; reflexivity).
    unfold device_iteration. rewrite Hd.
    rewrite (bind_returns _ _ _ _ _ (call_returns _ m h w1 Hopen)).
    rewrite (bind_returns _ _ _ _ _ (modify_ctx_returns _ _)).
    apply Z.eqb_neq in Hh. rewrite Hh. cbn [ctx world].
    rewrite (bind_returns _ _ _ _ _
               (add_control_mappings_probe_fails xml_doc
                  (mkMachine (set_handle h (ctx m)) w1) fd w2 w3
                  C_NOT_IMPLEMENTED Hfdopen Hfd Hprobe eq_refl)).
    cbn [ctx world]. unfold bind at 1. rewrite add_error_logs.
    unfold ret, bind, log_machine. cbn [ctx world].
    fold (unsupported_message device).
    destruct (logged_fields (unsupported_message device)
                (set_v4l2_handle 0 (set_v4l2_handle fd (set_handle h (ctx m)))))
      as (_ & _ & _ & Hhandle & _).
    rewrite Hhandle. reflexivity.
Qed.
(** ** Declaring a control *)

Lemma process_requests_returns (nodes : list xmlNode) (xu_flags : Z)
    (m : Machine) :
  process_requests nodes xu_flags m
  = Returns (request_flags nodes xu_flags)
      (mkMachine (logged_all (request_diagnostics nodes) (ctx m)) (world m)).
Proof.
  revert xu_flags m.
  induction nodes as [|node rest IH]; intros xu_flags m.
  - simpl. unfold ret. now rewrite machine_eta.
  - cbn [process_requests]. unfold request_diagnostics. cbn [filter].
    unfold unrecognized_request at 1.
    destruct (get_uvc_request_by_name (xml_get_node_text (Some node)) =? 0).
    + unfold bind at 1. rewrite add_error_at_node_logs.
      unfold ret at 1. rewrite IH. reflexivity.
    + unfold bind at 1. unfold ret at 1. rewrite IH. reflexivity.
Qed.

Lemma logged_all_fields (msgs : list CDynctrlMessage) (c : ParseContext) :
  constants (logged_all msgs c) = constants c
  /\ controls (logged_all msgs c) = controls c
  /\ pass (logged_all msgs c) = pass c
  /\ handle (logged_all msgs c) = handle c
  /\ v4l2_handle (logged_all msgs c) = v4l2_handle c
  /\ reports (logged_all msgs c) = reports c.
Proof.
  revert c. induction msgs as [|msg rest IH]; intro c; simpl.
  - tauto.
  - destruct (IH (logged msg c)) as (H1 & H2 & H3 & H4 & H5 & H6).
    destruct (logged_fields msg c) as (G1 & G2 & G3 & G4 & G5 & G6).
    repeat split; congruence.
Qed.

Lemma log_of_logged_all (msgs : list CDynctrlMessage) (c : ParseContext) :
  log_of (logged_all msgs c)
  = (log_of c ++ if reports c then msgs else [])%list.
Proof.
  revert c. induction msgs as [|msg rest IH]; intro c; simpl.
  - destruct (reports c); now rewrite app_nil_r.
  - rewrite IH, log_of_logged.
    destruct (logged_fields msg c) as (_ & _ & _ & _ & _ & ->).
    destruct (reports c); simpl.
    + now rewrite <- app_assoc.
    + now rewrite !app_nil_r.
Qed.

(** A control declaration whose fields resolve: what [process_control]
    returns and the machine it leaves. *)
Lemma process_control_resolved
    (node : xmlNode) (m : Machine) (id : cstr) (entity : guid_bytes)
    (selector index size : Z) (node_requests : xmlNode)
    (v4l2_ret errno : Z) (w : World) :
  xmlGetProp node "id" = Some id ->
  lookup_or_convert_to_guid (adjacent_memory env)
    (xml_get_node_text (xml_get_first_child_by_name node "entity"))
    (repeat 0 GUID_SIZE) (constants (ctx m)) = (C_SUCCESS, entity) ->
  lookup_or_convert_to_integer
    (xml_get_node_text (xml_get_first_child_by_name node "selector"))
    0 (constants (ctx m)) = (C_SUCCESS, selector) ->
  lookup_or_convert_to_integer
    (xml_get_node_text (xml_get_first_child_by_name node "index"))
    selector (constants (ctx m)) = (C_SUCCESS, index) ->
  lookup_or_convert_to_integer
    (xml_get_node_text (xml_get_first_child_by_name node "size"))
    index (constants (ctx m)) = (C_SUCCESS, size) ->
  is_valid_size size 65535 = true ->
  xml_get_first_child_by_name node "requests" = Some node_requests ->
  let requests := xml_children_by_name node_requests "request" in
  let xu :=
    mkControlInfo entity (to_u8 index) (to_u8 selector) (to_u16 size)
      (Z.lor (request_flags requests 0) UVC_CTRL_FLAG_AUTO_UPDATE) in
  ioctl_UVCIOC_CTRL_ADD env (world m) (v4l2_handle (ctx m)) xu
  = (v4l2_ret, errno, w) ->
  let c1 := logged_all (request_diagnostics requests) (ctx m) in
  let failed := ioctl_failed v4l2_ret errno (pass (ctx m)) in
  let c2 :=
    if failed then
      logged
        (ctrl_add_diagnostic (handle_v4l2_name env w (handle (ctx m))) entity
           (to_u8 selector) v4l2_ret errno) c1
    else c1 in
  process_control node m
  = Returns (if failed then C_V4L2_ERROR else C_SUCCESS)
      (mkMachine (set_controls (mkControl id xu :: controls c2) c2) w).
Proof.
  intros Hid Hentity Hselector Hindex Hsize Hvalid Hrequests requests xu
    Hioctl c1 failed c2.
  unfold process_control. rewrite Hid.
  unfold bind at 1, get_ctx.
  rewrite Hentity. cbn [is_error]. rewrite Hselector. cbn [is_error].
  rewrite Hindex. cbn [is_error]. rewrite Hsize, Hvalid. cbn [is_error orb negb].
  rewrite Hrequests.
  rewrite (bind_returns _ _ _ _ _ (process_requests_returns _ _ _)).
  fold requests. cbn [xu_info]. fold xu.
  destruct (logged_all_fields (request_diagnostics requests) (ctx m))
    as (_ & _ & _ & Hh & Hv & _).
  unfold bind at 1, ioctl_ctrl_add. cbn [ctx world]. fold c1.
  fold c1 in Hh, Hv. rewrite Hv, Hioctl. fold failed.
  subst c2. destruct failed.
  - unfold bind at 1. unfold bind at 1, device_v4l2_name. cbn [ctx world].
    rewrite add_error_logs. unfold ret at 1. unfold bind at 1, modify_ctx.
    unfold ret, log_machine, ctrl_add_diagnostic. cbn [ctx world].
    rewrite Hh. reflexivity.
  - unfold bind at 1. unfold ret at 1. unfold bind at 1, modify_ctx.
    reflexivity.
Qed.

(** C4. For every control declaration whose fields resolve and that has a
    list of requests: the declaration returns, with a failure code only when
    the driver rejects the control; the control is the new head of the
    registry, with the flags of the recognized requests and [AUTO_UPDATE];
    and the log grows by one message of severity error, at the line of the
    request node, for each request token that is none of the six names (and
    by the message of the driver's rejection, if any), when the caller asked
    for reports. *)
Theorem unrecognized_requests_are_logged_as_errors
    (node : xmlNode) (m : Machine) (id : cstr) (entity : guid_bytes)
    (selector index size : Z) (node_requests : xmlNode)
    (v4l2_ret errno : Z) (w : World) :
  xmlGetProp node "id" = Some id ->
  lookup_or_convert_to_guid (adjacent_memory env)
    (xml_get_node_text (xml_get_first_child_by_name node "entity"))
    (repeat 0 GUID_SIZE) (constants (ctx m)) = (C_SUCCESS, entity) ->
  lookup_or_convert_to_integer
    (xml_get_node_text (xml_get_first_child_by_name node "selector"))
    0 (constants (ctx m)) = (C_SUCCESS, selector) ->
  lookup_or_convert_to_integer
    (xml_get_node_text (xml_get_first_child_by_name node "index"))
    selector (constants (ctx m)) = (C_SUCCESS, index) ->
  lookup_or_convert_to_integer
    (xml_get_node_text (xml_get_first_child_by_name node "size"))
    index (constants (ctx m)) = (C_SUCCESS, size) ->
  is_valid_size size 65535 = true ->
  xml_get_first_child_by_name node "requests" = Some node_requests ->
  let requests := xml_children_by_name node_requests "request" in
  let xu :=
    mkControlInfo entity (to_u8 index) (to_u8 selector) (to_u16 size)
      (Z.lor (request_flags requests 0) UVC_CTRL_FLAG_AUTO_UPDATE) in
  ioctl_UVCIOC_CTRL_ADD env (world m) (v4l2_handle (ctx m)) xu
  = (v4l2_ret, errno, w) ->
  let failed := ioctl_failed v4l2_ret errno (pass (ctx m)) in
  exists m',
    process_control node m
    = Returns (if failed then C_V4L2_ERROR else C_SUCCESS) m'
    /\ controls (ctx m') = mkControl id xu :: controls (ctx m)
    /\ log_of (ctx m')
       = (log_of (ctx m)
          ++ if reports (ctx m) then
               map request_diagnostic (filter unrecognized_request requests)
               ++ (if failed then
                     [ctrl_add_diagnostic
                        (handle_v4l2_name env w (handle (ctx m))) entity
                        (to_u8 selector) v4l2_ret errno]
                   else [])
             else [])%list
    /\ (forall node_request,
           severity (request_diagnostic node_request) = CD_SEVERITY_ERROR).
Proof.
  intros Hid Hentity Hselector Hindex Hsize Hvalid Hrequests requests xu
    Hioctl failed.
  eexists. split.
  - exact (process_control_resolved node m id entity selector index size
             node_requests v4l2_ret errno w Hid Hentity Hselector Hindex
             Hsize Hvalid Hrequests Hioctl).
  - cbn [ctx]. fold requests. fold failed.
    fold (request_diagnostics requests).
    destruct (logged_all_fields (request_diagnostics requests) (ctx m))
      as (_ & Hc & _ & _ & _ & Hr).
    split; [|split; [|reflexivity]].
    + destruct failed; cbn [controls set_controls].
      * destruct (logged_fields
                    (ctrl_add_diagnostic
                       (handle_v4l2_name env w (handle (ctx m))) entity
                       (to_u8 selector) v4l2_ret errno)
                    (logged_all (request_diagnostics requests) (ctx m)))
          as (_ & Hc' & _).
        now rewrite Hc', Hc.
      * now rewrite Hc.
    + assert (Hset : forall l c, log_of (set_controls l c) = log_of c)
        by reflexivity.
      rewrite Hset. destruct failed.
      * rewrite log_of_logged, log_of_logged_all, Hr.
        destruct (reports (ctx m)).
        -- now rewrite <- app_assoc.
        -- now rewrite !app_nil_r.
      * rewrite log_of_logged_all.
        destruct (reports (ctx m)); now rewrite ?app_nil_r.
Qed.

(** ** What a computation keeps *)

Lemma keeps_ret {A : Type} (a : A) : keeps_registry (ret a).
Proof. intro m. now exists a, m. Qed.

Lemma keeps_bind {A B : Type} (c : M A) (k : A -> M B) :
  keeps_registry c -> (forall a, keeps_registry (k a)) ->
  keeps_registry (bind c k).
Proof.
  intros Hc Hk m. destruct (Hc m) as (a & m1 & Hrun & H1).
  destruct (Hk a m1) as (b & m2 & Hrun' & H2).
  exists b, m2. split.
  - now rewrite (bind_returns _ _ _ _ _ Hrun).
  - congruence.
Qed.

Lemma keeps_get_ctx : keeps_registry get_ctx.
Proof. intro m. now exists (ctx m), m. Qed.

Lemma keeps_modify_ctx (f : ParseContext -> ParseContext) :
  (forall c, registry_view (f c) = registry_view c) ->
  keeps_registry (modify_ctx f).
Proof.
  intros Hf m. eexists. eexists. split; [reflexivity|]. apply Hf.
Qed.

Lemma registry_view_logged (msg : CDynctrlMessage) (c : ParseContext) :
  registry_view (logged msg c) = registry_view c.
Proof.
  unfold registry_view, retrieves_meta, logged.
  destruct (info c) as [i|] eqn:Hi; [|now rewrite Hi].
  destruct (CD_REPORT_ERRORS (flags i)); [|now rewrite Hi].
  unfold resize_message_buffer, map_info. now rewrite Hi.
Qed.

Lemma registry_view_logged_all (msgs : list CDynctrlMessage)
    (c : ParseContext) :
  registry_view (logged_all msgs c) = registry_view c.
Proof.
  revert c. induction msgs as [|msg rest IH]; intro c; simpl.
  - reflexivity.
  - now rewrite IH, registry_view_logged.
Qed.

Lemma keeps_add_message_v (l c : Z) (sev : CDynctrlMessageSeverity)
    (fmt : cstr) (va : list printf_arg) :
  keeps_registry (add_message_v l c sev fmt va).
Proof.
  intro m. unfold add_message_v, bind, get_ctx.
  pose proof (registry_view_logged (mkMessage l c sev (vasprintf fmt va))
                (ctx m)) as Hlog.
  unfold logged in Hlog.
  destruct (info (ctx m)) as [i|].
  - destruct (CD_REPORT_ERRORS (flags i)); simpl.
    + eexists. eexists. split; [reflexivity|exact Hlog].
    + now exists C_SUCCESS, m.
  - now exists C_INVALID_ARG, m.
Qed.

Lemma keeps_update_stats (f : CDynctrlStats -> CDynctrlStats) :
  keeps_registry (update_stats f).
Proof.
  apply keeps_modify_ctx. intro c.
  unfold registry_view, retrieves_meta, map_info.
  now destruct (info c).
Qed.

Lemma keeps_for_each (nodes : list xmlNode) (body : xmlNode -> M unit) :
  (forall node, In node nodes -> keeps_registry (body node)) ->
  keeps_registry (for_each nodes body).
Proof.
  induction nodes as [|node rest IH]; intro H; simpl.
  - apply keeps_ret.
  - apply keeps_bind.
    + apply H. now left.
    + intros _. apply IH. intros n Hn. apply H. now right.
Qed.

Lemma keeps_ioctl_ctrl_map (mapping : uvc_xu_control_mapping) :
  keeps_registry (ioctl_ctrl_map mapping).
Proof.
  intro m. unfold ioctl_ctrl_map.
  destruct (ioctl_UVCIOC_CTRL_MAP env (world m) (v4l2_handle (ctx m)) mapping)
    as [[v4l2_ret errno] w].
  now exists (v4l2_ret, errno), (mkMachine (ctx m) w).
Qed.

Lemma keeps_device_v4l2_name : keeps_registry device_v4l2_name.
Proof. intro m. eexists. exists m. split; reflexivity. Qed.

Lemma keeps_unicode_to_ascii (unicode : option cstr) :
  converts unicode = true -> keeps_registry (unicode_to_ascii unicode).
Proof.
  intro H. unfold unicode_to_ascii, iconv_utf8_to_ascii.
  destruct unicode as [s|]; [|apply keeps_ret].
  simpl in H. rewrite H. apply keeps_ret.
Qed.

Lemma keeps_unicode_to_normalized_ascii (unicode : option cstr) :
  converts unicode = true ->
  keeps_registry (unicode_to_normalized_ascii unicode).
Proof.
  intro H. unfold unicode_to_normalized_ascii. apply keeps_bind.
  - now apply keeps_unicode_to_ascii.
  - intro a. apply keeps_ret.
Qed.

Lemma keeps_add_error_at_node (node : xmlNode) (fmt : cstr)
    (va : list printf_arg) :
  keeps_registry (add_error_at_node node fmt va).
Proof. apply keeps_add_message_v. Qed.

Lemma keeps_add_error (fmt : cstr) (va : list printf_arg) :
  keeps_registry (add_error fmt va).
Proof. apply keeps_add_message_v. Qed.

(** Straight-line code that only logs, counts and returns is handled by
    [auto with keeps]. *)
Create HintDb keeps.
#[local] Hint Resolve keeps_ret keeps_get_ctx keeps_add_error_at_node
  keeps_add_error keeps_update_stats keeps_ioctl_ctrl_map
  keeps_device_v4l2_name keeps_bind : keeps.

Lemma keeps_process_mapping (node_mapping : xmlNode) :
  mapping_is_safe node_mapping = true ->
  keeps_registry (process_mapping node_mapping).
Proof.
  unfold mapping_is_safe, process_mapping. intro Hsafe.
  apply andb_prop in Hsafe. destruct Hsafe as [Hname Huvc].
  destruct (xml_get_first_child_by_name node_mapping "v4l2")
    as [node_v4l2|]; [|auto with keeps].
  destruct (xml_get_first_child_by_name node_mapping "uvc")
    as [node_uvc|]; [|auto with keeps].
  apply andb_prop in Huvc. destruct Huvc as [Hsize Hoffset].
  destruct (xml_get_first_child_by_name node_uvc "control_ref")
    as [node_control_ref|]; [|auto with keeps].
  destruct (xmlGetProp node_control_ref "idref") as [control_ref|];
    [|auto with keeps].
  apply keeps_bind; [apply keeps_get_ctx|intro c].
  destruct (lookup_control control_ref (controls c)) as [control|];
    [|auto with keeps].
  apply keeps_bind;
    [now apply keeps_unicode_to_normalized_ascii|intros [name|]];
    [|auto with keeps].
  destruct (lookup_or_convert_to_integer _ 0 (constants c)) as [r value].
  destruct (is_error r); [auto with keeps|].
  destruct (get_v4l2_ctrl_type_by_name _ _ =? 0); [auto with keeps|].
  apply keeps_bind; [now apply keeps_unicode_to_ascii|intro str].
  destruct (is_valid_size_string str 255) as [size|]; [|auto with keeps].
  apply keeps_bind; [now apply keeps_unicode_to_ascii|intro str'].
  destruct (is_valid_size_string str' 255) as [offset|]; [|auto with keeps].
  destruct (get_uvc_ctrl_type_by_name _ =? -1); [auto with keeps|].
  apply keeps_bind; [apply keeps_ioctl_ctrl_map|intros [v4l2_ret errno]].
  destruct (ioctl_failed v4l2_ret errno (pass c)); auto with keeps.
Qed.

Lemma registry_view_set_constants (l : list Constant) (c : ParseContext) :
  registry_view (set_constants l c) = registry_view c.
Proof. reflexivity. Qed.

Lemma unicode_to_ascii_returns (unicode : option cstr) (m : Machine) :
  converts unicode = true -> unicode_to_ascii unicode m = Returns unicode m.
Proof.
  intro H. unfold unicode_to_ascii, iconv_utf8_to_ascii.
  destruct unicode as [s|]; [|reflexivity].
  simpl in H. now rewrite H.
Qed.

Lemma keeps_after_unicode_to_ascii {A : Type} (unicode : option cstr)
    (k : option cstr -> M A) :
  converts unicode = true -> keeps_registry (k unicode) ->
  keeps_registry (bind (unicode_to_ascii unicode) k).
Proof.
  intros H Hk m.
  rewrite (bind_returns _ _ _ _ _ (unicode_to_ascii_returns unicode m H)).
  apply Hk.
Qed.

Lemma keeps_process_constant (node_constant : xmlNode) :
  constant_is_safe node_constant = true ->
  keeps_registry (process_constant node_constant).
Proof.
  unfold constant_is_safe, process_constant. intro Hsafe.
  destruct (xml_get_node_text
              (xml_get_first_child_by_name node_constant "id"))
    as [name|] eqn:Hid.
  - apply andb_prop in Hsafe. destruct Hsafe as [H7 Hvalue].
    apply keeps_after_unicode_to_ascii; [exact H7|].
    apply keeps_bind; [apply keeps_get_ctx|intro c].
    destruct (lookup_constant name CT_INVALID (constants c)); [auto with keeps|].
    cbv zeta in Hvalue.
    destruct (xmlStrEqual (xmlGetProp node_constant "type") "integer").
    + destruct (is_valid_integer_string _).
      * apply keeps_bind; [|intro; apply keeps_ret].
        apply keeps_modify_ctx. intro c'. apply registry_view_set_constants.
      * destruct (xml_get_first_child_by_name node_constant "value");
          [auto with keeps|discriminate Hvalue].
    + destruct (xmlStrEqual (xmlGetProp node_constant "type") "guid").
      * destruct (xml_get_node_text
                    (xml_get_first_child_by_name node_constant "value"));
          [|discriminate Hvalue].
        apply keeps_bind; [|intro; apply keeps_ret].
        apply keeps_modify_ctx. intro c'. apply registry_view_set_constants.
      * auto with keeps.
  - apply keeps_after_unicode_to_ascii; [reflexivity|]. auto with keeps.
Qed.

Lemma process_meta_not_retrieved (node : xmlNode) (m : Machine) :
  retrieves_meta (ctx m) = false ->
  process_meta (Some node) m = Returns C_SUCCESS m.
Proof.
  unfold retrieves_meta, process_meta, bind, get_ctx. intro H.
  destruct (info (ctx m)) as [i|]; [|reflexivity].
  now rewrite H.
Qed.

(** ** What a pass adds to the registry *)

Lemma keeps_registers {A : Type} (c : M A) :
  keeps_registry c -> registers [] any c.
Proof.
  intros H m Hm. destruct (H m) as (a & m' & Hrun & Hview).
  exists a, m'. unfold registry_view in Hview.
  injection Hview as Hc Hr.
  repeat split; [exact Hrun|exact Hc|congruence].
Qed.

Lemma registers_ret {A : Type} (Q : A -> Prop) (a : A) :
  Q a -> registers [] Q (ret a).
Proof. intros Ha m Hm. exists a, m. repeat split; assumption. Qed.

Lemma registers_bind {A B : Type} (e1 e2 : list UVCXUControl)
    (Q1 : A -> Prop) (Q2 : B -> Prop) (c : M A) (k : A -> M B) :
  registers e1 Q1 c -> (forall a, Q1 a -> registers e2 Q2 (k a)) ->
  registers (e1 ++ e2) Q2 (bind c k).
Proof.
  intros Hc Hk m Hm. destruct (Hc m Hm) as (a & m1 & Hrun & Ha & H1 & Hm1).
  destruct (Hk a Ha m1 Hm1) as (b & m2 & Hrun' & Hb & H2 & Hm2).
  exists b, m2. repeat split.
  - now rewrite (bind_returns _ _ _ _ _ Hrun).
  - exact Hb.
  - rewrite H2, H1, rev_app_distr. now rewrite app_assoc.
  - exact Hm2.
Qed.

(** The same, when the second computation adds nothing. *)
Lemma registers_then {A B : Type} (entries : list UVCXUControl)
    (Q1 : A -> Prop) (Q2 : B -> Prop) (c : M A) (k : A -> M B) :
  registers entries Q1 c -> (forall a, Q1 a -> registers [] Q2 (k a)) ->
  registers entries Q2 (bind c k).
Proof.
  intros Hc Hk. rewrite <- (app_nil_r entries).
  now apply registers_bind with (Q1 := Q1).
Qed.

Lemma registers_for_each (nodes : list xmlNode) (body : xmlNode -> M unit)
    (entries : xmlNode -> list UVCXUControl) :
  (forall node, In node nodes -> registers (entries node) any (body node)) ->
  registers (flat_map entries nodes) any (for_each nodes body).
Proof.
  induction nodes as [|node rest IH]; intro H; simpl.
  - apply keeps_registers, keeps_ret.
  - apply registers_bind with (Q1 := any).
    + apply H. now left.
    + intros _ _. apply IH. intros n Hn. apply H. now right.
Qed.

Lemma integer_literal_text_resolves (text : option cstr) (v value : Z)
    (table : list Constant) :
  is_valid_integer_string text = Some v ->
  lookup_or_convert_to_integer text value table = (C_SUCCESS, v).
Proof.
  destruct text as [s|]; [apply integer_literal_resolves|discriminate].
Qed.

Lemma registers_process_control (node_control : xmlNode)
    (entry : UVCXUControl) :
  literal_entry node_control = Some entry ->
  registers [entry] any (process_control node_control).
Proof.
  unfold literal_entry. intros Hlit m Hm.
  destruct (xmlGetProp node_control "id") as [id|] eqn:Hid;
    [|discriminate Hlit].
  destruct (xml_get_node_text
              (xml_get_first_child_by_name node_control "entity"))
    as [entity|] eqn:Hentity; [|discriminate Hlit].
  destruct (is_valid_integer_string
              (xml_get_node_text
                 (xml_get_first_child_by_name node_control "selector")))
    as [selector|] eqn:Hselector; [|discriminate Hlit].
  destruct (is_valid_integer_string
              (xml_get_node_text
                 (xml_get_first_child_by_name node_control "index")))
    as [index|] eqn:Hindex; [|discriminate Hlit].
  destruct (is_valid_integer_string
              (xml_get_node_text
                 (xml_get_first_child_by_name node_control "size")))
    as [size|] eqn:Hsize; [|discriminate Hlit].
  destruct (xml_get_first_child_by_name node_control "requests")
    as [node_requests|] eqn:Hrequests; [|discriminate Hlit].
  destruct (is_valid_guid entity) eqn:Hguid; [|discriminate Hlit].
  destruct (is_valid_size size 65535) eqn:Hvalid; [|discriminate Hlit].
  injection Hlit as <-.
  assert (Hres :
    lookup_or_convert_to_guid (adjacent_memory env)
      (xml_get_node_text (xml_get_first_child_by_name node_control "entity"))
      (repeat 0 GUID_SIZE) (constants (ctx m))
    = (C_SUCCESS,
       guid_to_byte_array (string_memory (fun _ => zero) entity))).
  { rewrite Hentity. unfold lookup_or_convert_to_guid. rewrite Hguid.
    f_equal. apply guid_to_byte_array_in_bounds.
    apply is_valid_guid_length in Hguid. lia. }
  destruct (ioctl_UVCIOC_CTRL_ADD env (world m) (v4l2_handle (ctx m))
              (mkControlInfo
                 (guid_to_byte_array (string_memory (fun _ => zero) entity))
                 (to_u8 index) (to_u8 selector) (to_u16 size)
                 (Z.lor
                    (request_flags
                       (xml_children_by_name node_requests "request") 0)
                    UVC_CTRL_FLAG_AUTO_UPDATE)))
    as [[v4l2_ret errno] w] eqn:Hioctl.
  eexists. eexists. split.
  - exact (process_control_resolved node_control m id _ selector index size
             node_requests v4l2_ret errno w Hid Hres
             (integer_literal_text_resolves _ _ _ _ Hselector)
             (integer_literal_text_resolves _ _ _ _ Hindex)
             (integer_literal_text_resolves _ _ _ _ Hsize)
             Hvalid Hrequests Hioctl).
  - split; [exact I|]. cbn [ctx controls set_controls rev app].
    assert (Hview : forall c l,
               registry_view c = registry_view (ctx m) ->
               l :: controls c = l :: controls (ctx m)
               /\ retrieves_meta (set_controls (l :: controls c) c) = false).
    { intros c l Hc. unfold registry_view in Hc. injection Hc as Hc1 Hc2.
      split; [now rewrite Hc1|].
      change (retrieves_meta (set_controls (l :: controls c) c))
        with (retrieves_meta c). congruence. }
    apply Hview.
    destruct (ioctl_failed v4l2_ret errno (pass (ctx m))).
    + now rewrite registry_view_logged, registry_view_logged_all.
    + apply registry_view_logged_all.
Qed.

Lemma is_literal_entries (node_control : xmlNode) :
  is_literal node_control = true ->
  exists entry, literal_entry node_control = Some entry
                /\ literal_entries node_control = [entry].
Proof.
  unfold is_literal, literal_entries.
  destruct (literal_entry node_control) as [entry|]; [|discriminate].
  intros _. now exists entry.
Qed.

Lemma registers_process_controls (node_controls : xmlNode) :
  forallb is_literal (xml_children_by_name node_controls "control") = true ->
  registers
    (flat_map literal_entries (xml_children_by_name node_controls "control"))
    any (process_controls node_controls).
Proof.
  intro Hall. unfold process_controls.
  apply registers_then with (Q1 := any).
  - apply registers_for_each. intros node Hin.
    rewrite forallb_forall in Hall.
    destruct (is_literal_entries node (Hall node Hin)) as (entry & He & ->).
    apply registers_then with (Q1 := any).
    + now apply registers_process_control.
    + intros r _. apply keeps_registers, keeps_update_stats.
  - intros _ _. now apply registers_ret.
Qed.

Lemma registers_process_device (node_device : xmlNode) :
  forallb is_literal (device_controls node_device) = true ->
  registers (flat_map literal_entries (device_controls node_device)) any
    (process_device node_device).
Proof.
  unfold device_controls, process_device.
  destruct (xml_get_first_child_by_name node_device "controls")
    as [node_controls|]; intro Hall.
  - apply registers_then with (Q1 := any).
    + now apply registers_process_controls.
    + intros _ _. now apply registers_ret.
  - now apply registers_ret.
Qed.

Lemma flat_map_compose {A B C : Type} (f : A -> list B) (g : B -> list C)
    (l : list A) :
  flat_map g (flat_map f l) = flat_map (fun a => flat_map g (f a)) l.
Proof.
  induction l as [|a l IH]; simpl.
  - reflexivity.
  - now rewrite flat_map_app, IH.
Qed.

Lemma forallb_flat_map {A B : Type} (p : B -> bool) (f : A -> list B)
    (l : list A) (a : A) :
  forallb p (flat_map f l) = true -> In a l -> forallb p (f a) = true.
Proof.
  intros H Hin. rewrite forallb_forall in *. intros b Hb.
  apply H, in_flat_map. now exists a.
Qed.

Lemma registers_process_devices (node_devices : xmlNode) :
  forallb is_literal (devices_controls node_devices) = true ->
  registers (flat_map literal_entries (devices_controls node_devices)) any
    (process_devices node_devices).
Proof.
  unfold devices_controls, process_devices. intro Hall.
  rewrite flat_map_compose.
  apply registers_then with (Q1 := any).
  - apply registers_for_each. intros node Hin.
    apply registers_then with (Q1 := any).
    + apply registers_process_device.
      exact (forallb_flat_map _ _ _ _ Hall Hin).
    + intros _ _. now apply registers_ret.
  - intros _ _. now apply registers_ret.
Qed.

Lemma registers_process_constants (node : xmlNode) :
  forallb constant_is_safe (xml_children_by_name node "constant") = true ->
  registers [] succeeds (process_constants (Some node)).
Proof.
  intro Hsafe. unfold process_constants.
  apply registers_then with (Q1 := any) (entries := []).
  - apply keeps_registers, keeps_for_each. intros n Hn.
    rewrite forallb_forall in Hsafe. apply keeps_bind.
    + apply keeps_process_constant, Hsafe, Hn.
    + intro r. apply keeps_update_stats.
  - intros _ _. now apply registers_ret.
Qed.

Lemma registers_process_mappings (node : xmlNode) :
  forallb mapping_is_safe (xml_children_by_name node "mapping") = true ->
  registers [] succeeds (process_mappings (Some node)).
Proof.
  intro Hsafe. unfold process_mappings.
  apply registers_then with (Q1 := any) (entries := []).
  - apply keeps_registers, keeps_for_each. intros n Hn.
    rewrite forallb_forall in Hsafe. apply keeps_bind.
    + apply keeps_process_mapping, Hsafe, Hn.
    + intro r. apply keeps_update_stats.
  - intros _ _. now apply registers_ret.
Qed.

Lemma registers_process_meta (node : xmlNode) :
  registers [] succeeds (process_meta (Some node)).
Proof.
  intros m Hm. exists C_SUCCESS, m.
  rewrite (process_meta_not_retrieved node m Hm). now repeat split.
Qed.

(** One pass over a safe document whose control declarations are all
    literal: it succeeds and puts every declaration on the registry, whatever
    the pass number and whatever the driver answers. *)
Lemma registers_process_dynctrl_doc (doc : xmlDoc) (node_root : xmlNode) :
  xmlDocGetRootElement doc = Some node_root ->
  document_is_safe node_root = true ->
  forallb is_literal (document_controls node_root) = true ->
  registers (flat_map literal_entries (document_controls node_root)) succeeds
    (process_dynctrl_doc (Some doc)).
Proof.
  intros Hroot Hsafe Hall. unfold process_dynctrl_doc. rewrite Hroot.
  unfold document_is_safe in Hsafe.
  destruct (xml_get_first_child_by_name node_root "meta") as [node_meta|];
    [|discriminate Hsafe].
  destruct (xml_get_first_child_by_name node_root "constants")
    as [node_constants|]; [|discriminate Hsafe].
  destruct (xml_get_first_child_by_name node_root "mappings")
    as [node_mappings|]; [|discriminate Hsafe].
  apply andb_prop in Hsafe. destruct Hsafe as [Hconstants Hmappings].
  change (flat_map literal_entries (document_controls node_root))
    with ([] ++ flat_map literal_entries (document_controls node_root))%list.
  apply registers_bind with (Q1 := any).
  { apply keeps_registers, keeps_modify_ctx. reflexivity. }
  intros _ _.
  change (flat_map literal_entries (document_controls node_root))
    with ([] ++ flat_map literal_entries (document_controls node_root))%list.
  apply registers_bind with (Q1 := any).
  { apply keeps_registers, keeps_get_ctx. }
  intros c _.
  change (flat_map literal_entries (document_controls node_root))
    with ([] ++ flat_map literal_entries (document_controls node_root))%list.
  apply registers_bind with (Q1 := succeeds).
  { destruct (pass c =? 1).
    - apply registers_then with (Q1 := succeeds) (entries := []).
      + apply registers_process_meta.
      + intros r ->. cbn [is_error].
        now apply registers_process_constants.
    - now apply registers_ret. }
  intros r ->. cbn [is_error].
  apply registers_then with (Q1 := any).
  - unfold document_controls. rewrite flat_map_compose.
    apply registers_for_each. intros node Hin.
    apply registers_then with (Q1 := any).
    + apply registers_process_devices.
      exact (forallb_flat_map _ _ _ _ Hall Hin).
    + intros _ _. now apply registers_ret.
  - intros _ _. now apply registers_process_mappings.
Qed.

Lemma repeat_shift {A : Type} (a : A) (n : nat) (l : list A) :
  (repeat a n ++ a :: l = a :: repeat a n ++ l)%list.
Proof.
  induction n as [|n IH]; simpl; [reflexivity|]. now rewrite IH.
Qed.

(** C2. A control declaration with literal, well-formed fields is put on
    the registry by every pass, whatever the pass number and whatever the
    driver answers: after N passes over a safe document whose one control
    declaration is such a declaration, the registry holds N equal entries
    for it on top of what it held before, and a lookup of the identifier
    finds the entry. *)
Theorem registry_gains_an_entry_every_pass
    (doc : xmlDoc) (node_root node_control : xmlNode) (entry : UVCXUControl)
    (between : list (World -> World)) (m : Machine) :
  xmlDocGetRootElement doc = Some node_root ->
  document_is_safe node_root = true ->
  document_controls node_root = [node_control] ->
  literal_entry node_control = Some entry ->
  retrieves_meta (ctx m) = false ->
  exists m',
    passes doc between m = Returns tt m'
    /\ controls (ctx m')
       = (repeat entry (List.length between) ++ controls (ctx m))%list
    /\ (between <> [] ->
        lookup_control (xu_id entry) (controls (ctx m')) = Some entry).
Proof.
  intros Hroot Hsafe Hone Hlit.
  assert (Hpass : registers [entry] succeeds (process_dynctrl_doc (Some doc))).
  { pose proof (registers_process_dynctrl_doc doc node_root Hroot Hsafe)
      as H.
    rewrite Hone in H. unfold literal_entries, is_literal in H.
    cbn [flat_map forallb] in H. rewrite Hlit in H. now apply H. }
  assert (Hall : forall steps m0, retrieves_meta (ctx m0) = false ->
            exists m',
              passes doc steps m0 = Returns tt m'
              /\ controls (ctx m')
                 = (repeat entry (List.length steps) ++ controls (ctx m0))%list).
  { induction steps as [|step rest IH]; intros m0 Hm0.
    - exists m0. now split.
    - cbn [passes]. unfold bind at 1.
      destruct (Hpass (mkMachine (ctx m0) (step (world m0))) Hm0)
        as (r & m1 & Hrun & _ & Hc1 & Hm1).
      rewrite (bind_returns _ _ _ _ _ Hrun).
      destruct (IH m1 Hm1) as (m2 & Hrest & Hc2).
      exists m2. split; [exact Hrest|].
      rewrite Hc2, Hc1. cbn [ctx rev app List.length repeat].
      apply repeat_shift. }
  intro Hm. destruct (Hall between m Hm) as (m' & Hrun & Hc).
  exists m'. repeat split; [exact Hrun|exact Hc|].
  intro Hne. rewrite Hc. destruct between as [|step rest]; [now destruct Hne|].
  cbn [List.length repeat app lookup_control]. now rewrite String.eqb_refl.
Qed.

(** ** The result of a session *)

(** After the loop over the devices the session returns [C_INVALID_DEVICE]
    when no device was applied to successfully, and otherwise the value that
    the loop left in [ret]. *)
Lemma apply_to_devices_result (xml_doc : option xmlDoc)
    (devices : list CDevice) (r0 r : CResult) (n : Z) (m m' : Machine) :
  device_loop xml_doc devices r0 0 m = Returns (r, n) m' ->
  apply_to_devices xml_doc devices r0 m
  = Returns (if n =? 0 then C_INVALID_DEVICE else r) m'.
Proof.
  intro H. unfold apply_to_devices.
  rewrite (bind_returns _ _ _ _ _ H). now destruct (n =? 0).
Qed.

(** A device that is skipped before it is applied to, because it is no UVC
    device, leaves [ret] and the count as they are. *)
Lemma device_iteration_not_uvc (xml_doc : option xmlDoc) (device : CDevice)
    (r : CResult) (n : Z) (m : Machine) :
  driver device <> "uvcvideo" ->
  returned (device_iteration xml_doc device r n m) = Some (r, n).
Proof.
  intro H. unfold device_iteration.
  apply String.eqb_neq in H. rewrite H. cbn [negb].
  now rewrite add_info_logs.
Qed.

(** ** More on GUID texts *)

Lemma guid_reads_in_bounds (s : cstr) (off : nat) :
  (35 <= strlen s)%nat -> In off guid_read_offsets -> in_bounds s off = true.
Proof.
  intros Hlen Hin. unfold in_bounds. apply Nat.leb_le.
  unfold guid_read_offsets, guid_byte_offsets in Hin. simpl in Hin.
  repeat (destruct Hin as [<-|Hin]; [lia|]). contradiction.
Qed.

(** X1. The resolution of a GUID reads nothing outside the buffer of the text:
    the decode is applied only to texts that the validity test accepts, all
    the offsets it reads are then inside the buffer, and the result does not
    depend on the memory that follows the text. *)
Theorem guid_resolution_stays_in_bounds
    (adjacent adjacent' : cstr -> nat -> ascii) (text : option cstr)
    (guid : guid_bytes) (table : list Constant) :
  lookup_or_convert_to_guid adjacent text guid table
  = lookup_or_convert_to_guid adjacent' text guid table
  /\ (forall s, text = Some s -> is_valid_guid s = true ->
        forallb (in_bounds s) guid_read_offsets = true).
Proof.
  split.
  - destruct text as [s|]; [|reflexivity].
    unfold lookup_or_convert_to_guid.
    destruct (is_valid_guid s) eqn:Hvalid; [|reflexivity].
    f_equal. apply guid_to_byte_array_in_bounds.
    apply is_valid_guid_length in Hvalid. lia.
  - intros s _ Hvalid. apply forallb_forall. intros off Hin.
    apply guid_reads_in_bounds; [|exact Hin].
    apply is_valid_guid_length in Hvalid. lia.
Qed.

Lemma HEX_DECODE_CHAR_lower (c : ascii) :
  HEX_DECODE_CHAR (lower c) = HEX_DECODE_CHAR c.
Proof. destruct c as [[] [] [] [] [] [] [] []]; reflexivity. Qed.

Lemma isxdigit_lower (c : ascii) : isxdigit (lower c) = isxdigit c.
Proof. destruct c as [[] [] [] [] [] [] [] []]; reflexivity. Qed.

Lemma hyphen_lower (c : ascii) : Ascii.eqb (lower c) "-" = Ascii.eqb c "-".
Proof. destruct c as [[] [] [] [] [] [] [] []]; reflexivity. Qed.

Lemma char_at_lowercase (s : cstr) (i : nat) :
  char_at (lowercase s) i = lower (char_at s i).
Proof.
  unfold char_at. revert i.
  induction s as [|c s IH]; intros [|i]; simpl; try reflexivity.
  apply IH.
Qed.

Lemma strlen_lowercase (s : cstr) : strlen (lowercase s) = strlen s.
Proof.
  unfold strlen. induction s as [|c s IH]; simpl; [reflexivity|].
  now rewrite IH.
Qed.

Lemma is_valid_guid_loop_lowercase (s : cstr) (n i : nat) :
  is_valid_guid_loop (lowercase s) i n = is_valid_guid_loop s i n.
Proof.
  revert i. induction n as [|n IH]; intro i; simpl; [reflexivity|].
  rewrite char_at_lowercase, hyphen_lower, isxdigit_lower. now rewrite IH.
Qed.

Lemma is_valid_guid_lowercase (s : cstr) :
  is_valid_guid (lowercase s) = is_valid_guid s.
Proof. rewrite !is_valid_guid_unfold. apply is_valid_guid_loop_lowercase. Qed.

Lemma guid_to_byte_array_lowercase (a1 a2 : nat -> ascii) (s : cstr) :
  (35 <= strlen s)%nat ->
  guid_to_byte_array (string_memory a1 (lowercase s))
  = guid_to_byte_array (string_memory a2 s).
Proof.
  intro H. unfold guid_to_byte_array. apply map_ext_in.
  intros off Hin. unfold HEX_DECODE_BYTE, string_memory.
  rewrite strlen_lowercase.
  assert (Hoff : (off <= 34)%nat).
  { unfold guid_byte_offsets in Hin. simpl in Hin.
    repeat (destruct Hin as [<-|Hin]; [lia|]). contradiction. }
  destruct (Nat.leb_spec off (strlen s)); [|lia].
  destruct (Nat.leb_spec (S off) (strlen s)); [|lia].
  now rewrite !char_at_lowercase, !HEX_DECODE_CHAR_lower.
Qed.

(** X2. GUID literals are read without regard to case: two texts that differ
    only in the case of their letters, one of which the validity test
    accepts, resolve to the same GUID. *)
Theorem guid_literal_ignores_case
    (adjacent : cstr -> nat -> ascii) (s t : cstr) (guid : guid_bytes)
    (table table' : list Constant) :
  is_valid_guid s = true ->
  lowercase t = lowercase s ->
  lookup_or_convert_to_guid adjacent (Some t) guid table'
  = lookup_or_convert_to_guid adjacent (Some s) guid table.
Proof.
  intros Hs Hcase.
  assert (Ht : is_valid_guid t = true).
  { now rewrite <- is_valid_guid_lowercase, Hcase, is_valid_guid_lowercase. }
  unfold lookup_or_convert_to_guid. rewrite Hs, Ht. f_equal.
  pose proof (is_valid_guid_length s Hs) as Hls.
  pose proof (is_valid_guid_length t Ht) as Hlt.
  rewrite <- (guid_to_byte_array_lowercase (adjacent s) (adjacent s) s)
    by lia.
  rewrite <- (guid_to_byte_array_lowercase (adjacent s) (adjacent t) t)
    by lia.
  now rewrite Hcase.
Qed.

Lemma guid_literal_ignores_case_witness :
  lookup_or_convert_to_guid (fun _ _ => zero)
    (Some "63610682-5070-49AB-B8CC-B3855E8D221D") [] []
  = lookup_or_convert_to_guid (fun _ _ => zero)
      (Some "63610682-5070-49ab-b8cc-b3855e8d221d") [] [].
Proof.
  exact (guid_literal_ignores_case (fun _ _ => zero)
           "63610682-5070-49ab-b8cc-b3855e8d221d"
           "63610682-5070-49AB-B8CC-B3855E8D221D" [] [] [] eq_refl eq_refl).
Defined.

Lemma hex_digit_of_value (c : ascii) :
  isxdigit c = true -> hex_digit (hex_value c) = lower c.
Proof.
  destruct c as [[] [] [] [] [] [] [] []]; intro H;
    try discriminate H; reflexivity.
Qed.

Lemma sixteen_cases (v : Z) :
  0 <= v <= 15 ->
  v = 0 \/ v = 1 \/ v = 2 \/ v = 3 \/ v = 4 \/ v = 5 \/ v = 6 \/ v = 7
  \/ v = 8 \/ v = 9 \/ v = 10 \/ v = 11 \/ v = 12 \/ v = 13 \/ v = 14
  \/ v = 15.
Proof. lia. Qed.

Lemma hex_digit_decodes (v : Z) :
  0 <= v <= 15 ->
  HEX_DECODE_CHAR (hex_digit v) = v /\ isxdigit (hex_digit v) = true.
Proof.
  intro H. apply sixteen_cases in H.
  repeat (destruct H as [->|H]; [split; reflexivity|]).
  subst v. split; reflexivity.
Qed.

Lemma hex_of_byte_of_pair (hi lo : ascii) :
  isxdigit hi = true -> isxdigit lo = true ->
  hex_of_byte (to_u8 (Z.shiftl (HEX_DECODE_CHAR hi) 4 + HEX_DECODE_CHAR lo))
  = String (lower hi) (String (lower lo) EmptyString).
Proof.
  intros Hhi Hlo. rewrite (to_u8_hex_pair hi lo Hhi Hlo).
  pose proof (hex_value_range hi). pose proof (hex_value_range lo).
  unfold hex_of_byte.
  replace ((16 * hex_value hi + hex_value lo) / 16) with (hex_value hi)
    by (apply Z.div_unique with (r := hex_value lo); lia).
  replace ((16 * hex_value hi + hex_value lo) mod 16) with (hex_value lo)
    by (apply Z.mod_unique with (q := hex_value hi); lia).
  now rewrite !hex_digit_of_value.
Qed.

Lemma pair_of_hex_of_byte (b : Z) :
  is_byte b ->
  to_u8 (Z.shiftl (HEX_DECODE_CHAR (hex_digit (b / 16))) 4
         + HEX_DECODE_CHAR (hex_digit (b mod 16))) = b
  /\ isxdigit (hex_digit (b / 16)) = true
  /\ isxdigit (hex_digit (b mod 16)) = true.
Proof.
  unfold is_byte. intro H.
  assert (Hq : 0 <= b / 16 <= 15).
  { split; [apply Z.div_pos; lia|].
    assert (b / 16 < 16) by (apply Z.div_lt_upper_bound; lia). lia. }
  assert (Hr : 0 <= b mod 16 <= 15).
  { pose proof (Z.mod_pos_bound b 16). lia. }
  destruct (hex_digit_decodes _ Hq) as [-> Hxq].
  destruct (hex_digit_decodes _ Hr) as [-> Hxr].
  repeat split; try assumption.
  rewrite Z.shiftl_mul_pow2 by lia. change (2 ^ 4) with 16.
  unfold to_u8. rewrite Z.mod_small by lia.
  pose proof (Z.div_mod b 16). lia.
Qed.

(** X3. Decoding a canonical GUID text and writing the bytes back as text gives
    the text again, in lower case; so that two canonical texts with the same
    decode differ at most in the case of their letters. *)
Theorem guid_text_of_decode (adjacent : nat -> ascii) (s : cstr) :
  canonical_guid s = true ->
  guid_text_of_bytes (guid_to_byte_array (string_memory adjacent s))
  = lowercase s.
Proof.
  intro H. assert (Hlen : strlen s = 36%nat).
  { unfold canonical_guid in H. split_andb H.
    match goal with Hl : (strlen s =? 36)%nat = true |- _ =>
      apply Nat.eqb_eq in Hl; exact Hl
    end. }
  unfold strlen in Hlen.
  do 36 (destruct s as [|? s]; [discriminate Hlen|]).
  destruct s; [|discriminate Hlen]. clear Hlen.
  cbv -[isxdigit Ascii.eqb andb] in H. split_andb H.
  repeat match goal with
         | Hh : Ascii.eqb _ "-" = true |- _ =>
             apply Ascii.eqb_eq in Hh; subst
         end.
  cbv -[HEX_DECODE_CHAR to_u8 Z.shiftl Z.add hex_of_byte lower append].
  rewrite !hex_of_byte_of_pair by assumption.
  reflexivity.
Qed.

Lemma guid_text_of_decode_witness :
  guid_text_of_bytes
    (guid_to_byte_array
       (string_memory (fun _ => zero) "63610682-5070-49AB-B8CC-B3855E8D221D"))
  = "63610682-5070-49ab-b8cc-b3855e8d221d".
Proof.
  exact (guid_text_of_decode (fun _ => zero)
           "63610682-5070-49AB-B8CC-B3855E8D221D" eq_refl).
Defined.

(** X4. Every array of 16 bytes is the decode of a canonical GUID text: writing
    the bytes as text and decoding the text gives the bytes again. *)
Theorem decode_of_guid_text (adjacent : nat -> ascii) (g : guid_bytes) :
  List.length g = GUID_SIZE -> Forall is_byte g ->
  canonical_guid (guid_text_of_bytes g) = true
  /\ guid_to_byte_array (string_memory adjacent (guid_text_of_bytes g)) = g.
Proof.
  intros Hlen Hbytes. unfold GUID_SIZE in Hlen.
  do 16 (destruct g as [|? g]; [discriminate Hlen|]).
  destruct g; [|discriminate Hlen]. clear Hlen.
  repeat match goal with
         | Hb : Forall is_byte (_ :: _) |- _ =>
             let Hh := fresh "Hb" in
             apply Forall_cons_iff in Hb; destruct Hb as [Hh Hb];
             apply pair_of_hex_of_byte in Hh; destruct Hh as (? & ? & ?)
         end.
  split.
  - cbv -[isxdigit hex_digit Z.div Z.modulo].
    repeat match goal with
           | Hx : isxdigit _ = true |- _ => rewrite Hx; clear Hx
           end.
    reflexivity.
  - cbv -[HEX_DECODE_CHAR to_u8 Z.shiftl Z.add hex_digit Z.div Z.modulo].
    repeat match goal with
           | Hx : to_u8 _ = _ |- _ => rewrite Hx; clear Hx
           end.
    reflexivity.
Qed.

Lemma decode_of_guid_text_witness :
  canonical_guid
    (guid_text_of_bytes
       [130; 6; 97; 99; 112; 80; 171; 73; 184; 204; 179; 133; 94; 141; 34;
        29]) = true
  /\ guid_to_byte_array
       (string_memory (fun _ => zero)
          (guid_text_of_bytes
             [130; 6; 97; 99; 112; 80; 171; 73; 184; 204; 179; 133; 94; 141;
              34; 29]))
     = [130; 6; 97; 99; 112; 80; 171; 73; 184; 204; 179; 133; 94; 141; 34; 29].
Proof.
  apply (decode_of_guid_text (fun _ => zero)); [reflexivity|].
  repeat (apply Forall_cons; [unfold is_byte; lia|]). apply Forall_nil.
Defined.

(** ** White space normalisation *)

Lemma append_empty (s : cstr) : (s ++ "")%string = s.
Proof. induction s as [|c s IH]; simpl; [reflexivity|now rewrite IH]. Qed.

Lemma append_assoc (a b c : cstr) :
  ((a ++ b) ++ c)%string = (a ++ (b ++ c))%string.
Proof. induction a as [|x a IH]; simpl; [reflexivity|now rewrite IH]. Qed.

Lemma split_words_nonempty (s cur : cstr) :
  cur <> "" -> split_words s cur <> [].
Proof.
  revert cur. induction s as [|c s IH]; intros cur Hcur; simpl.
  - destruct cur; [contradiction|discriminate].
  - destruct (isspace c).
    + destruct cur; [contradiction|discriminate].
    + apply IH. destruct cur; discriminate.
Qed.

Lemma concat_cons (w : cstr) (ws : list cstr) :
  String.concat " " (w :: ws)
  = match ws with
    | [] => w
    | _ => (w ++ " " ++ String.concat " " ws)%string
    end.
Proof. destruct ws; reflexivity. Qed.

(** The loop against the words of its input: after a run of white space
    ([pending]), at the start of a word, and inside a word [cur] that is
    already written. *)
Lemma normalize_loop_words (s : cstr) :
  normalize_loop true s
  = match split_words s "" with
    | [] => ""
    | ws => (" " ++ String.concat " " ws)%string
    end
  /\ (starts_with_space s = false ->
      normalize_loop false s = String.concat " " (split_words s ""))
  /\ (forall cur, cur <> "" ->
        (cur ++ normalize_loop false s)%string
        = String.concat " " (split_words s cur)).
Proof.
  induction s as [|c s (IHt & IHf & IHc)].
  - repeat split; try reflexivity.
    intros cur Hcur. simpl. rewrite append_empty.
    destruct cur; [contradiction|reflexivity].
  - assert (Hword : isspace c = false ->
              (String c (normalize_loop false s))
              = String.concat " " (split_words s (String c ""))).
    { intros _. apply (IHc (String c "")). discriminate. }
    repeat split.
    + simpl. destruct (isspace c) eqn:Hc; [exact IHt|].
      rewrite (Hword eq_refl).
      pose proof (split_words_nonempty s (String c "")) as Hne.
      destruct (split_words s (String c "")); [now destruct Hne|reflexivity].
    + simpl. intro Hc. rewrite Hc. now apply Hword.
    + intros cur Hcur. simpl. destruct (isspace c) eqn:Hc.
      * rewrite IHt. destruct cur as [|x cur]; [contradiction|].
        rewrite concat_cons.
        destruct (split_words s ""); [apply append_empty|reflexivity].
      * rewrite <- (IHc (cur ++ String c "")%string).
        -- now rewrite append_assoc.
        -- destruct cur; discriminate.
Qed.

Lemma strip_leading_spaces_start (s : cstr) :
  starts_with_space (strip_leading_spaces s) = false.
Proof.
  induction s as [|c s IH]; simpl; [reflexivity|].
  destruct (isspace c) eqn:Hc; [exact IH|]. simpl. exact Hc.
Qed.

Lemma words_strip_leading_spaces (s : cstr) :
  words (strip_leading_spaces s) = words s.
Proof.
  unfold words. induction s as [|c s IH]; simpl; [reflexivity|].
  destruct (isspace c) eqn:Hc; [exact IH|]. simpl. now rewrite Hc.
Qed.

(** X5. [normalize_string] returns the words of its input, in order, with one
    space between two of them; white space is what [isspace] accepts. *)
Theorem normalize_string_joins_words (s : cstr) :
  normalize_string (Some s) = Some (String.concat " " (words s)).
Proof.
  unfold normalize_string. f_equal.
  destruct (normalize_loop_words (strip_leading_spaces s)) as (_ & H & _).
  rewrite (H (strip_leading_spaces_start s)).
  fold (words (strip_leading_spaces s)).
  now rewrite words_strip_leading_spaces.
Qed.

Lemma single_spaced_normalize_loop (s : cstr) (pending : bool) :
  single_spaced (normalize_loop pending s) = true.
Proof.
  revert pending. induction s as [|c s IH]; intro pending; simpl.
  - reflexivity.
  - destruct (isspace c) eqn:Hc; [apply IH|].
    destruct pending; simpl; rewrite Hc, IH; reflexivity.
Qed.

Lemma normalize_loop_start (s : cstr) :
  starts_with_space s = false ->
  starts_with_space (normalize_loop false s) = false.
Proof.
  destruct s as [|c s]; simpl; [reflexivity|].
  intro Hc. rewrite Hc. simpl. exact Hc.
Qed.

Lemma normalized_result (s : cstr) :
  exists t, normalize_string (Some s) = Some t /\ normalized t = true.
Proof.
  eexists. split; [reflexivity|]. unfold normalized.
  rewrite single_spaced_normalize_loop.
  rewrite (normalize_loop_start _ (strip_leading_spaces_start s)).
  reflexivity.
Qed.

Lemma strlen_normalize_loop (s : cstr) (pending : bool) :
  (strlen (normalize_loop pending s)
   <= strlen s + if pending then 1 else 0)%nat.
Proof.
  unfold strlen. revert pending.
  induction s as [|c s IH]; intro pending; simpl.
  - lia.
  - destruct (isspace c).
    + specialize (IH true). simpl in IH. destruct pending; lia.
    + specialize (IH false). simpl in IH. destruct pending; simpl; lia.
Qed.

Lemma strlen_strip_leading_spaces (s : cstr) :
  (strlen (strip_leading_spaces s) <= strlen s)%nat.
Proof.
  unfold strlen. induction s as [|c s IH]; simpl; [lia|].
  destruct (isspace c); simpl; lia.
Qed.

(** X6. The result of [normalize_string] is in normal form (it neither starts
    nor ends with white space, and its only white space characters are
    single spaces between two other characters), and it fits the buffer
    that the function allocates for it, which has room for as many
    characters as the input has after its leading white space. *)
Theorem normalize_string_is_normalized (s : cstr) :
  exists t,
    normalize_string (Some s) = Some t
    /\ normalized t = true
    /\ (strlen t <= strlen (strip_leading_spaces s) <= strlen s)%nat.
Proof.
  destruct (normalized_result s) as (t & Ht & Hn).
  exists t. repeat split; try assumption.
  - unfold normalize_string in Ht. injection Ht as <-.
    pose proof (strlen_normalize_loop (strip_leading_spaces s) false) as H.
    simpl in H. lia.
  - apply strlen_strip_leading_spaces.
Qed.

Lemma normalize_loop_fixed (s : cstr) :
  single_spaced s = true ->
  forall pending,
    normalize_loop pending s
    = if starts_with_space s then s
      else if pending then
             match s with
             | EmptyString => EmptyString
             | _ => String " " s
             end
           else s.
Proof.
  induction s as [|c s IH]; intros Hs pending.
  - now destruct pending.
  - simpl in Hs. apply andb_prop in Hs. destruct Hs as [Hc Hrest].
    specialize (IH Hrest). simpl. destruct (isspace c) eqn:Hsp.
    + apply andb_prop in Hc. destruct Hc as [Heq Hnext].
      apply Ascii.eqb_eq in Heq. subst c. rewrite (IH true).
      destruct s as [|d s]; [discriminate Hnext|].
      simpl. apply negb_true_iff in Hnext. now rewrite Hnext.
    + rewrite (IH false). destruct (starts_with_space s); now destruct pending.
Qed.

Lemma strip_leading_spaces_fixed (s : cstr) :
  starts_with_space s = false -> strip_leading_spaces s = s.
Proof. destruct s as [|c s]; simpl; [reflexivity|]. now intros ->. Qed.

(** X7. [normalize_string] is idempotent: a text in normal form is returned as
    it is, so that normalising twice is normalising once. *)
Theorem normalize_string_idempotent (input : option cstr) :
  normalize_string (normalize_string input) = normalize_string input
  /\ (forall s, normalized s = true -> normalize_string (Some s) = Some s).
Proof.
  assert (Hfix : forall s, normalized s = true ->
                           normalize_string (Some s) = Some s).
  { intros s Hs. unfold normalized in Hs. apply andb_prop in Hs.
    destruct Hs as [Hstart Hsingle]. apply negb_true_iff in Hstart.
    unfold normalize_string. f_equal.
    rewrite (strip_leading_spaces_fixed s Hstart).
    rewrite (normalize_loop_fixed s Hsingle false). now rewrite Hstart. }
  split; [|exact Hfix].
  destruct input as [s|]; [|reflexivity].
  destruct (normalized_result s) as (t & -> & Ht).
  now apply Hfix.
Qed.

(** ** Invariants of the engine *)

(** The devices and the mappings of a pass. *)
Lemma later_pass_unfold (doc : xmlDoc) (node_root : xmlNode) (m : Machine) :
  xmlDocGetRootElement doc = Some node_root ->
  to_int (pass (ctx m) + 1) <> 1 ->
  process_dynctrl_doc (Some doc) m
  = (for_each (xml_children_by_name node_root "devices")
       (fun node_devices => process_devices node_devices ;;; ret tt) ;;;
     process_mappings (xml_get_first_child_by_name node_root "mappings"))
      (with_ctx (fun c => set_pass (to_int (pass c + 1)) c) m).
Proof.
  intros Hroot Hpass. unfold process_dynctrl_doc. rewrite Hroot.
  unfold bind at 1, modify_ctx at 1.
  unfold bind at 1, get_ctx at 1. cbn [ctx world].
  apply Z.eqb_neq in Hpass.
  replace (pass (set_pass (to_int (pass (ctx m) + 1)) (ctx m)))
    with (to_int (pass (ctx m) + 1)) by reflexivity.
  rewrite Hpass. unfold bind at 1, ret at 1. cbn [is_error]. reflexivity.
Qed.

(** Every function of the engine changes the machine by a sequence of
    elementary steps: a message is logged, a declaration is counted, a
    control or a constant is put on its list, the pass number goes up, a
    handle is set, the driver or the device layer is called. A relation
    [R] that is reflexive, transitive and holds across the steps of a
    function holds across the function. Each lemma depends on the steps
    that its function can take, and on no other. *)
Section Frame.

Variable R : Machine -> Machine -> Prop.

Hypothesis R_refl : forall m, R m m.
Hypothesis R_trans : forall m1 m2 m3, R m1 m2 -> R m2 m3 -> R m1 m3.

Hypothesis R_message :
  forall msg m,
    severity msg <> CD_SEVERITY_WARNING -> R m (log_machine msg m).
Hypothesis R_count_constant :
  forall r m, R m (with_ctx (counted count_constant r) m).
Hypothesis R_count_control :
  forall r m, R m (with_ctx (counted count_control r) m).
Hypothesis R_count_mapping :
  forall r m, R m (with_ctx (counted count_mapping r) m).
Hypothesis R_control :
  forall xu m,
    R m (with_ctx (fun c => set_controls (xu :: controls c) c) m).
Hypothesis R_constant :
  forall k m,
    lookup_constant (c_name k) CT_INVALID (constants (ctx m)) = None ->
    R m (with_ctx (fun c => set_constants (k :: constants c) c) m).
Hypothesis R_meta : forall d m, R m (with_ctx (map_info (set_meta d)) m).
Hypothesis R_pass :
  forall m, R m (with_ctx (fun c => set_pass (to_int (pass c + 1)) c) m).
Hypothesis R_v4l2_handle : forall fd m, R m (with_ctx (set_v4l2_handle fd) m).
Hypothesis R_handle : forall h m, R m (with_ctx (set_handle h) m).
Hypothesis R_ctrl_add :
  forall xu m,
    R m
      (with_world
         (snd (ioctl_UVCIOC_CTRL_ADD env (world m) (v4l2_handle (ctx m)) xu))
         m).
Hypothesis R_ctrl_map :
  forall mapping m,
    R m
      (with_world
         (snd
            (ioctl_UVCIOC_CTRL_MAP env (world m) (v4l2_handle (ctx m))
               mapping))
         m).
Hypothesis R_open :
  forall name m,
    R m (with_world (snd (open_v4l2_device env (world m) name)) m).
Hypothesis R_close :
  forall m,
    R m
      (mkMachine (set_v4l2_handle 0 (ctx m))
         (close env (world m) (v4l2_handle (ctx m)))).
Hypothesis R_open_device :
  forall name m, R m (with_world (snd (c_open_device env (world m) name)) m).
Hypothesis R_close_device :
  forall m,
    R m
      (mkMachine (set_handle 0 (ctx m))
         (c_close_device env (world m) (handle (ctx m)))).

Lemma respects_ret {A : Type} (a : A) : respects R (ret a).
Proof. intros m a' m' H. injection H as _ <-. apply R_refl. Qed.

Lemma respects_abort {A : Type} : respects R (@abort A).
Proof. intros m a m' H. discriminate H. Qed.

Lemma respects_bind {A B : Type} (c : M A) (k : A -> M B) :
  respects R c -> (forall a, respects R (k a)) -> respects R (bind c k).
Proof.
  intros Hc Hk m b m' H. unfold bind in H.
  destruct (c m) as [a m1|] eqn:Hrun; [|discriminate H].
  apply (R_trans m m1 m'); [exact (Hc m a m1 Hrun)|exact (Hk a m1 b m' H)].
Qed.

Lemma respects_get_ctx : respects R get_ctx.
Proof. intros m a m' H. injection H as _ <-. apply R_refl. Qed.

Lemma respects_modify_ctx (f : ParseContext -> ParseContext) :
  (forall m, R m (with_ctx f m)) -> respects R (modify_ctx f).
Proof. intros Hf m a m' H. injection H as _ <-. apply Hf. Qed.

Lemma respects_for_each (nodes : list xmlNode) (body : xmlNode -> M unit) :
  (forall node, respects R (body node)) -> respects R (for_each nodes body).
Proof.
  intro H. induction nodes as [|node rest IH]; simpl.
  - apply respects_ret.
  - apply respects_bind; [apply H|intros _; exact IH].
Qed.

Lemma add_message_v_returns (l c : Z) (sev : CDynctrlMessageSeverity)
    (fmt : cstr) (va : list printf_arg) (m : Machine) :
  exists r,
    add_message_v l c sev fmt va m
    = Returns r (log_machine (mkMessage l c sev (vasprintf fmt va)) m).
Proof.
  unfold add_message_v, bind, get_ctx, modify_ctx, ret, log_machine, logged.
  destruct (info (ctx m)) as [i|]; simpl.
  - destruct (CD_REPORT_ERRORS (flags i)); simpl; rewrite ?machine_eta;
      now eexists.
  - rewrite machine_eta. now eexists.
Qed.

Lemma respects_add_message_v (l c : Z) (sev : CDynctrlMessageSeverity)
    (fmt : cstr) (va : list printf_arg) :
  sev <> CD_SEVERITY_WARNING -> respects R (add_message_v l c sev fmt va).
Proof.
  intros Hsev m a m' H.
  destruct (add_message_v_returns l c sev fmt va m) as (r & Hrun).
  rewrite Hrun in H. injection H as _ <-. apply R_message. exact Hsev.
Qed.

Lemma respects_add_error_at_node (node : xmlNode) (fmt : cstr)
    (va : list printf_arg) :
  respects R (add_error_at_node node fmt va).
Proof. apply respects_add_message_v. discriminate. Qed.

Lemma respects_add_error (fmt : cstr) (va : list printf_arg) :
  respects R (add_error fmt va).
Proof. apply respects_add_message_v. discriminate. Qed.

Lemma respects_add_info (fmt : cstr) (va : list printf_arg) :
  respects R (add_info fmt va).
Proof. apply respects_add_message_v. discriminate. Qed.

Lemma respects_unicode_to_ascii (unicode : option cstr) :
  respects R (unicode_to_ascii unicode).
Proof.
  unfold unicode_to_ascii. destruct unicode as [s|]; [|apply respects_ret].
  destruct (iconv_utf8_to_ascii s); [apply respects_ret|apply respects_abort].
Qed.

Lemma respects_unicode_to_normalized_ascii (unicode : option cstr) :
  respects R (unicode_to_normalized_ascii unicode).
Proof.
  apply respects_bind; [apply respects_unicode_to_ascii|].
  intro a. apply respects_ret.
Qed.

Lemma respects_device_v4l2_name : respects R device_v4l2_name.
Proof. intros m a m' H. injection H as _ <-. apply R_refl. Qed.

Lemma respects_ioctl_ctrl_map (mapping : uvc_xu_control_mapping) :
  respects R (ioctl_ctrl_map mapping).
Proof.
  intros m a m' H. unfold ioctl_ctrl_map in H.
  pose proof (R_ctrl_map mapping m) as Hstep.
  destruct (ioctl_UVCIOC_CTRL_MAP env (world m) (v4l2_handle (ctx m)) mapping)
    as [[v4l2_ret errno] w].
  injection H as _ <-. exact Hstep.
Qed.

Lemma respects_ioctl_ctrl_add (xu : uvc_xu_control_info) :
  respects R (ioctl_ctrl_add xu).
Proof.
  intros m a m' H. unfold ioctl_ctrl_add in H.
  pose proof (R_ctrl_add xu m) as Hstep.
  destruct (ioctl_UVCIOC_CTRL_ADD env (world m) (v4l2_handle (ctx m)) xu)
    as [[v4l2_ret errno] w].
  injection H as _ <-. exact Hstep.
Qed.

Lemma respects_call {A : Type} (f : World -> A * World) :
  (forall m, R m (with_world (snd (f (world m))) m)) -> respects R (call f).
Proof.
  intros Hf m a m' H. unfold call in H. pose proof (Hf m) as Hstep.
  destruct (f (world m)) as [a' w]. injection H as _ <-. exact Hstep.
Qed.

(** Code that logs, counts and returns is handled by [auto with frame]. *)
Create HintDb frame.
#[local] Hint Resolve respects_ret respects_abort respects_get_ctx
  respects_add_error_at_node respects_add_error respects_add_info
  respects_unicode_to_ascii respects_unicode_to_normalized_ascii
  respects_device_v4l2_name respects_ioctl_ctrl_map respects_ioctl_ctrl_add
  respects_bind : frame.

Lemma respects_process_mapping (node_mapping : xmlNode) :
  respects R (process_mapping node_mapping).
Proof.
  unfold process_mapping.
  destruct (xml_get_first_child_by_name node_mapping "v4l2")
    as [node_v4l2|]; [|auto with frame].
  destruct (xml_get_first_child_by_name node_mapping "uvc")
    as [node_uvc|]; [|auto with frame].
  destruct (xml_get_first_child_by_name node_uvc "control_ref")
    as [node_control_ref|]; [|auto with frame].
  destruct (xmlGetProp node_control_ref "idref") as [control_ref|];
    [|auto with frame].
  apply respects_bind; [apply respects_get_ctx|intro c].
  destruct (lookup_control control_ref (controls c)) as [control|];
    [|auto with frame].
  apply respects_bind;
    [apply respects_unicode_to_normalized_ascii|intros [name|]];
    [|auto with frame].
  destruct (lookup_or_convert_to_integer _ 0 (constants c)) as [r value].
  destruct (is_error r); [auto with frame|].
  destruct (get_v4l2_ctrl_type_by_name _ _ =? 0); [auto with frame|].
  apply respects_bind; [apply respects_unicode_to_ascii|intro str].
  destruct (is_valid_size_string str 255) as [size|]; [|auto with frame].
  apply respects_bind; [apply respects_unicode_to_ascii|intro str'].
  destruct (is_valid_size_string str' 255) as [offset|]; [|auto with frame].
  destruct (get_uvc_ctrl_type_by_name _ =? -1); [auto with frame|].
  apply respects_bind; [apply respects_ioctl_ctrl_map|intros [v4l2_ret errno]].
  destruct (ioctl_failed v4l2_ret errno (pass c)); auto with frame.
Qed.

Lemma respects_update_stats
    (f : CResult -> CDynctrlStats -> CDynctrlStats) (r : CResult) :
  (forall m, R m (with_ctx (counted f r) m)) ->
  respects R (update_stats (f r)).
Proof. intro H. apply respects_modify_ctx. exact H. Qed.

Lemma respects_process_mappings (node_mappings : option xmlNode) :
  respects R (process_mappings node_mappings).
Proof.
  unfold process_mappings.
  destruct node_mappings as [node|]; [|apply respects_abort].
  apply respects_bind; [|auto with frame].
  apply respects_for_each. intro node_mapping.
  apply respects_bind; [apply respects_process_mapping|intro r].
  apply respects_update_stats. apply R_count_mapping.
Qed.

Lemma respects_process_requests (nodes : list xmlNode) (xu_flags : Z) :
  respects R (process_requests nodes xu_flags).
Proof.
  revert xu_flags. induction nodes as [|node rest IH]; intro xu_flags.
  - apply respects_ret.
  - cbn [process_requests]. apply respects_bind; [|intros _; apply IH].
    destruct (get_uvc_request_by_name _ =? 0); auto with frame.
Qed.

Lemma respects_process_control (node_control : xmlNode) :
  respects R (process_control node_control).
Proof.
  unfold process_control.
  destruct (xmlGetProp node_control "id") as [id|]; [|auto with frame].
  apply respects_bind; [apply respects_get_ctx|intro c].
  destruct (lookup_or_convert_to_guid _ _ _ (constants c)) as [r entity].
  destruct (is_error r); [auto with frame|].
  destruct (lookup_or_convert_to_integer _ 0 (constants c)) as [r1 selector].
  destruct (is_error r1); [auto with frame|].
  destruct (lookup_or_convert_to_integer _ selector (constants c))
    as [r2 index].
  destruct (is_error r2); [auto with frame|].
  destruct (lookup_or_convert_to_integer _ index (constants c))
    as [r3 size].
  destruct (is_error r3 || negb (is_valid_size size 65535));
    [auto with frame|].
  destruct (xml_get_first_child_by_name node_control "requests")
    as [node_requests|]; [|auto with frame].
  apply respects_bind; [apply respects_process_requests|intro xu_flags].
  apply respects_bind; [apply respects_ioctl_ctrl_add|intros [v4l2_ret errno]].
  apply respects_bind.
  - destruct (ioctl_failed v4l2_ret errno (pass c)); auto with frame.
  - intro r4. apply respects_bind; [|auto with frame].
    apply respects_modify_ctx. apply R_control.
Qed.

Lemma respects_process_controls (node_controls : xmlNode) :
  respects R (process_controls node_controls).
Proof.
  unfold process_controls. apply respects_bind; [|auto with frame].
  apply respects_for_each. intro node_control.
  apply respects_bind; [apply respects_process_control|intro r].
  apply respects_update_stats. apply R_count_control.
Qed.

Lemma respects_process_device (node_device : xmlNode) :
  respects R (process_device node_device).
Proof.
  unfold process_device.
  destruct (xml_get_first_child_by_name node_device "controls");
    [|apply respects_ret].
  apply respects_bind; [apply respects_process_controls|auto with frame].
Qed.

Lemma respects_process_devices (node_devices : xmlNode) :
  respects R (process_devices node_devices).
Proof.
  unfold process_devices. apply respects_bind; [|auto with frame].
  apply respects_for_each. intro node_device.
  apply respects_bind; [apply respects_process_device|auto with frame].
Qed.

(** The devices and the mappings of a pass. *)
Lemma respects_devices_and_mappings (node_root : xmlNode) :
  respects R
    (for_each (xml_children_by_name node_root "devices")
       (fun node_devices => process_devices node_devices ;;; ret tt) ;;;
     process_mappings (xml_get_first_child_by_name node_root "mappings")).
Proof.
  apply respects_bind; [|intros _; apply respects_process_mappings].
  apply respects_for_each. intro node_devices.
  apply respects_bind; [apply respects_process_devices|auto with frame].
Qed.

(** A pass after the first: the meta information and the constants are
    not visited. *)
Lemma respects_later_pass (doc : xmlDoc) (m : Machine) (r : CResult)
    (m' : Machine) :
  to_int (pass (ctx m) + 1) <> 1 ->
  process_dynctrl_doc (Some doc) m = Returns r m' -> R m m'.
Proof.
  intros Hpass H.
  destruct (xmlDocGetRootElement doc) as [node_root|] eqn:Hroot;
    [|unfold process_dynctrl_doc in H; rewrite Hroot in H; discriminate H].
  rewrite (later_pass_unfold doc node_root m Hroot Hpass) in H.
  eapply R_trans; [apply R_pass|].
  exact (respects_devices_and_mappings node_root _ _ _ H).
Qed.

Lemma respects_process_constant (node_constant : xmlNode) :
  respects R (process_constant node_constant).
Proof.
  intros m r m' H. unfold process_constant in H.
  unfold bind at 1 in H.
  destruct (unicode_to_ascii _ m) as [name m1|] eqn:Hname; [|discriminate H].
  assert (Hm1 : m1 = m).
  { unfold unicode_to_ascii in Hname.
    destruct (xml_get_node_text _) as [s|]; [|now injection Hname].
    destruct (iconv_utf8_to_ascii s); [now injection Hname|discriminate]. }
  subst m1. clear Hname. destruct name as [name|].
  - unfold bind at 1, get_ctx at 1 in H.
    destruct (lookup_constant name CT_INVALID (constants (ctx m))) eqn:Hfresh.
    + revert H. apply respects_bind; auto with frame.
    + destruct (xmlStrEqual (xmlGetProp node_constant "type") "integer").
      * destruct (is_valid_integer_string _) as [v|].
        -- injection H as _ <-.
           apply (R_constant (mkConstant CT_INTEGER name v [])). exact Hfresh.
        -- destruct (xml_get_first_child_by_name node_constant "value");
             [|discriminate H].
           revert H. apply respects_bind; auto with frame.
      * destruct (xmlStrEqual (xmlGetProp node_constant "type") "guid").
        -- destruct (xml_get_node_text _) as [s|]; [|discriminate H].
           injection H as _ <-.
           apply (R_constant (mkConstant CT_GUID name 0 _)). exact Hfresh.
        -- revert H. apply respects_bind; auto with frame.
  - revert H. apply respects_bind; auto with frame.
Qed.

Lemma respects_process_constants (node_constants : option xmlNode) :
  respects R (process_constants node_constants).
Proof.
  unfold process_constants.
  destruct node_constants as [node|]; [|apply respects_abort].
  apply respects_bind; [|auto with frame].
  apply respects_for_each. intro node_constant.
  apply respects_bind; [apply respects_process_constant|intro r].
  apply respects_update_stats. apply R_count_constant.
Qed.

Lemma respects_process_meta (node_meta : option xmlNode) :
  respects R (process_meta node_meta).
Proof.
  unfold process_meta.
  destruct node_meta as [node|]; [|apply respects_abort].
  apply respects_bind; [apply respects_get_ctx|intro c].
  destruct (info c) as [i|]; [|apply respects_ret].
  destruct (CD_RETRIEVE_META_INFO (flags i)); [|apply respects_ret].
  destruct (xml_get_node_text (xml_get_first_child_by_name node "version"))
    as [v|]; [|apply respects_abort].
  destruct (xml_get_node_text (xml_get_first_child_by_name node "revision"))
    as [rv|]; [|apply respects_abort].
  destruct (string_to_version v) as [[vmaj vmin] vfound].
  destruct (string_to_version rv) as [[rmaj rmin] rfound].
  apply respects_bind;
    [apply respects_unicode_to_normalized_ascii|intro a].
  apply respects_bind; [apply respects_unicode_to_ascii|intro ct].
  apply respects_bind; [apply respects_unicode_to_ascii|intro cr].
  apply respects_bind; [|auto with frame].
  apply respects_modify_ctx. apply R_meta.
Qed.

Lemma respects_process_dynctrl_doc (xml_doc : option xmlDoc) :
  respects R (process_dynctrl_doc xml_doc).
Proof.
  unfold process_dynctrl_doc.
  destruct xml_doc as [doc|]; [|apply respects_ret].
  destruct (xmlDocGetRootElement doc) as [node_root|];
    [|apply respects_abort].
  apply respects_bind; [apply respects_modify_ctx, R_pass|intros _].
  apply respects_bind; [apply respects_get_ctx|intro c].
  apply respects_bind.
  - destruct (pass c =? 1); [|apply respects_ret].
    apply respects_bind; [apply respects_process_meta|intro r].
    destruct (is_error r);
      [apply respects_ret|apply respects_process_constants].
  - intro r. destruct (is_error r); [apply respects_ret|].
    apply respects_devices_and_mappings.
Qed.

Lemma respects_device_supports_dynctrl : respects R device_supports_dynctrl.
Proof.
  unfold device_supports_dynctrl.
  apply respects_bind; [apply respects_get_ctx|intro c].
  destruct (v4l2_handle c =? 0); [apply respects_abort|].
  apply respects_bind; [apply respects_ioctl_ctrl_add|intros [v4l2_ret errno]].
  destruct (v4l2_ret =? -1); [|apply respects_ret].
  destruct (errno =? EPERM); [apply respects_ret|].
  destruct (errno =? EEXIST); apply respects_ret.
Qed.

Lemma respects_close_v4l2_handle : respects R close_v4l2_handle.
Proof.
  intros m a m' H. unfold close_v4l2_handle in H.
  destruct (v4l2_handle (ctx m) =? 0); injection H as _ <-;
    [apply R_refl|apply R_close].
Qed.

Lemma respects_add_control_mappings (xml_doc : option xmlDoc) :
  respects R (add_control_mappings xml_doc).
Proof.
  unfold add_control_mappings.
  apply respects_bind; [apply respects_device_v4l2_name|intro v4l2_name].
  apply respects_bind; [apply respects_call; intro m; apply R_open|intro fd].
  apply respects_bind;
    [apply respects_modify_ctx; intro m; apply R_v4l2_handle|intros _].
  apply respects_bind.
  - destruct (fd =? 0); [apply respects_ret|].
    apply respects_bind; [apply respects_device_supports_dynctrl|intro r].
    destruct (is_error r);
      [apply respects_ret|apply respects_process_dynctrl_doc].
  - intro r. apply respects_bind; [apply respects_close_v4l2_handle|].
    intros _. apply respects_ret.
Qed.

Lemma respects_device_iteration (xml_doc : option xmlDoc) (device : CDevice)
    (r : CResult) (successful_devices : Z) :
  respects R (device_iteration xml_doc device r successful_devices).
Proof.
  unfold device_iteration.
  destruct (negb (driver device =? "uvcvideo")%string); [auto with frame|].
  apply respects_bind;
    [apply respects_call; intro m; apply R_open_device|intro h].
  apply respects_bind;
    [apply respects_modify_ctx; intro m; apply R_handle|intros _].
  destruct (h =? 0); [auto with frame|].
  apply respects_bind; [apply respects_add_control_mappings|intro r'].
  apply respects_bind; [destruct r'; auto with frame|intro n].
  apply respects_bind; [|intros _; apply respects_ret].
  intros m a m' H. injection H as _ <-. apply R_close_device.
Qed.

Lemma respects_device_loop (xml_doc : option xmlDoc)
    (devices : list CDevice) (r : CResult) (successful_devices : Z) :
  respects R (device_loop xml_doc devices r successful_devices).
Proof.
  revert r successful_devices.
  induction devices as [|device rest IH]; intros r n.
  - apply respects_ret.
  - cbn [device_loop]. apply respects_bind;
      [apply respects_device_iteration|intros [r' n']; apply IH].
Qed.

Lemma respects_apply_to_devices (xml_doc : option xmlDoc)
    (devices : list CDevice) (r : CResult) :
  respects R (apply_to_devices xml_doc devices r).
Proof.
  unfold apply_to_devices.
  apply respects_bind; [apply respects_device_loop|intros [r' n]].
  destruct (n =? 0); apply respects_ret.
Qed.

Lemma respects_parse_dynctrl_file (file_name : cstr) :
  respects R (parse_dynctrl_file file_name).
Proof.
  intros m a m' H. unfold parse_dynctrl_file in H.
  destruct (xmlCtxtReadFile env (world m) file_name)
    as [doc|[[e_line e_int2] e_message]].
  - injection H as _ <-. apply R_refl.
  - revert H. unfold add_message. apply respects_bind;
      [apply respects_add_message_v; discriminate
      |intros _; apply respects_ret].
Qed.

End Frame.

(** ** The log only grows *)

Lemma log_grows_refl (m : Machine) : log_grows m m.
Proof.
  split; [reflexivity|]. exists []. now rewrite app_nil_r.
Qed.

Lemma log_grows_trans (m1 m2 m3 : Machine) :
  log_grows m1 m2 -> log_grows m2 m3 -> log_grows m1 m3.
Proof.
  intros (Hf1 & more1 & Hl1 & Hw1) (Hf2 & more2 & Hl2 & Hw2). split.
  - congruence.
  - exists (more1 ++ more2)%list. split.
    + now rewrite Hl2, Hl1, app_assoc.
    + apply Forall_app. now split.
Qed.

Lemma flags_logged (msg : CDynctrlMessage) (c : ParseContext) :
  option_map flags (info (logged msg c)) = option_map flags (info c).
Proof.
  unfold logged. destruct (info c) as [i|] eqn:Hi; [|now rewrite Hi].
  destruct (CD_REPORT_ERRORS (flags i)); [|now rewrite Hi].
  unfold resize_message_buffer, map_info. now rewrite Hi.
Qed.

Lemma log_grows_message (msg : CDynctrlMessage) (m : Machine) :
  severity msg <> CD_SEVERITY_WARNING -> log_grows m (log_machine msg m).
Proof.
  intro Hsev. split; [apply flags_logged|].
  exists (if reports (ctx m) then [msg] else []). split.
  - apply log_of_logged.
  - destruct (reports (ctx m)); [|constructor].
    constructor; [exact Hsev|constructor].
Qed.

(** A step that leaves the flags and the messages alone. *)
Lemma log_grows_same (m m' : Machine) :
  option_map flags (info (ctx m')) = option_map flags (info (ctx m)) ->
  log_of (ctx m') = log_of (ctx m) -> log_grows m m'.
Proof.
  intros Hf Hl. split; [exact Hf|]. exists []. now rewrite app_nil_r.
Qed.

(** The steps of the engine, for a relation on the log. *)
Ltac log_step :=
  intros;
  first
    [ apply log_grows_refl
    | eapply log_grows_trans; eassumption
    | apply log_grows_message; assumption
    | match goal with
      | |- log_grows ?m _ =>
          apply log_grows_same; unfold log_of, with_ctx, counted, map_info;
          cbn [ctx world info set_info set_constants set_controls set_pass
               set_handle set_v4l2_handle with_world];
          destruct (info (ctx m)); reflexivity
      end ].

(** X19. The loop over the devices only appends to the log: the messages that
    the session has logged before the loop, or for the devices before,
    stay as they are and in their order; what the loop adds holds no
    warning; and the flags of the caller are left alone. *)
Theorem devices_only_append_diagnostics (xml_doc : option xmlDoc)
    (devices : list CDevice) (r : CResult) (n : Z) (m : Machine)
    (r' : CResult) (n' : Z) (m' : Machine) :
  device_loop xml_doc devices r n m = Returns (r', n') m' ->
  option_map flags (info (ctx m')) = option_map flags (info (ctx m))
  /\ exists more,
       log_of (ctx m') = (log_of (ctx m) ++ more)%list
       /\ Forall no_warning more.
Proof. apply (respects_device_loop log_grows); log_step. Qed.

(** ** What a pass leaves alone *)

Lemma same_refl {V : Type} (view : ParseContext -> V) (m : Machine) :
  same view m m.
Proof. reflexivity. Qed.

Lemma same_trans {V : Type} (view : ParseContext -> V) (m1 m2 m3 : Machine) :
  same view m1 m2 -> same view m2 m3 -> same view m1 m3.
Proof. unfold same. congruence. Qed.

Lemma same_with_ctx {V : Type} (view : ParseContext -> V)
    (f : ParseContext -> ParseContext) (m : Machine) :
  (forall c, view (f c) = view c) -> same view m (with_ctx f m).
Proof. intro H. apply H. Qed.

Lemma declarations_view_logged (msg : CDynctrlMessage) (c : ParseContext) :
  declarations_view (logged msg c) = declarations_view c.
Proof.
  unfold declarations_view, logged.
  destruct (info c) as [i|] eqn:Hi; [|now rewrite Hi].
  destruct (CD_REPORT_ERRORS (flags i)); [|now rewrite Hi].
  unfold resize_message_buffer, map_info. now rewrite Hi.
Qed.

Lemma pass_logged (msg : CDynctrlMessage) (c : ParseContext) :
  pass (logged msg c) = pass c.
Proof. apply logged_fields. Qed.

Lemma handles_view_logged (msg : CDynctrlMessage) (c : ParseContext) :
  handles_view (logged msg c) = handles_view c.
Proof.
  unfold handles_view.
  destruct (logged_fields msg c) as (_ & _ & _ & -> & -> & _). reflexivity.
Qed.

(** The steps of the engine, for a relation on a view of the context. *)
Ltac same_step :=
  intros;
  first
    [ apply same_refl
    | eapply same_trans; eassumption
    | apply declarations_view_logged
    | apply pass_logged
    | apply handles_view_logged
    | match goal with
      | |- same _ ?m _ =>
          unfold same, declarations_view, handles_view, with_ctx, with_world,
            counted, map_info;
          cbn [ctx world info set_info set_constants set_controls set_pass
               set_handle set_v4l2_handle constants pass handle v4l2_handle];
          destruct (info (ctx m)); reflexivity
      end ].

(** X16. A pass after the first (the pass number, an [int], is at least 1 when
    it starts) visits the devices and the mappings only: it leaves the
    symbol table, the meta information and the count of the constants as
    they are, and the pass number goes up by one. *)
Theorem later_pass_keeps_declarations (doc : xmlDoc) (m : Machine)
    (r : CResult) (m' : Machine) :
  1 <= pass (ctx m) < INT_MAX ->
  process_dynctrl_doc (Some doc) m = Returns r m' ->
  pass (ctx m') = pass (ctx m) + 1
  /\ constants (ctx m') = constants (ctx m)
  /\ option_map meta (info (ctx m')) = option_map meta (info (ctx m))
  /\ option_map (fun i => stats_constants (stats i)) (info (ctx m'))
     = option_map (fun i => stats_constants (stats i)) (info (ctx m)).
Proof.
  intros Hpass H.
  assert (Hnext : to_int (pass (ctx m) + 1) = pass (ctx m) + 1).
  { unfold to_int, INT_MAX in *. rewrite Z.mod_small; lia. }
  assert (Hlater : to_int (pass (ctx m) + 1) <> 1) by lia.
  split.
  - destruct (xmlDocGetRootElement doc) as [node_root|] eqn:Hroot;
      [|unfold process_dynctrl_doc in H; rewrite Hroot in H; discriminate H].
    rewrite (later_pass_unfold doc node_root m Hroot Hlater) in H.
    assert (Hsame : same pass
                      (with_ctx (fun c => set_pass (to_int (pass c + 1)) c) m)
                      m').
    { revert H. apply respects_devices_and_mappings; same_step. }
    unfold same in Hsame. rewrite Hsame. exact Hnext.
  - assert (Hsame : same declarations_view m m').
    { revert Hlater H. apply respects_later_pass; same_step. }
    unfold same, declarations_view in Hsame.
    injection Hsame as H1 H2 H3. auto.
Qed.

(** ** The descriptor of a device *)

(** X18. [add_control_mappings] closes the descriptor that it opened, whatever
    the probe and the pass over the document did and returned: the context
    it leaves holds no descriptor, the library handle is the one it found,
    and when the device was opened the last call into the world is the
    [close] of its descriptor. A device that cannot be opened gives
    [C_INVALID_DEVICE]. *)
Theorem add_control_mappings_closes_its_descriptor (xml_doc : option xmlDoc)
    (m : Machine) (r : CResult) (m' : Machine) :
  add_control_mappings xml_doc m = Returns r m' ->
  let opened :=
    open_v4l2_device env (world m)
      (handle_v4l2_name env (world m) (handle (ctx m))) in
  v4l2_handle (ctx m') = 0
  /\ handle (ctx m') = handle (ctx m)
  /\ (fst opened = 0 -> r = C_INVALID_DEVICE /\ world m' = snd opened)
  /\ (fst opened <> 0 -> exists w, world m' = close env w (fst opened)).
Proof.
  intros H opened. subst opened. unfold add_control_mappings in H.
  unfold bind at 1, device_v4l2_name in H.
  unfold bind at 1, call in H. cbn [ctx world] in H.
  destruct (open_v4l2_device env (world m)
              (handle_v4l2_name env (world m) (handle (ctx m))))
    as [fd w1].
  unfold bind at 1, modify_ctx in H. cbn [ctx world fst snd] in *.
  unfold bind at 1 in H.
  match type of H with
  | match ?c ?m1 with _ => _ end = _ =>
      destruct (c m1) as [r1 m2|] eqn:Hinner; [|discriminate H];
      assert (Hsame : same handles_view m1 m2)
  end.
  { revert Hinner. destruct (fd =? 0); [apply respects_ret; same_step|].
    apply respects_bind; [same_step| |].
    - apply respects_device_supports_dynctrl; same_step.
    - intro r0. destruct (is_error r0); [apply respects_ret; same_step|].
      apply respects_process_dynctrl_doc; same_step. }
  unfold same, handles_view in Hsame. cbn [ctx world] in Hsame.
  injection Hsame as Hv Hh.
  cbn [v4l2_handle handle set_v4l2_handle] in Hv, Hh.
  unfold bind at 1, close_v4l2_handle in H. rewrite Hv in H.
  destruct (fd =? 0) eqn:Hfd.
  - apply Z.eqb_eq in Hfd. subst fd. unfold ret in H, Hinner.
    injection H as <- <-. injection Hinner as <- <-.
    split; [exact Hv|]. split; [exact Hh|]. split.
    + intros _. split; reflexivity.
    + intro Hne. now destruct Hne.
  - apply Z.eqb_neq in Hfd. unfold ret in H. injection H as <- <-.
    cbn [ctx world v4l2_handle set_v4l2_handle handle].
    split; [reflexivity|]. split; [exact Hh|]. split.
    + intro H0. now destruct Hfd.
    + intros _. now exists (world m2).
Qed.

(** ** The symbol table *)

Lemma lookup_constant_in (name : cstr) (kind : ConstantType)
    (table : list Constant) (k : Constant) :
  lookup_constant name kind table = Some k -> In name (map c_name table).
Proof.
  induction table as [|elem next IH]; simpl; [discriminate|].
  destruct (String.eqb (c_name elem) name) eqn:Hname.
  - intros _. left. now apply String.eqb_eq.
  - simpl. intro H. right. now apply IH.
Qed.

Lemma lookup_constant_fresh (name : cstr) (table : list Constant) :
  lookup_constant name CT_INVALID table = None ->
  ~ In name (map c_name table).
Proof.
  induction table as [|elem next IH]; simpl; [tauto|].
  destruct (String.eqb (c_name elem) name) eqn:Hname; simpl; [discriminate|].
  intros H [Heq|Hin].
  - apply String.eqb_neq in Hname. contradiction.
  - now apply IH.
Qed.

Lemma table_extends_refl (m : Machine) : table_extends m m.
Proof. split; auto. Qed.

Lemma table_extends_trans (m1 m2 m3 : Machine) :
  table_extends m1 m2 -> table_extends m2 m3 -> table_extends m1 m3.
Proof. intros [H1 G1] [H2 G2]. split; auto. Qed.

Lemma table_extends_same (m m' : Machine) :
  constants (ctx m') = constants (ctx m) -> table_extends m m'.
Proof.
  intro H. unfold table_extends, constant_names. rewrite H. split; auto.
Qed.

Lemma table_extends_constant (k : Constant) (m : Machine) :
  lookup_constant (c_name k) CT_INVALID (constants (ctx m)) = None ->
  table_extends m
    (with_ctx (fun c => set_constants (k :: constants c) c) m).
Proof.
  intro Hfresh. apply lookup_constant_fresh in Hfresh.
  unfold table_extends, constant_names, with_ctx.
  cbn [ctx constants set_constants map]. split.
  - intro Hnodup. now constructor.
  - intros name kind k0 Hfound. cbn [lookup_constant].
    destruct (String.eqb (c_name k) name) eqn:Hname; [|exact Hfound].
    apply String.eqb_eq in Hname. apply lookup_constant_in in Hfound.
    rewrite Hname in Hfresh. contradiction.
Qed.

(** The steps of the engine, for the relation on the symbol table. *)
Ltac table_step :=
  intros;
  first
    [ apply table_extends_refl
    | eapply table_extends_trans; eassumption
    | apply table_extends_constant; assumption
    | apply table_extends_same; apply logged_fields
    | apply table_extends_same; reflexivity ].

(** X12. Constants keep their values through a pass: a name that the symbol
    table resolves before the pass resolves to the same constant after it,
    for integers, for GUIDs and for a lookup of any type, so that a
    redefinition never changes what a name stands for; and a table without
    a name twice stays one. *)
Theorem constants_keep_their_values (xml_doc : option xmlDoc) (m : Machine)
    (r : CResult) (m' : Machine) :
  process_dynctrl_doc xml_doc m = Returns r m' ->
  (NoDup (constant_names (ctx m)) -> NoDup (constant_names (ctx m')))
  /\ forall name kind k,
       lookup_constant name kind (constants (ctx m)) = Some k ->
       lookup_constant name kind (constants (ctx m')) = Some k.
Proof.
  apply (respects_process_dynctrl_doc table_extends); table_step.
Qed.

(** ** Result codes *)

Lemma bind_inversion {A B : Type} (c : M A) (k : A -> M B) (m : Machine)
    (b : B) (m' : Machine) :
  bind c k m = Returns b m' ->
  exists a m1, c m = Returns a m1 /\ k a m1 = Returns b m'.
Proof.
  unfold bind. destruct (c m) as [a m1|]; [|discriminate].
  intro H. now exists a, m1.
Qed.

Lemma process_mappings_result (node_mappings : option xmlNode) (m : Machine)
    (r : CResult) (m' : Machine) :
  process_mappings node_mappings m = Returns r m' -> r = C_SUCCESS.
Proof.
  unfold process_mappings. destruct node_mappings; [|discriminate].
  intro H. apply bind_inversion in H. destruct H as (_ & m1 & _ & H).
  now injection H.
Qed.

Lemma process_constants_result (node_constants : option xmlNode)
    (m : Machine) (r : CResult) (m' : Machine) :
  process_constants node_constants m = Returns r m' -> r = C_SUCCESS.
Proof.
  unfold process_constants. destruct node_constants; [|discriminate].
  intro H. apply bind_inversion in H. destruct H as (_ & m1 & _ & H).
  now injection H.
Qed.

Lemma process_meta_result (node_meta : option xmlNode) (m : Machine)
    (r : CResult) (m' : Machine) :
  process_meta node_meta m = Returns r m' -> r = C_SUCCESS.
Proof.
  unfold process_meta. destruct node_meta as [node|]; [|discriminate].
  unfold bind at 1, get_ctx.
  destruct (info (ctx m)) as [i|]; [|intro H; now injection H].
  destruct (CD_RETRIEVE_META_INFO (flags i)); [|intro H; now injection H].
  destruct (xml_get_node_text (xml_get_first_child_by_name node "version"));
    [|discriminate].
  destruct (xml_get_node_text (xml_get_first_child_by_name node "revision"));
    [|discriminate].
  destruct (string_to_version _) as [[vmaj vmin] vfound].
  destruct (string_to_version _) as [[rmaj rmin] rfound].
  intro H.
  apply bind_inversion in H. destruct H as (a & m1 & _ & H).
  apply bind_inversion in H. destruct H as (ct & m2 & _ & H).
  apply bind_inversion in H. destruct H as (cr & m3 & _ & H).
  apply bind_inversion in H. destruct H as (u & m4 & _ & H).
  now injection H.
Qed.

(** A pass over a document returns [C_SUCCESS] whenever it returns. *)
Lemma process_dynctrl_doc_result (doc : xmlDoc) (m : Machine) (r : CResult)
    (m' : Machine) :
  process_dynctrl_doc (Some doc) m = Returns r m' -> r = C_SUCCESS.
Proof.
  unfold process_dynctrl_doc.
  destruct (xmlDocGetRootElement doc) as [node_root|]; [|discriminate].
  intro H.
  apply bind_inversion in H. destruct H as (u & m1 & _ & H).
  apply bind_inversion in H. destruct H as (c & m2 & _ & H).
  apply bind_inversion in H. destruct H as (r1 & m3 & Hfirst & H).
  assert (Hr1 : r1 = C_SUCCESS).
  { destruct (pass c =? 1); [|now injection Hfirst].
    apply bind_inversion in Hfirst.
    destruct Hfirst as (r0 & m4 & Hmeta & Hfirst).
    apply process_meta_result in Hmeta. subst r0. cbn [is_error] in Hfirst.
    now apply process_constants_result in Hfirst. }
  subst r1. cbn [is_error] in H.
  apply bind_inversion in H. destruct H as (u' & m5 & _ & H).
  now apply process_mappings_result in H.
Qed.

Lemma add_control_mappings_result (doc : xmlDoc) (m : Machine) (r : CResult)
    (m' : Machine) :
  add_control_mappings (Some doc) m = Returns r m' -> device_result r.
Proof.
  unfold add_control_mappings, device_result. intro H.
  apply bind_inversion in H. destruct H as (name & m1 & _ & H).
  apply bind_inversion in H. destruct H as (fd & m2 & _ & H).
  apply bind_inversion in H. destruct H as (u & m3 & _ & H).
  apply bind_inversion in H. destruct H as (r1 & m4 & Hinner & H).
  apply bind_inversion in H. destruct H as (u' & m5 & _ & H).
  injection H as <- _.
  destruct (fd =? 0); [injection Hinner as <- _; tauto|].
  apply bind_inversion in Hinner. destruct Hinner as (r0 & m6 & Hprobe & H).
  unfold device_supports_dynctrl in Hprobe.
  apply bind_inversion in Hprobe. destruct Hprobe as (c & m7 & _ & Hprobe).
  destruct (v4l2_handle c =? 0); [discriminate Hprobe|].
  apply bind_inversion in Hprobe.
  destruct Hprobe as ([v4l2_ret errno] & m8 & _ & Hprobe).
  assert (Hr0 : device_result r0).
  { unfold device_result.
    destruct (v4l2_ret =? -1); [|injection Hprobe as <- _; tauto].
    destruct (errno =? EPERM); [injection Hprobe as <- _; tauto|].
    destruct (errno =? EEXIST); injection Hprobe as <- _; tauto. }
  destruct (is_error r0) eqn:Herr.
  - injection H as <- _. exact Hr0.
  - left. now apply process_dynctrl_doc_result in H.
Qed.

Lemma device_iteration_result (doc : xmlDoc) (device : CDevice)
    (r : CResult) (n : Z) (m : Machine) (r' : CResult) (n' : Z)
    (m' : Machine) :
  device_iteration (Some doc) device r n m = Returns (r', n') m' ->
  device_result r -> device_result r'.
Proof.
  unfold device_iteration. intros H Hr.
  destruct (negb (driver device =? "uvcvideo")%string).
  - apply bind_inversion in H. destruct H as (u & m1 & _ & H).
    now injection H as <- _ _.
  - apply bind_inversion in H. destruct H as (h & m1 & _ & H).
    apply bind_inversion in H. destruct H as (u & m2 & _ & H).
    destruct (h =? 0).
    + apply bind_inversion in H. destruct H as (u' & m3 & _ & H).
      now injection H as <- _ _.
    + apply bind_inversion in H. destruct H as (r1 & m3 & Hadd & H).
      apply add_control_mappings_result in Hadd.
      apply bind_inversion in H. destruct H as (n1 & m4 & _ & H).
      apply bind_inversion in H. destruct H as (u' & m5 & _ & H).
      now injection H as <- _ _.
Qed.

Lemma device_loop_result (doc : xmlDoc) (devices : list CDevice)
    (r : CResult) (n : Z) (m : Machine) (r' : CResult) (n' : Z)
    (m' : Machine) :
  device_loop (Some doc) devices r n m = Returns (r', n') m' ->
  device_result r -> device_result r'.
Proof.
  revert r n m. induction devices as [|device rest IH]; intros r n m H Hr.
  - now injection H as <- _ _.
  - cbn [device_loop] in H. apply bind_inversion in H.
    destruct H as ([r1 n1] & m1 & Hfirst & H).
    apply (IH r1 n1 m1 H).
    exact (device_iteration_result _ _ _ _ _ _ _ _ Hfirst Hr).
Qed.

(** X20. Once the devices are enumerated and the document is read, a session
    (of a caller whose [info] structure, if any, holds no message yet)
    returns one of four codes: success, no supported device, missing
    permission, or no support in the driver. Nothing that a declaration of
    the document does shows in the result: a constant, a control or a
    mapping that is rejected (by the parser or by the driver) is reported in
    the log and in the statistics only. *)
Theorem declaration_errors_do_not_fail_the_session (file_name : cstr)
    (caller_info : option CDynctrlInfo) (w : World) (devices : list CDevice)
    (doc : xmlDoc) (r : CResult) (info' : option CDynctrlInfo) (w' : World) :
  info_messages caller_info = [] ->
  c_enum_devices_size env w = C_BUFFER_TOO_SMALL ->
  c_enum_devices env w = (C_SUCCESS, devices) ->
  xmlCtxtReadFile env w file_name = inl doc ->
  c_add_control_mappings_from_file true (Some file_name) caller_info w
  = Some (r, info', w') ->
  r = C_SUCCESS \/ r = C_INVALID_DEVICE \/ r = C_CANNOT_WRITE
  \/ r = C_NOT_IMPLEMENTED.
Proof.
  intros _ Hsize Henum Hread H. unfold c_add_control_mappings_from_file in H.
  cbn [negb] in H. rewrite Hsize, Henum in H. cbn [is_error] in H.
  match type of H with
  | match ?session ?m0 with _ => _ end = _ =>
      destruct (session m0) as [r1 m1|] eqn:Hrun; [|discriminate H]
  end.
  injection H as <- _ _.
  unfold bind at 1, parse_dynctrl_file in Hrun. cbn [ctx world] in Hrun.
  rewrite Hread in Hrun. cbn [is_error] in Hrun.
  unfold apply_to_devices in Hrun. apply bind_inversion in Hrun.
  destruct Hrun as ([r2 n] & m2 & Hloop & Hrun).
  apply device_loop_result in Hloop; [|left; reflexivity].
  destruct (n =? 0); injection Hrun as <- _; [right; left; reflexivity|].
  exact Hloop.
Qed.

(** ** Sessions that reach no device *)

(** X21. A file that the XML parser rejects ends the session with
    [C_PARSE_ERROR] before any device is opened: the world is as it was,
    and the one message is the parser's error, at its line and column. The
    [info] structure of the caller, if any, holds no message when the
    session starts. *)
Theorem malformed_document_touches_no_device (file_name : cstr)
    (caller_info : option CDynctrlInfo) (w : World) (devices : list CDevice)
    (e_line e_col : Z) (e_message : cstr) :
  info_messages caller_info = [] ->
  c_enum_devices_size env w = C_BUFFER_TOO_SMALL ->
  c_enum_devices env w = (C_SUCCESS, devices) ->
  xmlCtxtReadFile env w file_name = inr (e_line, e_col, e_message) ->
  c_add_control_mappings_from_file true (Some file_name) caller_info w
  = Some
      (C_PARSE_ERROR,
       info
         (logged (malformed_message e_line e_col e_message)
            (new_context caller_info)),
       w).
Proof.
  intros _ Hsize Henum Hread. unfold c_add_control_mappings_from_file.
  cbn [negb]. rewrite Hsize, Henum. cbn [is_error].
  unfold bind at 1, parse_dynctrl_file. cbn [ctx world]. rewrite Hread.
  unfold add_message. rewrite add_message_v_logs. reflexivity.
Qed.

Lemma device_loop_not_uvc (xml_doc : option xmlDoc) (devices : list CDevice)
    (r : CResult) (n : Z) (m : Machine) :
  Forall (fun device => driver device <> "uvcvideo") devices ->
  device_loop xml_doc devices r n m
  = Returns (r, n)
      (mkMachine (logged_all (map not_uvc_message devices) (ctx m))
         (world m)).
Proof.
  intro H. revert m. induction H as [|device rest Hdrv _ IH]; intro m.
  - simpl. unfold ret. now rewrite machine_eta.
  - cbn [device_loop]. unfold bind at 1, device_iteration.
    apply String.eqb_neq in Hdrv. rewrite Hdrv. cbn [negb].
    rewrite add_info_logs. unfold ret at 1. rewrite IH. reflexivity.
Qed.

(** X22. On a host where no device is driven by [uvcvideo] the session returns
    [C_INVALID_DEVICE] without opening any device: the world is as it was,
    and the log, which holds no message when the session starts, gains one
    message of severity info for each device, in the order of the
    enumeration. *)
Theorem session_without_uvc_device (file_name : cstr)
    (caller_info : option CDynctrlInfo) (w : World) (devices : list CDevice)
    (doc : xmlDoc) :
  info_messages caller_info = [] ->
  c_enum_devices_size env w = C_BUFFER_TOO_SMALL ->
  c_enum_devices env w = (C_SUCCESS, devices) ->
  xmlCtxtReadFile env w file_name = inl doc ->
  Forall (fun device => driver device <> "uvcvideo") devices ->
  c_add_control_mappings_from_file true (Some file_name) caller_info w
  = Some
      (C_INVALID_DEVICE,
       info
         (logged_all (map not_uvc_message devices) (new_context caller_info)),
       w).
Proof.
  intros _ Hsize Henum Hread Hdevices.
  unfold c_add_control_mappings_from_file.
  cbn [negb]. rewrite Hsize, Henum. cbn [is_error].
  unfold bind at 1, parse_dynctrl_file. cbn [ctx world]. rewrite Hread.
  cbn [is_error]. unfold apply_to_devices, bind.
  rewrite (device_loop_not_uvc _ _ _ _ _ Hdevices). reflexivity.
Qed.

(** ** Declarations that are rejected *)

(** X13. A control whose fields resolve and whose size is negative or above
    0xFFFF is not declared: nothing is sent to the driver and nothing is put
    on the registry, and the log gains the message about the size. The code
    that [process_control] returns is nevertheless [C_SUCCESS]: the result
    of the resolution of the size is still in [ret] when the declaration is
    given up. *)
Theorem out_of_range_size_returns_success
    (node : xmlNode) (m : Machine) (id : cstr) (entity : guid_bytes)
    (selector index size : Z) :
  xmlGetProp node "id" = Some id ->
  lookup_or_convert_to_guid (adjacent_memory env)
    (xml_get_node_text (xml_get_first_child_by_name node "entity"))
    (repeat 0 GUID_SIZE) (constants (ctx m)) = (C_SUCCESS, entity) ->
  lookup_or_convert_to_integer
    (xml_get_node_text (xml_get_first_child_by_name node "selector"))
    0 (constants (ctx m)) = (C_SUCCESS, selector) ->
  lookup_or_convert_to_integer
    (xml_get_node_text (xml_get_first_child_by_name node "index"))
    selector (constants (ctx m)) = (C_SUCCESS, index) ->
  lookup_or_convert_to_integer
    (xml_get_node_text (xml_get_first_child_by_name node "size"))
    index (constants (ctx m)) = (C_SUCCESS, size) ->
  is_valid_size size 65535 = false ->
  process_control node m
  = Returns C_SUCCESS (log_machine (invalid_size_message node) m).
Proof.
  intros Hid Hentity Hselector Hindex Hsize Hvalid.
  unfold process_control. rewrite Hid.
  unfold bind at 1, get_ctx.
  rewrite Hentity. cbn [is_error]. rewrite Hselector. cbn [is_error].
  rewrite Hindex. cbn [is_error]. rewrite Hsize, Hvalid.
  cbn [is_error orb negb]. rewrite add_error_at_node_logs. reflexivity.
Qed.






(** ** The statistics *)

Section Counting.

(** A measure of the statistics that goes up by [dk], [dc] and [dm] when a
    constant, a control and a mapping is counted, whatever its result. *)
Variable mu : CDynctrlStats -> Z.
Variables dk dc dm : Z.

Hypothesis mu_constant :
  forall r s, to_u32 (mu (count_constant r s)) = to_u32 (mu s + dk).
Hypothesis mu_control :
  forall r s, to_u32 (mu (count_control r s)) = to_u32 (mu s + dc).
Hypothesis mu_mapping :
  forall r s, to_u32 (mu (count_mapping r s)) = to_u32 (mu s + dm).

Lemma counts_refl (m : Machine) : counts mu 0 m m.
Proof.
  unfold counts. destruct (info (ctx m)); [|exact I]. now rewrite Z.add_0_r.
Qed.

Lemma counts_trans (k k' : Z) (m1 m2 m3 : Machine) :
  counts mu k m1 m2 -> counts mu k' m2 m3 -> counts mu (k + k') m1 m3.
Proof.
  unfold counts, to_u32.
  destruct (info (ctx m1)) as [i1|], (info (ctx m2)) as [i2|],
    (info (ctx m3)) as [i3|]; try tauto.
  intros H1 H2. rewrite H2, <- Z.add_mod_idemp_l, H1 by lia.
  rewrite Z.add_mod_idemp_l by lia. f_equal. lia.
Qed.

Lemma counts_trans_0 (m1 m2 m3 : Machine) :
  counts mu 0 m1 m2 -> counts mu 0 m2 m3 -> counts mu 0 m1 m3.
Proof. apply counts_trans. Qed.

Lemma counts_same (m m' : Machine) :
  option_map stats (info (ctx m')) = option_map stats (info (ctx m)) ->
  counts mu 0 m m'.
Proof.
  unfold counts.
  destruct (info (ctx m)) as [i|], (info (ctx m')) as [i'|];
    try discriminate; [|tauto].
  intros [= ->]. now rewrite Z.add_0_r.
Qed.

Lemma stats_logged (msg : CDynctrlMessage) (c : ParseContext) :
  option_map stats (info (logged msg c)) = option_map stats (info c).
Proof.
  unfold logged. destruct (info c) as [i|] eqn:Hi; [|now rewrite Hi].
  destruct (CD_REPORT_ERRORS (flags i)); [|now rewrite Hi].
  unfold resize_message_buffer, map_info. now rewrite Hi.
Qed.

Lemma counts_counted (f : CResult -> CDynctrlStats -> CDynctrlStats)
    (d : Z) (r : CResult) (m : Machine) :
  (forall r s, to_u32 (mu (f r s)) = to_u32 (mu s + d)) ->
  counts mu d m (with_ctx (counted f r) m).
Proof.
  intro H. unfold counts, with_ctx, counted, map_info.
  cbn [ctx info set_info].
  destruct (info (ctx m)) as [i|]; [|exact I]. apply H.
Qed.

(** The steps of the engine that count nothing. *)
Ltac count_step :=
  intros;
  first
    [ apply counts_refl
    | eapply counts_trans_0; eassumption
    | apply counts_same; apply stats_logged
    | apply counts_same; reflexivity ].

Lemma counts_loop (f : CResult -> CDynctrlStats -> CDynctrlStats) (d : Z)
    (body : xmlNode -> M CResult) (nodes : list xmlNode) (m : Machine)
    (u : unit) (m' : Machine) :
  (forall r s, to_u32 (mu (f r s)) = to_u32 (mu s + d)) ->
  (forall node, respects (counts mu 0) (body node)) ->
  for_each nodes (fun node => r <- body node ;; update_stats (f r)) m
  = Returns u m' ->
  counts mu (d * count_of nodes) m m'.
Proof.
  intros Hf Hbody. unfold count_of. revert m.
  induction nodes as [|node rest IH]; intros m H.
  - injection H as _ <-. rewrite Z.mul_0_r. apply counts_refl.
  - cbn [for_each] in H. apply bind_inversion in H.
    destruct H as (u1 & m1 & Hnode & H).
    apply bind_inversion in Hnode. destruct Hnode as (r & m2 & Hrun & Hupd).
    injection Hupd as _ <-.
    replace (d * Z.of_nat (List.length (node :: rest)))
      with (0 + d + d * Z.of_nat (List.length rest))
      by (cbn [List.length]; lia).
    eapply counts_trans; [|exact (IH _ H)].
    eapply counts_trans; [exact (Hbody node _ _ _ Hrun)|].
    apply (counts_counted f d r m2 Hf).
Qed.

Lemma counts_flat_loop {A : Type} (g : xmlNode -> list xmlNode) (d : Z)
    (body : xmlNode -> M A) (nodes : list xmlNode) (m : Machine)
    (u : unit) (m' : Machine) :
  (forall node m a m',
     body node m = Returns a m' -> counts mu (d * count_of (g node)) m m') ->
  for_each nodes (fun node => body node ;;; ret tt) m = Returns u m' ->
  counts mu (d * count_of (flat_map g nodes)) m m'.
Proof.
  intro Hbody. unfold count_of in *. revert m.
  induction nodes as [|node rest IH]; intros m H.
  - injection H as _ <-. rewrite Z.mul_0_r. apply counts_refl.
  - cbn [for_each] in H. apply bind_inversion in H.
    destruct H as (u1 & m1 & Hnode & H).
    apply bind_inversion in Hnode. destruct Hnode as (a & m2 & Hrun & Hret).
    injection Hret as _ <-.
    replace (d * Z.of_nat (List.length (flat_map g (node :: rest))))
      with (d * Z.of_nat (List.length (g node))
            + d * Z.of_nat (List.length (flat_map g rest)))
      by (cbn [flat_map]; rewrite length_app; lia).
    eapply counts_trans; [exact (Hbody _ _ _ _ Hrun)|].
    exact (IH _ H).
Qed.

Lemma counts_process_controls (node_controls : xmlNode) (m : Machine)
    (r : CResult) (m' : Machine) :
  process_controls node_controls m = Returns r m' ->
  counts mu (dc * count_of (xml_children_by_name node_controls "control"))
    m m'.
Proof.
  unfold process_controls. intro H. apply bind_inversion in H.
  destruct H as (u & m1 & Hloop & H). injection H as _ <-.
  revert Hloop. apply counts_loop; [exact mu_control|].
  intro node. apply respects_process_control; count_step.
Qed.

Lemma counts_process_device (node_device : xmlNode) (m : Machine)
    (r : CResult) (m' : Machine) :
  process_device node_device m = Returns r m' ->
  counts mu (dc * count_of (device_controls node_device)) m m'.
Proof.
  unfold process_device, device_controls. intro H.
  destruct (xml_get_first_child_by_name node_device "controls").
  - apply bind_inversion in H. destruct H as (r1 & m1 & Hrun & H).
    injection H as _ <-. exact (counts_process_controls _ _ _ _ Hrun).
  - injection H as _ <-. unfold count_of. cbn [List.length Z.of_nat].
    rewrite Z.mul_0_r. apply counts_refl.
Qed.

Lemma counts_process_devices (node_devices : xmlNode) (m : Machine)
    (r : CResult) (m' : Machine) :
  process_devices node_devices m = Returns r m' ->
  counts mu (dc * count_of (devices_controls node_devices)) m m'.
Proof.
  unfold process_devices, devices_controls. intro H.
  apply bind_inversion in H. destruct H as (u & m1 & Hloop & H).
  injection H as _ <-. revert Hloop. apply counts_flat_loop.
  intros node m0 a m0'. apply counts_process_device.
Qed.

Lemma counts_process_mappings (node_root : xmlNode) (m : Machine)
    (r : CResult) (m' : Machine) :
  process_mappings (xml_get_first_child_by_name node_root "mappings") m
  = Returns r m' ->
  counts mu (dm * count_of (document_mappings node_root)) m m'.
Proof.
  unfold process_mappings, document_mappings. intro H.
  destruct (xml_get_first_child_by_name node_root "mappings");
    [|discriminate H].
  apply bind_inversion in H. destruct H as (u & m1 & Hloop & H).
  injection H as _ <-. revert Hloop. apply counts_loop; [exact mu_mapping|].
  intro node. apply respects_process_mapping; count_step.
Qed.

Lemma counts_process_constants (node_root : xmlNode) (m : Machine)
    (r : CResult) (m' : Machine) :
  process_constants (xml_get_first_child_by_name node_root "constants") m
  = Returns r m' ->
  counts mu (dk * count_of (document_constants node_root)) m m'.
Proof.
  unfold process_constants, document_constants. intro H.
  destruct (xml_get_first_child_by_name node_root "constants");
    [|discriminate H].
  apply bind_inversion in H. destruct H as (u & m1 & Hloop & H).
  injection H as _ <-. revert Hloop. apply counts_loop; [exact mu_constant|].
  intro node. apply respects_process_constant; count_step.
Qed.

Lemma counts_process_meta (node_meta : option xmlNode) (m : Machine)
    (r : CResult) (m' : Machine) :
  process_meta node_meta m = Returns r m' -> counts mu 0 m m'.
Proof.
  apply (respects_process_meta (counts mu 0)); try count_step.
  intros d m0. apply counts_same. unfold with_ctx, map_info.
  cbn [ctx info set_info]. now destruct (info (ctx m0)).
Qed.

(** One pass, by what it counts. *)
Lemma counts_pass (doc : xmlDoc) (node_root : xmlNode) (m : Machine)
    (r : CResult) (m' : Machine) :
  xmlDocGetRootElement doc = Some node_root ->
  process_dynctrl_doc (Some doc) m = Returns r m' ->
  counts mu
    ((if to_int (pass (ctx m) + 1) =? 1
      then dk * count_of (document_constants node_root)
      else 0)
     + dc * count_of (document_controls node_root)
     + dm * count_of (document_mappings node_root))
    m m'.
Proof.
  intros Hroot H. unfold process_dynctrl_doc in H. rewrite Hroot in H.
  apply bind_inversion in H. destruct H as (u & m1 & Hpass & H).
  injection Hpass as _ <-.
  unfold bind at 1, get_ctx at 1 in H. cbn [ctx world] in H.
  replace (pass (set_pass (to_int (pass (ctx m) + 1)) (ctx m)))
    with (to_int (pass (ctx m) + 1)) in H by reflexivity.
  apply bind_inversion in H. destruct H as (r1 & m2 & Hfirst & H).
  set (m1 := mkMachine (set_pass (to_int (pass (ctx m) + 1)) (ctx m))
               (world m)) in *.
  assert (Hm1 : counts mu 0 m m1) by (apply counts_same; reflexivity).
  assert (H12 : counts mu
                  (if to_int (pass (ctx m) + 1) =? 1
                   then dk * count_of (document_constants node_root)
                   else 0) m1 m2
                /\ r1 = C_SUCCESS).
  { destruct (to_int (pass (ctx m) + 1) =? 1).
    - apply bind_inversion in Hfirst.
      destruct Hfirst as (r0 & m3 & Hmeta & Hfirst).
      pose proof (process_meta_result _ _ _ _ Hmeta) as ->.
      cbn [is_error] in Hfirst. split.
      + rewrite <- (Z.add_0_l (dk * _)).
        apply (counts_trans _ _ m1 m3 m2);
          [exact (counts_process_meta _ _ _ _ Hmeta)|].
        exact (counts_process_constants _ _ _ _ Hfirst).
      + exact (process_constants_result _ _ _ _ Hfirst).
    - injection Hfirst as <- <-. split; [apply counts_refl|reflexivity]. }
  destruct H12 as [H12 ->]. cbn [is_error] in H.
  apply bind_inversion in H. destruct H as (u' & m3 & Hdevices & H).
  rewrite <- Z.add_assoc. rewrite <- (Z.add_0_l (_ + (_ + _))).
  apply (counts_trans _ _ m m1 m'); [exact Hm1|].
  apply (counts_trans _ _ m1 m2 m'); [exact H12|].
  apply (counts_trans _ _ m2 m3 m');
    [|exact (counts_process_mappings _ _ _ _ H)].
  unfold document_controls. revert Hdevices. apply counts_flat_loop.
  intros node m0 a m0'. apply counts_process_devices.
Qed.

End Counting.

Lemma total_count (r : CResult) (c : counters) :
  to_u32 (total (count r c)) = to_u32 (total c + 1).
Proof.
  unfold count, total, incr, to_u32.
  destruct (is_error r); cbn [successful failed].
  - rewrite Z.add_mod_idemp_l by lia. f_equal. lia.
  - rewrite Z.add_mod_idemp_r by lia. f_equal. lia.
Qed.

(** X15. Every declaration that a pass visits is counted once, in one of the
    two counters of its kind: after a pass the sum of [successful] and
    [failed] has gone up by the number of [control] nodes of the document,
    by the number of its [mapping] nodes and, on the first pass only, by
    the number of its [constant] nodes (as [unsigned int]s). A caller that
    gave an [info] structure gets one back. *)
Theorem every_declaration_is_counted_once (doc : xmlDoc)
    (node_root : xmlNode) (m : Machine) (r : CResult) (m' : Machine)
    (i : CDynctrlInfo) :
  xmlDocGetRootElement doc = Some node_root ->
  info (ctx m) = Some i ->
  process_dynctrl_doc (Some doc) m = Returns r m' ->
  exists i',
    info (ctx m') = Some i'
    /\ to_u32 (total (stats_constants (stats i')))
       = to_u32
           (total (stats_constants (stats i))
            + if to_int (pass (ctx m) + 1) =? 1
              then count_of (document_constants node_root)
              else 0)
    /\ to_u32 (total (stats_controls (stats i')))
       = to_u32
           (total (stats_controls (stats i))
            + count_of (document_controls node_root))
    /\ to_u32 (total (stats_mappings (stats i')))
       = to_u32
           (total (stats_mappings (stats i))
            + count_of (document_mappings node_root)).
Proof.
  intros Hroot Hinfo H.
  pose proof (counts_pass (fun s => total (stats_constants s)) 1 0 0
                ltac:(intros; apply total_count)
                ltac:(intros; cbn; now rewrite Z.add_0_r)
                ltac:(intros; cbn; now rewrite Z.add_0_r)
                doc node_root m r m' Hroot H) as Hk.
  pose proof (counts_pass (fun s => total (stats_controls s)) 0 1 0
                ltac:(intros; cbn; now rewrite Z.add_0_r)
                ltac:(intros; apply total_count)
                ltac:(intros; cbn; now rewrite Z.add_0_r)
                doc node_root m r m' Hroot H) as Hc.
  pose proof (counts_pass (fun s => total (stats_mappings s)) 0 0 1
                ltac:(intros; cbn; now rewrite Z.add_0_r)
                ltac:(intros; cbn; now rewrite Z.add_0_r)
                ltac:(intros; apply total_count)
                doc node_root m r m' Hroot H) as Hm.
  unfold counts in Hk, Hc, Hm. rewrite Hinfo in Hk, Hc, Hm.
  destruct (info (ctx m')) as [i'|]; [|contradiction].
  exists i'. split; [reflexivity|].
  rewrite Hk, Hc, Hm. repeat split; f_equal.
  - destruct (to_int (pass (ctx m) + 1) =? 1); lia.
  - destruct (to_int (pass (ctx m) + 1) =? 1); lia.
  - destruct (to_int (pass (ctx m) + 1) =? 1); lia.
Qed.

(** ** Declaring and resolving a constant *)

(** X11. An integer constant that is declared under a fresh name is put on the
    symbol table, and a later reference to the name resolves to its value,
    unless the name itself reads as an integer: such a name is taken for a
    number wherever it is referred to, and the constant is never found. *)
Theorem integer_constant_resolves_after_declaration
    (node : xmlNode) (m : Machine) (name : cstr) (v : Z) :
  xml_get_node_text (xml_get_first_child_by_name node "id") = Some name ->
  is_7bit name = true ->
  lookup_constant name CT_INVALID (constants (ctx m)) = None ->
  xmlGetProp node "type" = Some "integer" ->
  is_valid_integer_string
    (xml_get_node_text (xml_get_first_child_by_name node "value")) = Some v ->
  let m' :=
    with_ctx
      (fun c => set_constants (mkConstant CT_INTEGER name v [] :: constants c) c)
      m in
  process_constant node m = Returns C_SUCCESS m'
  /\ forall previous,
       lookup_or_convert_to_integer (Some name) previous (constants (ctx m'))
       = (C_SUCCESS,
          match is_valid_integer_string (Some name) with
          | Some number => number
          | None => v
          end).
Proof.
  intros Hid H7 Hfresh Htype Hvalue m'. subst m'. split.
  - unfold process_constant. rewrite Hid.
    rewrite (bind_returns _ _ _ _ _
               (unicode_to_ascii_returns (Some name) m H7)).
    unfold bind at 1, get_ctx. rewrite Hfresh, Htype.
    replace (xmlStrEqual (Some "integer") "integer") with true
      by reflexivity.
    rewrite Hvalue. reflexivity.
  - intro previous. unfold lookup_or_convert_to_integer.
    destruct (is_valid_integer_string (Some name)); [reflexivity|].
    unfold with_ctx.
    cbn [ctx constants set_constants lookup_constant c_name c_type c_value].
    rewrite String.eqb_refl. reflexivity.
Qed.

(** ** Integer literals *)

Lemma digit_cases (d : Z) :
  is_digit d ->
  d = 0 \/ d = 1 \/ d = 2 \/ d = 3 \/ d = 4 \/ d = 5 \/ d = 6 \/ d = 7
  \/ d = 8 \/ d = 9.
Proof. unfold is_digit. lia. Qed.

Lemma digit_value_digit_char (d : Z) :
  is_digit d -> digit_value (digit_char d) = Some d.
Proof.
  intro H. apply digit_cases in H.
  repeat (destruct H as [->|H]; [reflexivity|]). now subst d.
Qed.

Lemma isspace_digit_char (d : Z) : is_digit d -> isspace (digit_char d) = false.
Proof.
  intro H. apply digit_cases in H.
  repeat (destruct H as [->|H]; [reflexivity|]). now subst d.
Qed.

Lemma strtol_digits_decimal (digits : list Z) (acc : Z) (n : nat) :
  Forall is_digit digits ->
  strtol_digits 10 (decimal_text digits) acc n
  = (fold_left (fun acc d => acc * 10 + d) digits acc,
     (n + List.length digits)%nat).
Proof.
  intro H. revert acc n. induction H as [|d rest Hd _ IH]; intros acc n.
  - simpl. now rewrite Nat.add_0_r.
  - cbn [decimal_text strtol_digits fold_left List.length].
    rewrite (digit_value_digit_char d Hd).
    assert (Hlt : (d <? 10) = true) by (unfold is_digit in Hd; lia).
    rewrite Hlt, IH. f_equal. lia.
Qed.

Lemma strlen_decimal_text (digits : list Z) :
  strlen (decimal_text digits) = List.length digits.
Proof.
  unfold strlen. induction digits as [|d rest IH]; simpl; [reflexivity|].
  now rewrite IH.
Qed.

Lemma char_at_strlen (s : cstr) : char_at s (strlen s) = zero.
Proof.
  unfold char_at, strlen. induction s as [|c s IH]; simpl; [reflexivity|].
  exact IH.
Qed.

(** [strtol] with base 0 on a text whose first character is no white
    space, no sign and no zero: the digits are read in base 10. *)
Lemma strtol_base_10 (c : ascii) (s : cstr) :
  isspace c = false -> Ascii.eqb c "-" = false -> Ascii.eqb c "+" = false ->
  Ascii.eqb c "0" = false ->
  strtol (String c s) 0
  = let '(v, n) := strtol_digits 10 (String c s) 0 0 in
    if (n =? 0)%nat then (0, O) else (Z.min LONG_MAX v, n).
Proof.
  destruct c as [b0 b1 b2 b3 b4 b5 b6 b7].
  destruct b0, b1, b2, b3, b4, b5, b6, b7; intros Hspace Hminus Hplus Hzero;
    try discriminate Hspace; try discriminate Hminus;
    try discriminate Hplus; try discriminate Hzero; reflexivity.
Qed.

Lemma digit_char_leading (d : Z) :
  1 <= d <= 9 ->
  isspace (digit_char d) = false
  /\ Ascii.eqb (digit_char d) "-" = false
  /\ Ascii.eqb (digit_char d) "+" = false
  /\ Ascii.eqb (digit_char d) "0" = false
  /\ Ascii.eqb (digit_char d) zero = false.
Proof.
  intro H.
  assert (Hcases : d = 1 \/ d = 2 \/ d = 3 \/ d = 4 \/ d = 5 \/ d = 6
                   \/ d = 7 \/ d = 8 \/ d = 9) by lia.
  repeat (destruct Hcases as [->|Hcases]; [repeat split|]).
  subst d. repeat split.
Qed.

Lemma strtol_decimal (d : Z) (rest : list Z) :
  1 <= d <= 9 -> Forall is_digit rest ->
  strtol (decimal_text (d :: rest)) 0
  = (Z.min LONG_MAX (decimal_value (d :: rest)), S (List.length rest)).
Proof.
  intros Hd Hrest.
  assert (Hall : Forall is_digit (d :: rest))
    by (constructor; [unfold is_digit; lia|exact Hrest]).
  destruct (digit_char_leading d Hd) as (Hs & Hm & Hp & Hz & _).
  cbn [decimal_text]. rewrite (strtol_base_10 _ _ Hs Hm Hp Hz).
  change (String (digit_char d) (decimal_text rest))
    with (decimal_text (d :: rest)).
  rewrite (strtol_digits_decimal (d :: rest) 0 0 Hall). reflexivity.
Qed.

(** X8. A decimal numeral without a leading zero is an integer literal. Its
    value is the number that it denotes when that fits an [int]; a larger
    number is cut to a [long] and then wraps around to an [int], without
    any error. *)
Theorem decimal_literal_wraps_to_int (d : Z) (rest : list Z) :
  1 <= d <= 9 -> Forall is_digit rest ->
  is_valid_integer_string (Some (decimal_text (d :: rest)))
  = Some (to_int (Z.min LONG_MAX (decimal_value (d :: rest))))
  /\ (decimal_value (d :: rest) <= INT_MAX ->
      is_valid_integer_string (Some (decimal_text (d :: rest)))
      = Some (decimal_value (d :: rest))).
Proof.
  intros Hd Hrest.
  assert (Hvalue : is_valid_integer_string (Some (decimal_text (d :: rest)))
                   = Some (to_int (Z.min LONG_MAX
                                     (decimal_value (d :: rest))))).
  { unfold is_valid_integer_string.
    rewrite (strtol_decimal d rest Hd Hrest).
    destruct (digit_char_leading d Hd) as (_ & _ & _ & _ & Hnul).
    replace (char_at (decimal_text (d :: rest)) 0) with (digit_char d)
      by reflexivity.
    rewrite Hnul. cbn [negb andb].
    replace (S (List.length rest)) with (strlen (decimal_text (d :: rest)))
      by (rewrite strlen_decimal_text; reflexivity).
    rewrite char_at_strlen. reflexivity. }
  split; [exact Hvalue|].
  intro Hfits. rewrite Hvalue. f_equal.
  assert (Hpos : 0 <= decimal_value (d :: rest)).
  { unfold decimal_value.
    assert (Hfold : forall l acc, Forall is_digit l -> 0 <= acc ->
                      0 <= fold_left (fun a x => a * 10 + x) l acc).
    { induction l as [|x l IH]; intros acc Hl Hacc; [exact Hacc|].
      inversion Hl as [|? ? Hx Hl']; subst. cbn [fold_left].
      apply IH; [exact Hl'|unfold is_digit in Hx; lia]. }
    apply Hfold; [|lia].
    constructor; [unfold is_digit; lia|exact Hrest]. }
  unfold to_int, INT_MAX, LONG_MAX in *.
  rewrite Z.min_r by lia. rewrite Z.mod_small; lia.
Qed.

(** ** The requests of a control *)

Lemma testbit_request_flags (nodes : list xmlNode) (acc k : Z) :
  0 <= k ->
  Z.testbit (request_flags nodes acc) k
  = Z.testbit acc k
    || existsb (fun text => Z.testbit (get_uvc_request_by_name text) k)
         (request_texts nodes).
Proof.
  intro Hk. unfold request_flags, request_texts. revert acc.
  induction nodes as [|node rest IH]; intro acc.
  - simpl. now rewrite orb_false_r.
  - cbn [fold_left map existsb]. rewrite IH, Z.lor_spec.
    now rewrite orb_assoc.
Qed.

(** X10. The list of requests of a control is read as a set: two lists with the
    same texts, in any order and with any repetitions, give the same
    flags. *)
Theorem requests_are_a_set (nodes nodes' : list xmlNode) (m m' : Machine) :
  (forall text, In text (request_texts nodes)
                <-> In text (request_texts nodes')) ->
  returned (process_requests nodes 0 m)
  = returned (process_requests nodes' 0 m').
Proof.
  intro Hsame. rewrite !process_requests_returns. cbn [returned]. f_equal.
  apply Z.bits_inj'. intros k Hk. rewrite !testbit_request_flags by exact Hk.
  f_equal. apply Bool.eq_iff_eq_true. rewrite !existsb_exists.
  split; intros (text & Hin & Hbit); exists text; split; try exact Hbit;
    now apply Hsame.
Qed.

(** ** Version texts *)

Lemma strtol_10 (c : ascii) (s : cstr) :
  isspace c = false -> Ascii.eqb c "-" = false -> Ascii.eqb c "+" = false ->
  strtol (String c s) 10
  = let '(v, n) := strtol_digits 10 (String c s) 0 0 in
    if (n =? 0)%nat then (0, O) else (Z.min LONG_MAX v, n).
Proof.
  destruct c as [b0 b1 b2 b3 b4 b5 b6 b7].
  destruct b0, b1, b2, b3, b4, b5, b6, b7; intros Hspace Hminus Hplus;
    try discriminate Hspace; try discriminate Hminus;
    try discriminate Hplus; reflexivity.
Qed.

Lemma digit_char_plain (d : Z) :
  is_digit d ->
  isspace (digit_char d) = false
  /\ Ascii.eqb (digit_char d) "-" = false
  /\ Ascii.eqb (digit_char d) "+" = false.
Proof.
  intro H. apply digit_cases in H.
  repeat (destruct H as [->|H]; [repeat split|]).
  subst d. repeat split.
Qed.

(** The digits of a numeral that a character which is no digit follows,
    or nothing. *)
Lemma strtol_digits_decimal_then (digits : list Z) (tail : cstr) (acc : Z)
    (n : nat) :
  Forall is_digit digits ->
  match tail with
  | String c _ => digit_value c = None
  | EmptyString => True
  end ->
  strtol_digits 10 (decimal_text digits ++ tail) acc n
  = (fold_left (fun acc d => acc * 10 + d) digits acc,
     (n + List.length digits)%nat).
Proof.
  intros H Htail. revert acc n. induction H as [|d rest Hd _ IH]; intros acc n.
  - cbn [decimal_text append fold_left List.length]. rewrite Nat.add_0_r.
    destruct tail as [|c tail]; [reflexivity|].
    cbn [strtol_digits]. now rewrite Htail.
  - cbn [decimal_text append strtol_digits fold_left List.length].
    rewrite (digit_value_digit_char d Hd).
    assert (Hlt : (d <? 10) = true) by (unfold is_digit in Hd; lia).
    rewrite Hlt, IH. f_equal. lia.
Qed.

Lemma char_at_append (s t : cstr) :
  char_at (s ++ t) (strlen s) = char_at t 0.
Proof.
  unfold char_at, strlen. induction s as [|c s IH]; simpl; [reflexivity|].
  exact IH.
Qed.

Lemma substring_append (s t : cstr) :
  substring (strlen s) (strlen t) (s ++ t) = t.
Proof.
  unfold strlen. induction s as [|c s IH]; simpl.
  - induction t as [|c t IHt]; simpl; [reflexivity|]. now rewrite IHt.
  - exact IH.
Qed.

Lemma strlen_append (s t : cstr) :
  strlen (s ++ t) = (strlen s + strlen t)%nat.
Proof.
  unfold strlen. induction s as [|c s IH]; simpl; [reflexivity|].
  now rewrite IH.
Qed.

Lemma decimal_value_nonnegative (digits : list Z) :
  Forall is_digit digits -> 0 <= decimal_value digits.
Proof.
  unfold decimal_value.
  assert (Hfold : forall l acc, Forall is_digit l -> 0 <= acc ->
                    0 <= fold_left (fun a x => a * 10 + x) l acc).
  { induction l as [|x l IH]; intros acc Hl Hacc; [exact Hacc|].
    inversion Hl as [|? ? Hx Hl']; subst. cbn [fold_left].
    apply IH; [exact Hl'|unfold is_digit in Hx; lia]. }
  intro H. apply Hfold; [exact H|lia].
Qed.

(** [strtol] with base 10 on a numeral and what follows it. *)
Lemma strtol_10_decimal (d : Z) (rest : list Z) (tail : cstr) :
  Forall is_digit (d :: rest) ->
  match tail with
  | String c _ => digit_value c = None
  | EmptyString => True
  end ->
  strtol (decimal_text (d :: rest) ++ tail) 10
  = (Z.min LONG_MAX (decimal_value (d :: rest)), S (List.length rest)).
Proof.
  intros Hall Htail.
  assert (Hd : is_digit d) by now inversion Hall.
  destruct (digit_char_plain d Hd) as (Hs & Hm & Hp).
  cbn [decimal_text append]. rewrite (strtol_10 _ _ Hs Hm Hp).
  change (String (digit_char d) (decimal_text rest ++ tail))
    with (decimal_text (d :: rest) ++ tail)%string.
  rewrite (strtol_digits_decimal_then (d :: rest) tail 0 0 Hall Htail).
  reflexivity.
Qed.

(** X9. A version text "x.y" of two decimal numerals that fit an [int] is read
    as the major version x and the minor version y, leading zeros
    included; the conversion reports that it found a number. *)
Theorem version_text_is_read_as_major_and_minor (a : Z) (major_rest : list Z)
    (b : Z) (minor_rest : list Z) :
  Forall is_digit (a :: major_rest) -> Forall is_digit (b :: minor_rest) ->
  decimal_value (a :: major_rest) <= INT_MAX ->
  decimal_value (b :: minor_rest) <= INT_MAX ->
  string_to_version
    (decimal_text (a :: major_rest) ++ "." ++ decimal_text (b :: minor_rest))
  = (decimal_value (a :: major_rest), decimal_value (b :: minor_rest), true).
Proof.
  intros Ha Hb Hamax Hbmax.
  pose proof (decimal_value_nonnegative _ Ha) as Ha0.
  pose proof (decimal_value_nonnegative _ Hb) as Hb0.
  unfold string_to_version.
  rewrite (strtol_10_decimal a major_rest
             ("." ++ decimal_text (b :: minor_rest)) Ha eq_refl).
  replace (S (List.length major_rest))
    with (strlen (decimal_text (a :: major_rest)))
    by (rewrite strlen_decimal_text; reflexivity).
  rewrite char_at_append.
  replace (char_at ("." ++ decimal_text (b :: minor_rest)) 0) with "."%char
    by reflexivity.
  replace (Ascii.eqb "." ".") with true by reflexivity.
  replace (S (strlen (decimal_text (a :: major_rest))))
    with (strlen (decimal_text (a :: major_rest) ++ "."))
    by (rewrite strlen_append; unfold strlen; simpl; lia).
  replace (decimal_text (a :: major_rest) ++ "."
           ++ decimal_text (b :: minor_rest))%string
    with ((decimal_text (a :: major_rest) ++ ".")
          ++ decimal_text (b :: minor_rest))%string
    by (rewrite append_assoc; reflexivity).
  replace (strlen
             ((decimal_text (a :: major_rest) ++ ".")
              ++ decimal_text (b :: minor_rest))
           - strlen (decimal_text (a :: major_rest) ++ "."))%nat
    with (strlen (decimal_text (b :: minor_rest)))
    by (rewrite (strlen_append (_ ++ ".")); lia).
  rewrite substring_append. unfold atoi.
  rewrite <- (append_empty (decimal_text (b :: minor_rest))).
  rewrite (strtol_10_decimal b minor_rest "" Hb I). cbn [fst].
  unfold to_u32, to_int, INT_MAX, LONG_MAX in *.
  rewrite !Z.min_r by lia.
  rewrite (Z.mod_small (decimal_value (b :: minor_rest) + 2147483648)) by lia.
  rewrite !Z.mod_small by lia.
  f_equal. f_equal. lia.
Qed.

Lemma version_text_is_read_as_major_and_minor_witness :
  Forall is_digit [1; 0] /\ Forall is_digit [0; 5]
  /\ decimal_value [1; 0] <= INT_MAX /\ decimal_value [0; 5] <= INT_MAX
  /\ string_to_version "10.05" = (10, 5, true).
Proof.
  assert (Ha : Forall is_digit [1; 0])
    by (repeat constructor; unfold is_digit; lia).
  assert (Hb : Forall is_digit [0; 5])
    by (repeat constructor; unfold is_digit; lia).
  assert (Hamax : decimal_value [1; 0] <= INT_MAX)
    by (unfold INT_MAX, decimal_value; simpl; lia).
  assert (Hbmax : decimal_value [0; 5] <= INT_MAX)
    by (unfold INT_MAX, decimal_value; simpl; lia).
  repeat (split; [assumption|]).
  exact (version_text_is_read_as_major_and_minor 1 [0] 0 [5] Ha Hb Hamax
           Hbmax).
Defined.


(** ** Sections that a pass cannot do without *)

Lemma bind_aborts {A B : Type} (c : M A) (k : A -> M B) (m : Machine) :
  (forall a m1, c m = Returns a m1 -> k a m1 = Aborts) ->
  bind c k m = Aborts.
Proof.
  intro H. unfold bind. destruct (c m) as [a m1|]; [|reflexivity].
  now apply H.
Qed.

(** X17. The [meta], the [constants] and the [mappings] section are mandatory:
    a pass over a document without a [mappings] section, and a first pass
    over a document without a [meta] or without a [constants] section, runs
    into an assertion and does not return, whatever else the document
    holds. *)
Theorem missing_section_aborts_the_pass (doc : xmlDoc) (node_root : xmlNode)
    (m : Machine) :
  xmlDocGetRootElement doc = Some node_root ->
  xml_get_first_child_by_name node_root "mappings" = None
  \/ (to_int (pass (ctx m) + 1) = 1
      /\ (xml_get_first_child_by_name node_root "meta" = None
          \/ xml_get_first_child_by_name node_root "constants" = None)) ->
  process_dynctrl_doc (Some doc) m = Aborts.
Proof.
  intros Hroot Hmissing. unfold process_dynctrl_doc. rewrite Hroot.
  unfold bind at 1, modify_ctx at 1.
  unfold bind at 1, get_ctx at 1. cbn [ctx world].
  replace (pass (set_pass (to_int (pass (ctx m) + 1)) (ctx m)))
    with (to_int (pass (ctx m) + 1)) by reflexivity.
  destruct Hmissing as [Hmappings|(Hfirst & Hsection)].
  - apply bind_aborts. intros r1 m1 Hrun.
    assert (Hr1 : r1 = C_SUCCESS).
    { destruct (to_int (pass (ctx m) + 1) =? 1); [|now injection Hrun].
      apply bind_inversion in Hrun.
      destruct Hrun as (r0 & m2 & Hmeta & Hrun).
      apply process_meta_result in Hmeta. subst r0. cbn [is_error] in Hrun.
      now apply process_constants_result in Hrun. }
    subst r1. cbn [is_error]. apply bind_aborts. intros u m2 _.
    now rewrite Hmappings.
  - rewrite Hfirst. cbn [Z.eqb Pos.eqb]. apply bind_aborts.
    intros r1 m1 Hrun. exfalso.
    apply bind_inversion in Hrun. destruct Hrun as (r0 & m2 & Hmeta & Hrun).
    destruct Hsection as [Hsection|Hsection].
    + rewrite Hsection in Hmeta. discriminate Hmeta.
    + apply process_meta_result in Hmeta. subst r0. cbn [is_error] in Hrun.
      rewrite Hsection in Hrun. discriminate Hrun.
Qed.

End Engine.

Arguments Returns {World A}.
Arguments Aborts {World A}.
Arguments mkMachine {World}.
Arguments ctx {World}.
Arguments world {World}.
Arguments session_stats {World}.
Arguments session_messages {World}.
Arguments session_result {World}.
Arguments returned {World A}.
Arguments final_context {World A}.
Arguments device_supports_dynctrl {World}.
Arguments process_constant {World}.
Arguments process_constants {World}.
Arguments process_control {World}.
Arguments process_dynctrl_doc {World}.
Arguments passes {World}.
Arguments device_iteration {World}.
Arguments device_loop {World}.
Arguments apply_to_devices {World}.
Arguments c_add_control_mappings_from_file {World}.
Arguments process_mapping {World}.
Arguments add_control_mappings {World}.
Arguments log_machine {World}.
Arguments with_ctx {World}.
Arguments with_world {World}.
Arguments left_by {World A}.

(** * Runs *)

Import Scenario.
Import Cases.

(** C10, at a constant of type guid whose value has four characters. *)
Lemma process_constant_guid_unvalidated_witness :
  process_constant (host supporting [] small_document)
    (constant_node 6 "guid" "G" "1234") (mkMachine first_pass tt)
  = Returns C_SUCCESS
      (mkMachine
         (mkContext (Some reporting)
            [mkConstant CT_GUID "G" 0
               [57; 57; 52; 18; 57; 57; 57; 57; 57; 57; 57; 57; 57; 57; 57;
                57]]
            1 3 [] 1)
         tt)
  /\ ((strlen "1234" < 35)%nat ->
      exists off, In off guid_read_offsets /\ in_bounds "1234" off = false).
Proof.
  exact (process_constant_guid_unvalidated unit
           (host supporting [] small_document)
           (constant_node 6 "guid" "G" "1234") "G" "1234"
           (mkMachine first_pass tt)
           eq_refl eq_refl eq_refl eq_refl eq_refl).
Defined.

(** C9, at a device whose driver accepts the probe outright. *)
Lemma probe_success_is_not_support_witness :
  let env := host accepting [video0] small_document in
  let m := mkMachine (mkContext (Some reporting) [] 0 0 [] 0) tt in
  let opened := mkContext (Some reporting) [] 1 3 [] 0 in
  (exists r,
      device_supports_dynctrl env (mkMachine opened tt)
      = Returns r (mkMachine opened tt)
      /\ (r = C_SUCCESS <-> 0 = -1 /\ 0 = EEXIST))
  /\ (0 <> -1 \/ (0 <> EPERM /\ 0 <> EEXIST) ->
      device_iteration env true false (Some small_document) video0
        C_SUCCESS 0 m
      = Returns (C_NOT_IMPLEMENTED, 0)
          (mkMachine
             (set_handle 0
                (logged (unsupported_message video0)
                   (set_v4l2_handle 0 opened)))
             tt)).
Proof.
  intros env m opened.
  apply (probe_success_is_not_support unit env true false
           (Some small_document) video0 C_SUCCESS 0 m 1 3 0 0 tt tt tt);
    [reflexivity|reflexivity|lia|reflexivity|lia|reflexivity].
Defined.

(** C4, at a declaration with one request name that is not recognized. *)
Lemma unrecognized_requests_are_logged_as_errors_witness :
  exists m',
    process_control (host supporting [video0] small_document) true
      odd_request_control (mkMachine first_pass tt)
    = Returns C_SUCCESS m'
    /\ controls (ctx m')
       = [mkControl "led"
            (mkControlInfo
               [130; 6; 97; 99; 112; 80; 171; 73; 184; 204; 179; 133; 94;
                141; 34; 29] 0 1 3 129)]
    /\ log_of (ctx m')
       = [mkMessage 24 0 CD_SEVERITY_ERROR
            (vasprintf "Invalid UVC request specified: '%s'"
               [arg_s (Some "GET_LEN")])]
    /\ (forall node_request,
           severity (request_diagnostic node_request) = CD_SEVERITY_ERROR).
Proof.
  apply (unrecognized_requests_are_logged_as_errors unit
           (host supporting [video0] small_document) true
           odd_request_control (mkMachine first_pass tt) "led"
           [130; 6; 97; 99; 112; 80; 171; 73; 184; 204; 179; 133; 94; 141;
            34; 29] 1 0 3
           (elem "requests" 23
              (map (leaf "request" 24) ["SET_CUR"; "GET_LEN"]))
           0 0 tt);
    reflexivity.
Defined.

(** C4. The diagnostic for an unrecognized request name has the severity
    error, not the severity warning: the declaration of a control with the
    request names SET_CUR and GET_LEN succeeds and leaves one message in the
    log, of severity error. *)
Lemma unrecognized_request_is_not_a_warning :
  let run :=
    process_control (host supporting [video0] small_document) true
      odd_request_control (mkMachine first_pass tt) in
  returned run = Some C_SUCCESS
  /\ option_map log_of (final_context run)
     = Some
         [mkMessage 24 0 CD_SEVERITY_ERROR
            (vasprintf "Invalid UVC request specified: '%s'"
               [arg_s (Some "GET_LEN")])]
  /\ option_map (map severity) (option_map log_of (final_context run))
     <> Some [CD_SEVERITY_WARNING].
Proof.
  split; [reflexivity|]. split; [reflexivity|]. discriminate.
Qed.

(** C2, at three passes over a document with one control. *)
Lemma registry_gains_an_entry_every_pass_witness :
  exists m',
    passes (host supporting [video0] one_control_document) true false
      one_control_document [id; id; id]
      (mkMachine (mkContext (Some reporting) [] 1 3 [] 0) tt)
    = Returns tt m'
    /\ controls (ctx m')
       = [brightness_entry; brightness_entry; brightness_entry]
    /\ ([@id unit; id; id] <> [] ->
        lookup_control "brightness" (controls (ctx m'))
        = Some brightness_entry).
Proof.
  apply (registry_gains_an_entry_every_pass unit
           (host supporting [video0] one_control_document) true false
           one_control_document
           (elem "config" 1
              [elem "meta" 2 [leaf "version" 3 "1.0"; leaf "revision" 4 "1.2"];
               elem "constants" 5 [];
               elem "devices" 20
                 [elem "device" 21 [elem "controls" 22 [brightness_control]]];
               elem "mappings" 40 []])
           brightness_control brightness_entry [id; id; id]
           (mkMachine (mkContext (Some reporting) [] 1 3 [] 0) tt));
    reflexivity.
Defined.

(** C2. After two passes over a document with one control declaration the
    registry holds two entries for it, not one. *)
Lemma registry_holds_two_entries_after_two_passes :
  let run :=
    passes (host supporting [video0] one_control_document) true false
      one_control_document [id; id]
      (mkMachine (mkContext (Some reporting) [] 1 3 [] 0) tt) in
  option_map pass (final_context run) = Some 2
  /\ option_map controls (final_context run)
     = Some [brightness_entry; brightness_entry]
  /\ option_map (fun c => List.length (controls c)) (final_context run)
     <> Some 1%nat.
Proof.
  split; [reflexivity|]. split; [reflexivity|]. discriminate.
Qed.

(** C1. A session over a document with one valid constant, one valid
    control and one valid mapping, on a host with two devices whose drivers
    accept everything: the session succeeds and logs nothing, so that every
    declaration succeeded; the constant is counted once, the control and
    the mapping once for each device; and each of them is counted in the
    counter [failed], while the counters [successful] stay at 0. *)
Theorem successful_declarations_are_counted_as_failed :
  let run :=
    c_add_control_mappings_from_file
      (host supporting [video0; video1] small_document) true false true
      (Some "logitech.xml") (Some reporting) tt in
  session_result run = Some C_SUCCESS
  /\ session_messages run = Some []
  /\ session_stats run
     = Some (mkStats (mkCounters 0 1) (mkCounters 0 2) (mkCounters 0 2)).
Proof. repeat split. Qed.

(** C5. Two constants of the name A, with the values 1 and 2: the first
    declaration succeeds, the second fails and is logged as an error, the
    table keeps the first only, and the name resolves to 1. The first
    declaration is counted in [failed] and the duplicate in [successful]. *)
Theorem duplicate_constant_is_counted_as_successful :
  let env := host supporting [video0] small_document in
  let first := constant_node 6 "integer" "A" "1" in
  let duplicate := constant_node 9 "integer" "A" "2" in
  let after_first := process_constant env first (mkMachine first_pass tt) in
  let one := process_constants env (Some (elem "constants" 5 [first]))
               (mkMachine first_pass tt) in
  let both :=
    process_constants env (Some (elem "constants" 5 [first; duplicate]))
      (mkMachine first_pass tt) in
  returned after_first = Some C_SUCCESS
  /\ option_map
       (fun c => returned (process_constant env duplicate (mkMachine c tt)))
       (final_context after_first)
     = Some (Some C_PARSE_ERROR)
  /\ option_map constants (final_context both)
     = Some [mkConstant CT_INTEGER "A" 1 []]
  /\ option_map
       (fun c => lookup_or_convert_to_integer (Some "A") 0 (constants c))
       (final_context both)
     = Some (C_SUCCESS, 1)
  /\ option_map log_of (final_context both)
     = Some
         [mkMessage 9 0 CD_SEVERITY_ERROR
            (vasprintf
               "Constant '%s' has already been defined. Ignoring redefinition."
               [arg_s (Some "A")])]
  /\ option_map (fun c => option_map (fun i => stats_constants (stats i))
                            (info c))
       (final_context one)
     = Some (Some (mkCounters 0 1))
  /\ option_map (fun c => option_map (fun i => stats_constants (stats i))
                            (info c))
       (final_context both)
     = Some (Some (mkCounters 1 1)).
Proof. repeat split. Qed.

(** C3. A host with two UVC devices, the first with a driver that supports
    dynamic controls and the second with a driver that rejects the probe:
    the first device is applied to successfully, and the session returns
    the result of the second device, [C_NOT_IMPLEMENTED]. With the devices
    in the other order the session returns [C_SUCCESS]. *)
Theorem session_returns_result_of_last_device :
  let run devices :=
    c_add_control_mappings_from_file
      (host only_first devices small_document) true false true
      (Some "logitech.xml") (Some reporting) tt in
  let loop devices :=
    device_loop (host only_first devices small_document) true false
      (Some small_document) devices C_SUCCESS 0
      (mkMachine (mkContext (Some reporting) [] 0 0 [] 0) tt) in
  returned (loop [video0; video1]) = Some (C_NOT_IMPLEMENTED, 1)
  /\ session_result (run [video0; video1]) = Some C_NOT_IMPLEMENTED
  /\ returned (loop [video1; video0]) = Some (C_SUCCESS, 1)
  /\ session_result (run [video1; video0]) = Some C_SUCCESS.
Proof. repeat split. Qed.

(** ** More runs on concrete hosts *)

(** The loop over a tuner and a camera, from a log that holds the message
    about a radio. *)
Lemma devices_only_append_diagnostics_witness :
  let env := recording supporting [tuner; video0] (inl rejected_document) in
  let m :=
    mkMachine
      (mkContext
         (Some
            (reported (mkCounters 0 0) (mkCounters 0 0) (mkCounters 0 0)
               [not_uvc_message radio])) [] 0 0 [] 0) [] in
  let run :=
    device_loop env true false (Some rejected_document) [tuner; video0]
      C_SUCCESS 0 m in
  let m' := left_by run m in
  run = Returns (C_SUCCESS, 1) m'
  /\ option_map flags (info (ctx m')) = option_map flags (info (ctx m))
  /\ exists more,
       log_of (ctx m') = (log_of (ctx m) ++ more)%list
       /\ Forall no_warning more.
Proof.
  intros env m run m'. split; [vm_compute; reflexivity|].
  apply (devices_only_append_diagnostics (list event) env true false
           (Some rejected_document) [tuner; video0] C_SUCCESS 0 m
           C_SUCCESS 1 m').
  vm_compute. reflexivity.
Defined.

(** The pass for a second device. *)
Lemma later_pass_keeps_declarations_witness :
  let env := host supporting [video0; video1] small_document in
  let m := mkMachine (mkContext (Some reporting) [constant_A] 2 4 [] 1) tt in
  let run := process_dynctrl_doc env true false (Some small_document) m in
  let m' := left_by run m in
  1 <= pass (ctx m) < INT_MAX
  /\ run = Returns C_SUCCESS m'
  /\ pass (ctx m') = pass (ctx m) + 1
  /\ constants (ctx m') = constants (ctx m)
  /\ option_map meta (info (ctx m')) = option_map meta (info (ctx m))
  /\ option_map (fun i => stats_constants (stats i)) (info (ctx m'))
     = option_map (fun i => stats_constants (stats i)) (info (ctx m)).
Proof.
  intros env m run m'.
  assert (Hpass : 1 <= pass (ctx m) < INT_MAX) by (unfold INT_MAX; simpl; lia).
  split; [exact Hpass|]. split; [reflexivity|].
  apply (later_pass_keeps_declarations unit env true false small_document m
           C_SUCCESS m' Hpass).
  reflexivity.
Defined.

(** A camera whose driver supports dynamic controls. *)
Lemma add_control_mappings_closes_its_descriptor_witness :
  let env := recording supporting [video0] (inl small_document) in
  let m := mkMachine (mkContext (Some reporting) [] 1 0 [] 0) [] in
  let run := add_control_mappings env true false (Some small_document) m in
  let m' := left_by run m in
  let opened :=
    open_v4l2_device env (world m)
      (handle_v4l2_name env (world m) (handle (ctx m))) in
  run = Returns C_SUCCESS m'
  /\ v4l2_handle (ctx m') = 0
  /\ handle (ctx m') = handle (ctx m)
  /\ (fst opened = 0 -> C_SUCCESS = C_INVALID_DEVICE /\ world m' = snd opened)
  /\ (fst opened <> 0 -> exists w, world m' = close env w (fst opened)).
Proof.
  intros env m run m' opened. split; [reflexivity|].
  apply (add_control_mappings_closes_its_descriptor (list event) env true
           false (Some small_document) m C_SUCCESS m').
  reflexivity.
Defined.

(** The first pass over a document that declares A again, from a table
    that holds A. *)
Lemma constants_keep_their_values_witness :
  let env := host supporting [video0] redefining_document in
  let m := mkMachine (mkContext (Some reporting) [constant_A] 1 3 [] 0) tt in
  let run := process_dynctrl_doc env true false (Some redefining_document) m in
  let m' := left_by run m in
  run = Returns C_SUCCESS m'
  /\ (NoDup (constant_names (ctx m)) -> NoDup (constant_names (ctx m')))
  /\ forall name kind k,
       lookup_constant name kind (constants (ctx m)) = Some k ->
       lookup_constant name kind (constants (ctx m')) = Some k.
Proof.
  intros env m run m'. split; [reflexivity|].
  apply (constants_keep_their_values unit env true false
           (Some redefining_document) m C_SUCCESS m').
  reflexivity.
Defined.

(** A session over a document whose constant, control and mapping are all
    rejected. *)
Lemma declaration_errors_do_not_fail_the_session_witness :
  let env := recording supporting [video0] (inl rejected_document) in
  let run :=
    c_add_control_mappings_from_file env true false true
      (Some "logitech.xml") (Some reporting) [] in
  let info' := match run with Some (_, i, _) => i | None => None end in
  let w' := match run with Some (_, _, w) => w | None => [] end in
  info_messages (Some reporting) = []
  /\ c_enum_devices_size env [] = C_BUFFER_TOO_SMALL
  /\ c_enum_devices env [] = (C_SUCCESS, [video0])
  /\ xmlCtxtReadFile env [] "logitech.xml" = inl rejected_document
  /\ run = Some (C_SUCCESS, info', w')
  /\ (C_SUCCESS = C_SUCCESS \/ C_SUCCESS = C_INVALID_DEVICE
      \/ C_SUCCESS = C_CANNOT_WRITE \/ C_SUCCESS = C_NOT_IMPLEMENTED).
Proof.
  intros env run info' w'.
  repeat (split; [vm_compute; reflexivity|]).
  apply (declaration_errors_do_not_fail_the_session (list event) env true
           false "logitech.xml" (Some reporting) [] [video0]
           rejected_document C_SUCCESS info' w');
    vm_compute; reflexivity.
Defined.

(** A file that does not parse, on a host with a camera. *)
Lemma malformed_document_touches_no_device_witness :
  let env :=
    recording supporting [video0]
      (inr (3, 14, "Opening and ending tag mismatch")) in
  info_messages (Some reporting) = []
  /\ c_enum_devices_size env [] = C_BUFFER_TOO_SMALL
  /\ c_enum_devices env [] = (C_SUCCESS, [video0])
  /\ xmlCtxtReadFile env [] "logitech.xml"
     = inr (3, 14, "Opening and ending tag mismatch")
  /\ c_add_control_mappings_from_file env true false true
       (Some "logitech.xml") (Some reporting) []
     = Some
         (C_PARSE_ERROR,
          info
            (logged
               (malformed_message 3 14 "Opening and ending tag mismatch")
               (new_context (Some reporting))),
          []).
Proof.
  intro env. repeat (split; [reflexivity|]).
  apply (malformed_document_touches_no_device (list event) env true false
           "logitech.xml" (Some reporting) [] [video0] 3 14
           "Opening and ending tag mismatch");
    reflexivity.
Defined.

(** A host with a tuner and a radio. *)
Lemma session_without_uvc_device_witness :
  let env := recording supporting [tuner; radio] (inl small_document) in
  info_messages (Some reporting) = []
  /\ c_enum_devices_size env [] = C_BUFFER_TOO_SMALL
  /\ c_enum_devices env [] = (C_SUCCESS, [tuner; radio])
  /\ xmlCtxtReadFile env [] "logitech.xml" = inl small_document
  /\ Forall (fun device => driver device <> "uvcvideo") [tuner; radio]
  /\ c_add_control_mappings_from_file env true false true
       (Some "logitech.xml") (Some reporting) []
     = Some
         (C_INVALID_DEVICE,
          info
            (logged_all (map not_uvc_message [tuner; radio])
               (new_context (Some reporting))),
          []).
Proof.
  intro env.
  assert (Hdrivers : Forall (fun device => driver device <> "uvcvideo")
                       [tuner; radio])
    by (repeat constructor; discriminate).
  repeat (split; [reflexivity|]). split; [exact Hdrivers|].
  apply (session_without_uvc_device (list event) env true false
           "logitech.xml" (Some reporting) [] [tuner; radio] small_document);
    try reflexivity.
  exact Hdrivers.
Defined.

(** A control of 65536 bytes. *)
Lemma out_of_range_size_returns_success_witness :
  let env := host supporting [video0] small_document in
  let m := mkMachine first_pass tt in
  is_valid_size 65536 65535 = false
  /\ process_control env true wide_control m
     = Returns C_SUCCESS (log_machine (invalid_size_message wide_control) m).
Proof.
  intros env m. split; [reflexivity|].
  apply (out_of_range_size_returns_success unit env true wide_control m
           "wide" (xu_entity (xu_info brightness_entry)) 1 0 65536);
    reflexivity.
Defined.


(** The first pass over a document with one constant, one control and one
    mapping, all of them rejected. *)
Lemma every_declaration_is_counted_once_witness :
  let env := host supporting [video0] rejected_document in
  let node_root :=
    match xmlDocGetRootElement rejected_document with
    | Some node => node
    | None => elem "config" 1 []
    end in
  let m := mkMachine (mkContext (Some reporting) [] 1 3 [] 0) tt in
  let run := process_dynctrl_doc env true false (Some rejected_document) m in
  let m' := left_by run m in
  xmlDocGetRootElement rejected_document = Some node_root
  /\ info (ctx m) = Some reporting
  /\ run = Returns C_SUCCESS m'
  /\ exists i',
       info (ctx m') = Some i'
       /\ to_u32 (total (stats_constants (stats i')))
          = to_u32
              (total (stats_constants (stats reporting))
               + if to_int (pass (ctx m) + 1) =? 1
                 then count_of (document_constants node_root)
                 else 0)
       /\ to_u32 (total (stats_controls (stats i')))
          = to_u32
              (total (stats_controls (stats reporting))
               + count_of (document_controls node_root))
       /\ to_u32 (total (stats_mappings (stats i')))
          = to_u32
              (total (stats_mappings (stats reporting))
               + count_of (document_mappings node_root)).
Proof.
  intros env node_root m run m'.
  repeat (split; [reflexivity|]).
  apply (every_declaration_is_counted_once unit env true false
           rejected_document node_root m C_SUCCESS m' reporting);
    reflexivity.
Defined.

(** A constant of the name 12 and the value 7: a reference to 12 is the
    number twelve. *)
Lemma integer_constant_resolves_after_declaration_witness :
  let env := host supporting [video0] small_document in
  let m := mkMachine first_pass tt in
  let m' :=
    with_ctx
      (fun c => set_constants (mkConstant CT_INTEGER "12" 7 [] :: constants c) c)
      m in
  process_constant env numeric_name_constant m = Returns C_SUCCESS m'
  /\ forall previous,
       lookup_or_convert_to_integer (Some "12") previous (constants (ctx m'))
       = (C_SUCCESS,
          match is_valid_integer_string (Some "12") with
          | Some number => number
          | None => 7
          end).
Proof.
  intros env m m'.
  apply (integer_constant_resolves_after_declaration unit env
           numeric_name_constant m "12" 7);
    reflexivity.
Defined.

(** The numeral 4294967296, which is 2 to the power 32, reads as 0. *)
Lemma decimal_literal_wraps_to_int_witness :
  1 <= 4 <= 9
  /\ Forall is_digit [2; 9; 4; 9; 6; 7; 2; 9; 6]
  /\ is_valid_integer_string (Some "4294967296") = Some 0.
Proof.
  assert (Hd : 1 <= 4 <= 9) by lia.
  assert (Hrest : Forall is_digit [2; 9; 4; 9; 6; 7; 2; 9; 6])
    by (repeat constructor; unfold is_digit; lia).
  split; [exact Hd|]. split; [exact Hrest|].
  exact (proj1 (decimal_literal_wraps_to_int 4 [2; 9; 4; 9; 6; 7; 2; 9; 6]
                  Hd Hrest)).
Defined.

(** The requests GET_CUR, SET_CUR, GET_CUR and the requests SET_CUR,
    GET_CUR. *)
Lemma requests_are_a_set_witness :
  let a := leaf "request" 24 "GET_CUR" in
  let b := leaf "request" 25 "SET_CUR" in
  let m := mkMachine first_pass tt in
  (forall text, In text (request_texts [a; b; a])
                <-> In text (request_texts [b; a]))
  /\ returned (process_requests unit [a; b; a] 0 m)
     = returned (process_requests unit [b; a] 0 m).
Proof.
  intros a b m.
  assert (Hsame : forall text, In text (request_texts [a; b; a])
                               <-> In text (request_texts [b; a]))
    by (intro text; simpl; tauto).
  split; [exact Hsame|].
  exact (requests_are_a_set unit [a; b; a] [b; a] m m Hsame).
Defined.

(** The first pass over a document without a [constants] section. *)
Lemma missing_section_aborts_the_pass_witness :
  let env := host supporting [video0] document_without_constants in
  let node_root :=
    match xmlDocGetRootElement document_without_constants with
    | Some node => node
    | None => elem "config" 1 []
    end in
  let m := mkMachine (mkContext (Some reporting) [] 1 3 [] 0) tt in
  xmlDocGetRootElement document_without_constants = Some node_root
  /\ (xml_get_first_child_by_name node_root "mappings" = None
      \/ (to_int (pass (ctx m) + 1) = 1
          /\ (xml_get_first_child_by_name node_root "meta" = None
              \/ xml_get_first_child_by_name node_root "constants" = None)))
  /\ process_dynctrl_doc env true false (Some document_without_constants) m
     = Aborts.
Proof.
  intros env node_root m.
  assert (Hmissing :
            xml_get_first_child_by_name node_root "mappings" = None
            \/ (to_int (pass (ctx m) + 1) = 1
                /\ (xml_get_first_child_by_name node_root "meta" = None
                    \/ xml_get_first_child_by_name node_root "constants"
                       = None)))
    by (right; split; [reflexivity|right; reflexivity]).
  split; [reflexivity|]. split; [exact Hmissing|].
  exact (missing_section_aborts_the_pass unit env true false
           document_without_constants node_root m eq_refl Hmissing).
Defined.
